(** * CollisionDetection: the fact-consistency pipeline, embedded in Rocq

  A shallow embedding of the Python sources
    - src/fact_checker.py  (FactConsistencyChecker)
    - src/llm_service.py   (YandexCloudLLM, the gateway)
    - src/graph_rag.py     (CustomEmbeddingModel and its cache)
    - src/chunk_getter.py  (Data: llm_chunks, node_getter)
    - main.py / api.py     (get_retrieved_nodes, main)
  together with the properties the specification states about them and
  further properties read off the code.

  Python values are modelled as the interpreter has them: a [str] is a
  sequence of Unicode code points, a [float] is a binary64, a parsed JSON
  document is a dynamically typed tree, a raised exception is the left
  summand of a result. *)

From Stdlib Require Import ZArith NArith List String Ascii Lia Bool DecimalString.
From Stdlib Require Import Floats.PrimFloat.
From stdpp Require Import gmap.
Import ListNotations.

Set Default Proof Using "Type".
#[local] Set Warnings "-inexact-float,-register-all".

(** ** Python strings *)

Module PyStr.

(** A Python [str]: its code points, in order. *)
Abbreviation pystr := (list N).

Definition byte_of_ascii (a : ascii) : N := N_of_ascii a.

(** Source literals are written as Rocq strings (UTF-8 bytes) and decoded
    to code points, so that slicing counts characters as Python does. *)
Fixpoint utf8_decode (bs : list N) : pystr :=
  match bs with
  | [] => []
  | b :: r =>
      if (b <? 128)%N then b :: utf8_decode r
      else if (b <? 224)%N then
        match r with
        | c1 :: r1 =>
            N.lor (N.shiftl (N.land b 31) 6) (N.land c1 63) :: utf8_decode r1
        | [] => [b]
        end
      else if (b <? 240)%N then
        match r with
        | c1 :: c2 :: r2 =>
            N.lor (N.shiftl (N.land b 15) 12)
              (N.lor (N.shiftl (N.land c1 63) 6) (N.land c2 63))
            :: utf8_decode r2
        | _ => [b]
        end
      else
        match r with
        | c1 :: c2 :: c3 :: r3 =>
            N.lor (N.shiftl (N.land b 7) 18)
              (N.lor (N.shiftl (N.land c1 63) 12)
                 (N.lor (N.shiftl (N.land c2 63) 6) (N.land c3 63)))
            :: utf8_decode r3
        | _ => [b]
        end
  end.

Definition lit (s : string) : pystr :=
  utf8_decode (map byte_of_ascii (list_ascii_of_string s)).

(** [str.isspace] for one code point, the set [str.strip()] removes. *)
Definition isspace (c : N) : bool :=
  ((9 <=? c) && (c <=? 13) || (28 <=? c) && (c <=? 32)
   || (c =? 133) || (c =? 160) || (c =? 5760)
   || (8192 <=? c) && (c <=? 8202)
   || (c =? 8232) || (c =? 8233) || (c =? 8239) || (c =? 8287)
   || (c =? 12288))%N.

Fixpoint lstrip (s : pystr) : pystr :=
  match s with
  | c :: r => if isspace c then lstrip r else s
  | [] => []
  end.

Definition rstrip (s : pystr) : pystr := rev (lstrip (rev s)).

(** [s.strip()] *)
Definition strip (s : pystr) : pystr := rstrip (lstrip s).

(** [s.startswith(p)] *)
Fixpoint startswith (p s : pystr) : bool :=
  match p, s with
  | [], _ => true
  | a :: p', b :: s' => (a =? b)%N && startswith p' s'
  | _ :: _, [] => false
  end.

(** [s.endswith(p)] *)
Definition endswith (p s : pystr) : bool := startswith (rev p) (rev s).

(** [s[n:]] and [s[:-n]] *)
Definition slice_from (n : nat) (s : pystr) : pystr := skipn n s.
Definition slice_drop_last (n : nat) (s : pystr) : pystr :=
  firstn (length s - n) s.

(** [p in s] for two strings: [p] occurs as a contiguous run of [s]. *)
Fixpoint contains (p s : pystr) : bool :=
  startswith p s ||
  match s with
  | [] => false
  | _ :: s' => contains p s'
  end.

Definition eqb (a b : pystr) : bool := bool_decide (a = b).

(** [sep.join(parts)] *)
Fixpoint join (sep : pystr) (parts : list pystr) : pystr :=
  match parts with
  | [] => []
  | [p] => p
  | p :: rest => p ++ sep ++ join sep rest
  end.

End PyStr.
Import PyStr.


(** ** Exceptions and results *)

Module Py.

(** The exception classes the modelled code raises or lets through.
    [JSONDecodeError] is a subclass of [ValueError]; [RetryError] is what
    tenacity raises when it gives up; [APIError] stands for whatever the
    remote client raises (transport, timeout, HTTP status). *)
Inductive exn : Type :=
| ValueError (msg : pystr)
| JSONDecodeError (msg : pystr)
| KeyError (key : pystr)
| TypeError
| AttributeError
| IndexError
| UnboundLocalError (name : pystr)
| FileNotFoundError (path : pystr)
| APIError (msg : pystr)
| RetryError (last_attempt : exn).

(** [isinstance(e, (json.JSONDecodeError, ValueError))] *)
Definition is_ValueError (e : exn) : bool :=
  match e with
  | ValueError _ | JSONDecodeError _ => true
  | _ => false
  end.

(** [str(e)] for the two classes whose text the code formats. *)
Definition str_of_exn (e : exn) : pystr :=
  match e with
  | ValueError m | JSONDecodeError m | APIError m => m
  | KeyError k => lit "'" ++ k ++ lit "'"
  | FileNotFoundError p => p
  | UnboundLocalError n => n
  | _ => []
  end.

(** A call either raises or returns. *)
Definition result (A : Type) : Type := exn + A.

Definition ret {A} (a : A) : result A := inr a.
Definition raise {A} (e : exn) : result A := inl e.
Definition bind {A B} (m : result A) (k : A -> result B) : result B :=
  match m with
  | inl e => inl e
  | inr a => k a
  end.

(** Python numbers: [int] and [float]. *)
Inductive number : Type :=
| PInt (z : Z)
| PFloat (f : float).

(** Truth value of a number: zero (of either sign) is false, NaN is true. *)
Definition number_truthy (n : number) : bool :=
  match n with
  | PInt z => negb (z =? 0)%Z
  | PFloat f => negb (PrimFloat.eqb f 0%float)
  end.

(** [x or d] where [x] is an [Optional] number. *)
Definition or_default (x : option number) (d : number) : number :=
  match x with
  | Some n => if number_truthy n then n else d
  | None => d
  end.

End Py.
Import Py.

Notation "x <- m ;; k" := (bind m (fun x => k))
(at level 100, m at next level, right associativity).

(** ** Parsed JSON documents and the operations Python applies to them *)

Module Json.

(** What [json.loads] returns: None, bool, int, float, str, list, dict.
    A dict keeps its keys in insertion order. *)
Inductive json : Type :=
| JNone
| JBool (b : bool)
| JInt (z : Z)
| JFloat (f : float)
| JStr (s : pystr)
| JList (items : list json)
| JDict (entries : list (pystr * json)).

(** [bool(v)] *)
Definition truthy (v : json) : bool :=
  match v with
  | JNone => false
  | JBool b => b
  | JInt z => negb (z =? 0)%Z
  | JFloat f => negb (PrimFloat.eqb f 0%float)
  | JStr s => negb (Nat.eqb (length s) 0)
  | JList l => negb (Nat.eqb (length l) 0)
  | JDict d => negb (Nat.eqb (length d) 0)
  end.

Fixpoint dict_get (k : pystr) (d : list (pystr * json)) : option json :=
  match d with
  | [] => None
  | (k', v) :: r => if eqb k' k then Some v else dict_get k r
  end.

(** [d[k] = v]: an existing key keeps its position, a new one is appended. *)
Fixpoint dict_set (k : pystr) (v : json) (d : list (pystr * json))
  : list (pystr * json) :=
  match d with
  | [] => [(k, v)]
  | (k', v') :: r =>
      if eqb k' k then (k', v) :: r else (k', v') :: dict_set k v r
  end.

(** [x == k] for a string [k] *)
Definition eq_str (x : json) (k : pystr) : bool :=
  match x with
  | JStr s => eqb s k
  | _ => false
  end.

(** [k in v] *)
Definition py_in (k : pystr) (v : json) : result bool :=
  match v with
  | JDict d => ret (bool_decide (is_Some (dict_get k d)))
  | JList l => ret (existsb (fun x => eq_str x k) l)
  | JStr s => ret (contains k s)
  | _ => raise TypeError
  end.

(** [all(k in v for k in keys)]: the generator stops at the first miss. *)
Fixpoint all_in (keys : list pystr) (v : json) : result bool :=
  match keys with
  | [] => ret true
  | k :: ks => b <- py_in k v ;; if b then all_in ks v else ret false
  end.

(** [v[k]] for a string [k] *)
Definition getitem (v : json) (k : pystr) : result json :=
  match v with
  | JDict d =>
      match dict_get k d with
      | Some x => ret x
      | None => raise (KeyError k)
      end
  | _ => raise TypeError
  end.

(** [v[k] = x] for a string [k] *)
Definition setitem (v : json) (k : pystr) (x : json) : result json :=
  match v with
  | JDict d => ret (JDict (dict_set k x d))
  | _ => raise TypeError
  end.

(** [v.get(k)] *)
Definition get_method (v : json) (k : pystr) : result json :=
  match v with
  | JDict d => ret (default JNone (dict_get k d))
  | _ => raise AttributeError
  end.

(** [for x in v]: the items the loop visits. *)
Definition py_iter (v : json) : result (list json) :=
  match v with
  | JList l => ret l
  | JStr s => ret (map (fun c => JStr [c]) s)
  | JDict d => ret (map (fun kv => JStr (fst kv)) d)
  | _ => raise TypeError
  end.

Definition isinstance_bool (v : json) : bool :=
  match v with JBool _ => true | _ => false end.
Definition isinstance_list (v : json) : bool :=
  match v with JList _ => true | _ => false end.
(** [isinstance(v, (int, float))]; [bool] is a subclass of [int]. *)
Definition isinstance_number (v : json) : bool :=
  match v with JInt _ | JFloat _ | JBool _ => true | _ => false end.
Definition isinstance_str (v : json) : bool :=
  match v with JStr _ => true | _ => false end.

End Json.
Import Json.

(** ** The world outside the process *)

Module World.

(** The arguments of [client.chat.completions.create]. *)
Record ChatRequest : Type := {
  rq_model : pystr;
  rq_messages : list (pystr * pystr);   (* role, content *)
  rq_temperature : number;
  rq_max_tokens : number;
  rq_timeout : number
}.

(** One request to the remote service. *)
Inductive Request : Type :=
| ChatCompletion (async : bool) (rq : ChatRequest)
| EmbeddingRequest (input model : pystr).

(** The remote language-model service: what it answers to the request
    number [n] of the process (counting from 0), text for a completion,
    a vector for an embedding, or the failure the client raises. *)
Class Remote : Type := {
  completion_reply : nat -> result pystr;
  embedding_reply : nat -> result (list float)
}.

(** Python's [json.loads]: the decoded document, or the text of the
    [JSONDecodeError]. *)
Class JsonDecoder : Type := json_loads : pystr -> pystr + json.

(** The files under the project root, by relative path. *)
Class FileSystem : Type := read_text : pystr -> option pystr.

(** The [tokens] module (credentials), absent from the sources. *)
Class Tokens : Type := { AUTH_TOKEN : pystr; FOLDER_ID : pystr }.

(** Process state: the requests sent so far, the pauses taken between
    retries (seconds), what was printed, and graph_rag's module-level
    [_embeddings_cache]. *)
Record world : Type := {
  sent : list Request;
  slept : list Z;
  stdout : list pystr;
  _embeddings_cache : gmap (list N) (list float)
}.

Definition initial : world :=
  {| sent := []; slept := []; stdout := []; _embeddings_cache := ∅ |}.

(** Code that runs in the process: it reads and changes the world and
    either raises or returns. A raise keeps the changes made so far. *)
Definition M (A : Type) : Type := world -> result A * world.

Definition retM {A} (a : A) : M A := fun w => (inr a, w).
Definition raiseM {A} (e : exn) : M A := fun w => (inl e, w).
Definition lift {A} (r : result A) : M A := fun w => (r, w).
Definition bindM {A B} (m : M A) (k : A -> M B) : M B :=
  fun w =>
    match m w with
    | (inl e, w') => (inl e, w')
    | (inr a, w') => k a w'
    end.

(** The four ways the modelled code changes the world. *)
Definition sending (r : Request) (w : world) : world :=
  {| sent := sent w ++ [r]; slept := slept w; stdout := stdout w;
     _embeddings_cache := _embeddings_cache w |}.

Definition sleeping (seconds : Z) (w : world) : world :=
  {| sent := sent w; slept := slept w ++ [seconds]; stdout := stdout w;
     _embeddings_cache := _embeddings_cache w |}.

Definition printing (line : pystr) (w : world) : world :=
  {| sent := sent w; slept := slept w; stdout := stdout w ++ [line];
     _embeddings_cache := _embeddings_cache w |}.

Definition storing (k : pystr) (v : list float) (w : world) : world :=
  {| sent := sent w; slept := slept w; stdout := stdout w;
     _embeddings_cache := <[k := v]> (_embeddings_cache w) |}.

Definition send (r : Request) : M unit := fun w => (inr tt, sending r w).
Definition sleep (seconds : Z) : M unit := fun w => (inr tt, sleeping seconds w).
Definition print (line : pystr) : M unit := fun w => (inr tt, printing line w).

Definition cache_lookup (k : pystr) : M (option (list float)) :=
  fun w => (inr (_embeddings_cache w !! k), w).

Definition cache_store (k : pystr) (v : list float) : M unit :=
  fun w => (inr tt, storing k v w).

(** [client.chat.completions.create(...).choices[0].message.content] *)
Definition chat_completions_create `{Remote} (async : bool) (rq : ChatRequest)
  : M pystr :=
  fun w => bindM (send (ChatCompletion async rq))
             (fun _ => lift (completion_reply (length (sent w)))) w.

(** [client.embeddings.create(...).data[0].embedding] *)
Definition embeddings_create `{Remote} (input model : pystr)
  : M (list float) :=
  fun w => bindM (send (EmbeddingRequest input model))
             (fun _ => lift (embedding_reply (length (sent w)))) w.

End World.
Import World.

Notation "x <~ m ;; k" := (bindM m (fun x => k))
(at level 100, m at next level, right associativity).

(** ** tenacity: the [@retry] decorator as the gateway uses it *)

Module Tenacity.

(** [wait_exponential(multiplier, min, max)] after the failed attempt
    number [attempt_number] (from 1):
    [max(max(0, min), min(multiplier * 2 ** (attempt_number - 1), max))]. *)
Definition wait_exponential (multiplier min_ max_ : Z) (attempt_number : nat)
  : Z :=
  Z.max (Z.max 0 min_)
    (Z.min (multiplier * 2 ^ (Z.of_nat attempt_number - 1)) max_).

(** Attempt [attempt_number], with [more] attempts left after it: a raise
    is retried after the pause, or wrapped in [RetryError] when the stop
    condition holds. *)
Fixpoint attempts {A} (wait : nat -> Z) (f : M A) (more : nat)
  (attempt_number : nat) : M A :=
  fun w =>
    match f w with
    | (inr a, w') => (inr a, w')
    | (inl e, w') =>
        match more with
        | O => (inl (RetryError e), w')
        | S more' =>
            bindM (sleep (wait attempt_number))
              (fun _ => attempts wait f more' (S attempt_number)) w'
        end
    end.

(** [@retry(stop=stop_after_attempt(n), wait=wait)]: the stop condition is
    [attempt_number >= n], checked after each failed attempt. *)
Definition retry {A} (stop_after_attempt : nat) (wait : nat -> Z) (f : M A)
  : M A :=
  attempts wait f (stop_after_attempt - 1) 1.

End Tenacity.
Import Tenacity.

(** ** llm_service.py: the gateway [YandexCloudLLM] *)

Module YandexCloudLLM.

(** The attributes [__init__] sets (the two clients are the [Remote]). *)
Record t : Type := {
  api_key : pystr;
  model_url : option pystr;
  model : pystr;
  temperature : number;
  max_tokens : number;
  timeout : number
}.

(** [YandexCloudLLM(api_key, folder_id, model_url, model_uri, model_type,
    temperature, max_tokens, timeout)]; [None] is an argument left out. *)
Definition __init__ (api_key folder_id : pystr)
  (model_url model_uri model_type : option pystr)
  (temperature max_tokens timeout : option number) : t :=
  {| api_key := api_key;
     model_url :=
       match model_url with
       | Some u => if truthy (JStr u) then Some u else None
       | None => None
       end;
     model := default (lit "gpt") model_type ++ lit "://" ++ folder_id
              ++ lit "/" ++ default (lit "yandexgpt-lite") model_uri
              ++ lit "/latest";
     temperature := default (PFloat 0.1) temperature;
     max_tokens := default (PInt 1000) max_tokens;
     timeout := default (PInt 30) timeout |}.

Definition message (role content : pystr) : pystr * pystr := (role, content).

(** The keyword arguments all three completion methods pass to
    [chat.completions.create]. *)
Definition create_kwargs (self : t) (messages : list (pystr * pystr))
  (temperature max_tokens : option number) : ChatRequest :=
  {| rq_model := model self;
     rq_messages := messages;
     rq_temperature := or_default temperature (YandexCloudLLM.temperature self);
     rq_max_tokens := or_default max_tokens (YandexCloudLLM.max_tokens self);
     rq_timeout := timeout self |}.

(** [except Exception as e: print(...); raise] around a body. *)
Definition print_and_reraise {A} (body : M A) : M A :=
  fun w =>
    match body w with
    | (inl e, w') =>
        bindM (print (lit "Ошибка при запросе к LLM API: " ++ str_of_exn e))
          (fun _ => raiseM e) w'
    | ok => ok
    end.

(** The body of [analyze_consistency], under the decorator. *)
Definition analyze_consistency_body `{Remote} (self : t)
  (prompt system_prompt : pystr) (temperature max_tokens : option number)
  : M pystr :=
  print_and_reraise
    (chat_completions_create false
       (create_kwargs self
          [message (lit "system") system_prompt; message (lit "user") prompt]
          temperature max_tokens)).

Definition analyze_consistency `{Remote} (self : t)
  (prompt system_prompt : pystr) (temperature max_tokens : option number)
  : M pystr :=
  retry 1 (wait_exponential 1 4 10)
    (analyze_consistency_body self prompt system_prompt temperature max_tokens).

(** [messages] as [request_gpt] and [request_gpt_async] build it. *)
Definition build_messages (prompt : pystr) (system_prompt : option pystr)
  : list (pystr * pystr) :=
  let messages :=
    match system_prompt with
    | Some sp => if truthy (JStr sp) then [message (lit "system") sp] else []
    | None => []
    end in
  messages ++ [message (lit "user") prompt].

Definition request_gpt_body `{Remote} (self : t) (prompt : pystr)
  (system_prompt : option pystr) (temperature max_tokens : option number)
  : M pystr :=
  chat_completions_create false
    (create_kwargs self (build_messages prompt system_prompt)
       temperature max_tokens).

Definition request_gpt `{Remote} (self : t) (prompt : pystr)
  (system_prompt : option pystr) (temperature max_tokens : option number)
  : M pystr :=
  retry 3 (wait_exponential 1 4 10)
    (request_gpt_body self prompt system_prompt temperature max_tokens).

Definition request_emb_body `{Remote} (self : t) (text : pystr)
  : M (list float) :=
  embeddings_create text (model self).

Definition request_emb `{Remote} (self : t) (text : pystr) : M (list float) :=
  retry 3 (wait_exponential 1 4 10) (request_emb_body self text).

(** The coroutine, run to completion where it is awaited. *)
Definition request_gpt_async_body `{Remote} (self : t) (prompt : pystr)
  (system_prompt : option pystr) (temperature max_tokens : option number)
  : M pystr :=
  print_and_reraise
    (chat_completions_create true
       (create_kwargs self (build_messages prompt system_prompt)
          temperature max_tokens)).

Definition request_gpt_async `{Remote} (self : t) (prompt : pystr)
  (system_prompt : option pystr) (temperature max_tokens : option number)
  : M pystr :=
  retry 3 (wait_exponential 1 4 10)
    (request_gpt_async_body self prompt system_prompt temperature max_tokens).

End YandexCloudLLM.

(** ** graph_rag.py: the embedding model and its process-wide cache *)

Module GraphRag.

Definition EMB_URL : pystr :=
  lit "https://llm.api.cloud.yandex.net/foundationModels/v1/textEmbedding".
Definition GPT_URL : pystr :=
  lit "https://llm.api.cloud.yandex.net/foundationModels/v1/completion".

Definition emb_model `{Tokens} : YandexCloudLLM.t :=
  YandexCloudLLM.__init__ AUTH_TOKEN FOLDER_ID (Some EMB_URL)
    (Some (lit "text-search-doc")) (Some (lit "emb")) None None None.

Definition rag_model `{Tokens} : YandexCloudLLM.t :=
  YandexCloudLLM.__init__ AUTH_TOKEN FOLDER_ID (Some GPT_URL)
    (Some (lit "yandexgpt")) None None None None.

(** [CustomEmbeddingModel._get_query_embedding] *)
Definition _get_query_embedding `{Remote} `{Tokens} (query : pystr)
  : M (list float) :=
  hit <~ cache_lookup query ;;
  match hit with
  | Some v => retM v
  | None =>
      embedding <~ YandexCloudLLM.request_emb emb_model query ;;
      _ <~ cache_store query embedding ;;
      retM embedding
  end.

(** [CustomEmbeddingModel._aget_query_embedding] *)
Definition _aget_query_embedding `{Remote} `{Tokens} (query : pystr)
  : M (list float) :=
  _get_query_embedding query.

(** [CustomEmbeddingModel._get_text_embedding] *)
Definition _get_text_embedding `{Remote} `{Tokens} (text : pystr)
  : M (list float) :=
  hit <~ cache_lookup text ;;
  match hit with
  | Some v => retM v
  | None =>
      embedding <~ YandexCloudLLM.request_emb emb_model text ;;
      _ <~ cache_store text embedding ;;
      retM embedding
  end.

(** [CustomLLMAPI.complete] and [CustomLLMAPI.acomplete] *)
Definition complete `{Remote} `{Tokens} (prompt : pystr) : M pystr :=
  YandexCloudLLM.request_gpt rag_model prompt None None None.
Definition acomplete `{Remote} `{Tokens} (prompt : pystr) : M pystr :=
  YandexCloudLLM.request_gpt_async rag_model prompt None None None.

(** The operations of the embedding model that touch the cache. *)
Inductive cache_op : Type :=
| QueryEmbedding (text : pystr)
| AsyncQueryEmbedding (text : pystr)
| TextEmbedding (text : pystr).

Definition run_op `{Remote} `{Tokens} (op : cache_op) : M (list float) :=
  match op with
  | QueryEmbedding q => _get_query_embedding q
  | AsyncQueryEmbedding q => _aget_query_embedding q
  | TextEmbedding x => _get_text_embedding x
  end.

(** The world after a sequence of embedding requests, whatever each one
    returned or raised. *)
Fixpoint run_ops `{Remote} `{Tokens} (ops : list cache_op) (w : world) : world :=
  match ops with
  | [] => w
  | op :: rest => run_ops rest (snd (run_op op w))
  end.

End GraphRag.

(** ** fact_checker.py: [FactConsistencyChecker] *)

Module FactConsistencyChecker.

(** [FactCheckResult]; the dataclass does not check its field types, so
    each field holds whatever the response held. *)
Record FactCheckResult : Type := {
  has_conflicts : json;
  has_supporting_facts : json;
  inconsistencies : json;
  supporting_facts : json;
  confidence : json;
  relevant_facts : list pystr;
  explanation : json
}.

Record t : Type := {
  llm_service : YandexCloudLLM.t;
  config : list number;
  language : pystr
}.

(** [FactConsistencyChecker(llm_service, config, language)] *)
Definition __init__ (llm_service : YandexCloudLLM.t)
  (config : option (list number)) (language : option pystr) : t :=
  {| llm_service := llm_service;
     config := default [PFloat 0.1; PInt 1000] config;
     language := default (lit "en") language |}.

(** *** [_clean_json_response] *)

Definition fence_json : pystr := lit "```json".
Definition fence : pystr := lit "```".

Definition _clean_json_response (response : pystr) : pystr :=
  let response := strip response in
  let response :=
    if startswith fence_json response then slice_from 7 response
    else if startswith fence response then slice_from 3 response
    else response in
  let response :=
    if endswith fence response then slice_drop_last 3 response
    else response in
  strip response.

(** *** [_validate_response] *)

Definition required_fields : list pystr :=
  [lit "has_conflicts"; lit "inconsistencies"; lit "supporting_facts";
   lit "confidence"; lit "explanation"].

Definition item_fields : list pystr :=
  [lit "statement"; lit "fact"; lit "explanation"].

(** [if not ok: raise ValueError(msg)] *)
Definition require (ok : bool) (msg : pystr) : result unit :=
  if ok then ret tt else raise (ValueError msg).

(** [for x in items: if not all(k in x for k in item_fields): raise] *)
Fixpoint check_items (msg : pystr) (items : list json) : result unit :=
  match items with
  | [] => ret tt
  | x :: rest =>
      ok <- all_in item_fields x ;;
      _ <- require ok msg ;;
      check_items msg rest
  end.

(** [[x for x in items if x.get('fact')]] *)
Fixpoint with_fact (items : list json) : result (list json) :=
  match items with
  | [] => ret []
  | x :: rest =>
      f <- get_method x (lit "fact") ;;
      kept <- with_fact rest ;;
      ret (if truthy f then x :: kept else kept)
  end.

(** The function changes [response] in place and returns nothing; the
    model returns the dictionary as the function leaves it. *)
Definition _validate_response (response : json) : result json :=
  present <- all_in required_fields response ;;
  _ <- require present (lit "В ответе отсутствуют обязательные поля") ;;
  v <- getitem response (lit "has_conflicts") ;;
  _ <- require (isinstance_bool v)
         (lit "Поле 'has_conflicts' должно быть boolean") ;;
  v <- getitem response (lit "has_supporting_facts") ;;
  _ <- require (isinstance_bool v)
         (lit "Поле 'has_supporting_facts' должно быть boolean") ;;
  v <- getitem response (lit "inconsistencies") ;;
  _ <- require (isinstance_list v)
         (lit "Поле 'inconsistencies' должно быть списком") ;;
  v <- getitem response (lit "supporting_facts") ;;
  _ <- require (isinstance_list v)
         (lit "Поле 'supporting_facts' должно быть списком") ;;
  v <- getitem response (lit "confidence") ;;
  _ <- require (isinstance_number v)
         (lit "Поле 'confidence' должно быть числом") ;;
  v <- getitem response (lit "explanation") ;;
  _ <- require (isinstance_str v)
         (lit "Поле 'explanation' должно быть строкой") ;;
  v <- getitem response (lit "inconsistencies") ;;
  items <- py_iter v ;;
  _ <- check_items (lit "Некорректная структура элемента inconsistencies")
         items ;;
  v <- getitem response (lit "supporting_facts") ;;
  items <- py_iter v ;;
  _ <- check_items (lit "Некорректная структура элемента supporting_facts")
         items ;;
  v <- getitem response (lit "inconsistencies") ;;
  items <- py_iter v ;;
  kept <- with_fact items ;;
  response <- setitem response (lit "inconsistencies") (JList kept) ;;
  v <- getitem response (lit "inconsistencies") ;;
  response <- (if truthy v then ret response
               else setitem response (lit "has_conflicts") (JBool false)) ;;
  v <- getitem response (lit "supporting_facts") ;;
  items <- py_iter v ;;
  kept <- with_fact items ;;
  response <- setitem response (lit "supporting_facts") (JList kept) ;;
  v <- getitem response (lit "supporting_facts") ;;
  response <- (if truthy v then ret response
               else setitem response (lit "has_supporting_facts")
                      (JBool false)) ;;
  ret response.

(** *** Prompts *)

Definition _create_prompt (text : pystr) (facts : list pystr) : pystr :=
  let formatted_facts :=
    join (lit "
") (map (fun fact => lit "- " ++ fact) facts) in
  lit "Input text to check: " ++ text ++ lit "
        Known facts: " ++ formatted_facts.

Definition _get_system_prompt `{FileSystem} (self : t) : result pystr :=
  let prompt_filename :=
    lit "system_prompt_"
    ++ (if eqb (language self) (lit "en") then lit "eng" else lit "ru")
    ++ lit ".txt" in
  let prompt_path := lit "prompts/" ++ prompt_filename in
  let prompt_path :=
    match read_text prompt_path with
    | Some _ => prompt_path
    | None => prompt_filename
    end in
  match read_text prompt_path with
  | Some content => ret content
  | None => raise (FileNotFoundError prompt_path)
  end.

Definition correction_prompt (llm_response error : pystr) : pystr :=
  lit "Ваш предыдущий ответ имел некорректный JSON формат. 
Пожалуйста, исправьте его и верните ТОЛЬКО корректный JSON без markdown разметки, без дополнительного текста, без тройных кавычек.

Ваш предыдущий ответ:
" ++ llm_response ++ lit "

Ошибка: " ++ error ++ lit "

Верните исправленный JSON в правильном формате (только JSON, без ```):".

Definition correction_system_prompt : pystr :=
  lit "Вы - помощник для исправления JSON формата. Верните ТОЛЬКО корректный JSON без markdown разметки, без тройных кавычек, без дополнительного текста.".

Definition exhausted_message (max_attempts : nat) (error : pystr) : pystr :=
  lit "Ошибка парсинга JSON ответа после "
  ++ lit (NilEmpty.string_of_uint (Nat.to_uint max_attempts))
  ++ lit " попыток: " ++ error.

(** *** [_parse_llm_response] *)

Definition _parse_llm_response (response : json)
  (relevant_facts : list pystr) : result FactCheckResult :=
  hc <- getitem response (lit "has_conflicts") ;;
  hs <- getitem response (lit "has_supporting_facts") ;;
  inc <- getitem response (lit "inconsistencies") ;;
  sup <- getitem response (lit "supporting_facts") ;;
  conf <- getitem response (lit "confidence") ;;
  expl <- getitem response (lit "explanation") ;;
  ret {| has_conflicts := hc;
         has_supporting_facts := hs;
         inconsistencies := inc;
         supporting_facts := sup;
         confidence := conf;
         relevant_facts := relevant_facts;
         explanation := expl |}.

(** *** [check_facts] *)

(** The body of the inner [try]: clean, decode, validate. *)
Definition parse_attempt `{JsonDecoder} (llm_response : pystr) : result json :=
  let cleaned_response := _clean_json_response llm_response in
  parsed_result <-
    match json_loads cleaned_response with
    | inl msg => raise (JSONDecodeError msg)
    | inr doc => ret doc
    end ;;
  _validate_response parsed_result.

(** [config[i]] *)
Definition config_item (self : t) (i : nat) : result number :=
  match nth_error (config self) i with
  | Some x => ret x
  | None => raise IndexError
  end.

(** [for attempt in range(max_attempts): ...] from the iteration that
    begins with [attempt :: rest]; returns what [parsed_result] is bound
    to when the loop is left. *)
Fixpoint attempt_loop `{Remote} `{JsonDecoder} (self : t) (max_attempts : nat)
  (range : list nat) (llm_response : pystr) : M json :=
  match range with
  | [] => raiseM (UnboundLocalError (lit "parsed_result"))
  | attempt :: rest =>
      match parse_attempt llm_response with
      | inr parsed_result => retM parsed_result
      | inl e =>
          if is_ValueError e then
            _ <~ print llm_response ;;
            if attempt <? max_attempts - 1 then
              llm_response <~
                YandexCloudLLM.analyze_consistency (llm_service self)
                  (correction_prompt llm_response (str_of_exn e))
                  correction_system_prompt
                  (Some (PFloat 0.1)) (Some (PInt 1500)) ;;
              attempt_loop self max_attempts rest llm_response
            else
              raiseM (ValueError (exhausted_message max_attempts (str_of_exn e)))
          else raiseM e
      end
  end.

Definition check_facts `{Remote} `{JsonDecoder} `{FileSystem} (self : t)
  (text : pystr) (relevant_facts : list pystr) : M FactCheckResult :=
  let prompt := _create_prompt text relevant_facts in
  system_prompt <~ lift (_get_system_prompt self) ;;
  temperature <~ lift (config_item self 0) ;;
  max_tokens <~ lift (config_item self 1) ;;
  llm_response <~
    YandexCloudLLM.analyze_consistency (llm_service self) prompt system_prompt
      (Some temperature) (Some max_tokens) ;;
  let max_attempts := 5 in
  parsed_result <~
    attempt_loop self max_attempts (seq 0 max_attempts) llm_response ;;
  lift (_parse_llm_response parsed_result relevant_facts).

End FactConsistencyChecker.

(** ** main.py and api.py: [get_retrieved_nodes] *)

Module Retrieval.

(** A retrieved node with its retrieval score. *)
Record NodeWithScore : Type := {
  node_id : pystr;
  get_text : pystr;
  score : option float
}.

(** The settings of the two sub-retrievers. *)
Record RetrieverSettings : Type := {
  include_text : bool;
  max_keywords : Z;
  similarity_top_k : Z;
  path_depth : Z
}.

(** The settings of [LLMRerank]. *)
Record RerankSettings : Type := {
  choice_batch_size : Z;
  top_n : Z;
  choice_select_prompt : pystr
}.

(** llama_index, as the function uses it: the combined retriever built
    from an index by [as_retriever], and [LLMRerank.postprocess_nodes].
    Both reach the remote service through [custom_llm] and
    [custom_embedder]. *)
Class LlamaIndex (Index : Type) : Type := {
  retrieve : Index -> RetrieverSettings -> pystr -> M (list NodeWithScore);
  postprocess_nodes :
    RerankSettings -> list NodeWithScore -> pystr -> M (list NodeWithScore)
}.

Definition prompt_str : pystr :=
  lit "A list of documents is shown below. Each document has a number next to it along with a summary of the document. A question is also provided. 
Respond with the numbers of the documents you should consult to answer the question, in order of relevance, as well as the relevance score. The relevance score is a number from 1-10 based on how relevant you think the document is to the question.
Prioritize documents based on their relevance to the question, regardless of whether they support or contradict the query. Both confirming and contradicting facts are considered equally relevant if they provide significant information, context, or arguments related to the question.
Assign relevance scores in a balanced way to fairly represent differing viewpoints or data, ensuring that conflicting evidence is not overshadowed by other documents.
Always include at least one document in the response, selecting the most relevant documents even if the relevance is low.
Do not include documents that are irrelevant to the question.
Example format: 
Document 1:
<summary of document 1>

Document 2:
<summary of document 2>

...

Document 10:
<summary of document 10>

Question: <question>
Answer:
Doc: 9, Relevance: 7
Doc: 3, Relevance: 4
Doc: 7, Relevance: 3

Let's try this now: 

{context_str}
Question: {query_str}
Answer:
".

(** The function is defined twice, in main.py and (copied) in api.py,
    with the same body; defaults: [vector_top_k=10], [reranker_top_n=3],
    [with_reranker=False]. *)
Definition get_retrieved_nodes {Index} `{LlamaIndex Index} (index : Index)
  (query_str : pystr) (vector_top_k reranker_top_n : Z)
  (with_reranker : bool) : M (list NodeWithScore) :=
  let settings :=
    {| include_text := true; max_keywords := 8;
       similarity_top_k := vector_top_k; path_depth := 5 |} in
  retrieved_nodes <~ retrieve index settings query_str ;;
  if with_reranker then
    let reranker :=
      {| choice_batch_size := 5; top_n := reranker_top_n;
         choice_select_prompt := prompt_str |} in
    retrieved_nodes <~ postprocess_nodes reranker retrieved_nodes query_str ;;
    retM retrieved_nodes
  else retM retrieved_nodes.

End Retrieval.

(** ** A decoder to run examples with

  [json.loads] is Python's; the development is parametric in it
  ([JsonDecoder]). To evaluate the verifier on concrete responses, this is
  a decoder for the documents the examples use: objects, arrays, strings
  without escapes, integers, [true], [false], [null], with the positions
  and messages of Python's errors. Escapes, fractions, exponents and the
  constants NaN and Infinity are outside of it and are reported as such. *)

Module RefJson.

Definition ws (c : N) : bool :=
  ((c =? 32) || (c =? 9) || (c =? 10) || (c =? 13))%N.

Fixpoint skip_ws (s : pystr) : pystr :=
  match s with
  | c :: r => if ws c then skip_ws r else s
  | [] => []
  end.

(** A failure: the message and how many characters were left unread at
    the position it points to. *)
Definition failure : Type := pystr * nat.

Definition unsupported : pystr := lit "outside the decoder's fragment".

(** After an opening quote; [opening] locates that quote. *)
Fixpoint scan_string (opening : nat) (s acc : pystr)
  : failure + (pystr * pystr) :=
  match s with
  | [] => inl (lit "Unterminated string starting at", opening)
  | c :: r =>
      if (c =? 34)%N then inr (rev acc, r)
      else if (c =? 92)%N then inl (unsupported, length s)
      else if (c <? 32)%N then
        inl (lit "Invalid control character at", length s)
      else scan_string opening r (c :: acc)
  end.

Definition is_digit (c : N) : bool := ((48 <=? c) && (c <=? 57))%N.

Fixpoint scan_digits (s : pystr) (acc : Z) : Z * pystr :=
  match s with
  | c :: r =>
      if is_digit c then scan_digits r (10 * acc + Z.of_N (c - 48))%Z
      else (acc, s)
  | [] => (acc, [])
  end.

(** An optional minus sign, then 0 or a digit string that does not start
    with 0; a fraction or an exponent after it is refused. *)
Definition scan_int (s : pystr) : option (failure + (json * pystr)) :=
  let '(neg, body) :=
    match s with
    | c :: r => if (c =? 45)%N then (true, r) else (false, s)
    | [] => (false, s)
    end in
  match body with
  | d :: r =>
      if is_digit d then
        let '(z, rest) :=
          if (d =? 48)%N then (0%Z, r) else scan_digits body 0 in
        match rest with
        | c :: _ =>
            if ((c =? 46) || (c =? 101) || (c =? 69))%N
            then Some (inl (unsupported, length rest))
            else Some (inr (JInt (if neg then - z else z)%Z, rest))
        | [] => Some (inr (JInt (if neg then - z else z)%Z, rest))
        end
      else None
  | [] => None
  end.

Inductive mode : Type :=
| Value
| Elements (acc : list json)
| Members (acc : list (pystr * json)).

Definition expecting_value : pystr := lit "Expecting value".
Definition expecting_name : pystr :=
  lit "Expecting property name enclosed in double quotes".
Definition expecting_colon : pystr := lit "Expecting ':' delimiter".
Definition expecting_comma : pystr := lit "Expecting ',' delimiter".

Fixpoint scan (fuel : nat) (m : mode) (s : pystr)
  : failure + (json * pystr) :=
  match fuel with
  | O => inl (unsupported, length s)
  | S fuel =>
      match m with
      | Value =>
          match s with
          | [] => inl (expecting_value, O)
          | c :: r =>
              if (c =? 34)%N then
                match scan_string (length s) r [] with
                | inl e => inl e
                | inr (str, r') => inr (JStr str, r')
                end
              else if (c =? 123)%N then
                match skip_ws r with
                | (c1 :: r2) as r1 =>
                    if (c1 =? 125)%N then inr (JDict [], r2)
                    else if (c1 =? 34)%N then scan fuel (Members []) r1
                    else inl (expecting_name, length r1)
                | [] => inl (expecting_name, O)
                end
              else if (c =? 91)%N then
                match skip_ws r with
                | (c1 :: r2) as r1 =>
                    if (c1 =? 93)%N then inr (JList [], r2)
                    else scan fuel (Elements []) r1
                | [] => inl (expecting_value, O)
                end
              else if startswith (lit "null") s then inr (JNone, skipn 4 s)
              else if startswith (lit "true") s then
                inr (JBool true, skipn 4 s)
              else if startswith (lit "false") s then
                inr (JBool false, skipn 5 s)
              else
                match scan_int s with
                | Some r => r
                | None =>
                    if startswith (lit "NaN") s
                       || startswith (lit "Infinity") s
                       || startswith (lit "-Infinity") s
                    then inl (unsupported, length s)
                    else inl (expecting_value, length s)
                end
          end
      | Elements acc =>
          match scan fuel Value s with
          | inl e => inl e
          | inr (v, r) =>
              match skip_ws r with
              | (c :: r2) as r1 =>
                  if (c =? 93)%N then inr (JList (acc ++ [v]), r2)
                  else if (c =? 44)%N then
                    scan fuel (Elements (acc ++ [v])) (skip_ws r2)
                  else inl (expecting_comma, length r1)
              | [] => inl (expecting_comma, O)
              end
          end
      | Members acc =>
          match s with
          | q :: r =>
              if (q =? 34)%N then
                match scan_string (length s) r [] with
                | inl e => inl e
                | inr (key, r1) =>
                    match skip_ws r1 with
                    | (c :: r3) as r2 =>
                        if (c =? 58)%N then
                          match scan fuel Value (skip_ws r3) with
                          | inl e => inl e
                          | inr (v, r4) =>
                              let acc := dict_set key v acc in
                              match skip_ws r4 with
                              | (c :: r6) as r5 =>
                                  if (c =? 125)%N then inr (JDict acc, r6)
                                  else if (c =? 44)%N then
                                    scan fuel (Members acc) (skip_ws r6)
                                  else inl (expecting_comma, length r5)
                              | [] => inl (expecting_comma, O)
                              end
                          end
                        else inl (expecting_colon, length r2)
                    | [] => inl (expecting_colon, O)
                    end
                end
              else inl (expecting_name, length s)
          | [] => inl (expecting_name, O)
          end
      end
  end.

Definition decimal (n : nat) : pystr :=
  lit (NilEmpty.string_of_uint (Nat.to_uint n)).

(** Line and column (from 1) of position [pos] in [doc]. *)
Fixpoint line_col (doc : pystr) (pos : nat) (line col : nat) : nat * nat :=
  match pos, doc with
  | S pos', c :: r =>
      if (c =? 10)%N then line_col r pos' (S line) 1
      else line_col r pos' line (S col)
  | _, _ => (line, col)
  end.

(** [str] of a [JSONDecodeError]:
    ["%s: line %d column %d (char %d)"]. *)
Definition errmsg (msg doc : pystr) (pos : nat) : pystr :=
  let '(line, col) := line_col doc pos 1 1 in
  msg ++ lit ": line " ++ decimal line ++ lit " column " ++ decimal col
  ++ lit " (char " ++ decimal pos ++ lit ")".

Definition loads (doc : pystr) : pystr + json :=
  match scan (S (length doc)) Value (skip_ws doc) with
  | inl (msg, unread) => inl (errmsg msg doc (length doc - unread))
  | inr (v, r) =>
      match skip_ws r with
      | [] => inr v
      | r' => inl (errmsg (lit "Extra data") doc (length doc - length r'))
      end
  end.

End RefJson.

(** ** Concrete worlds for the examples *)

Module Examples.

Definition decoder : JsonDecoder := RefJson.loads.

(** A remote that answers completions from a script, in order. *)
Definition scripted (replies : list pystr) : Remote :=
  {| completion_reply n :=
       match nth_error replies n with
       | Some r => inr r
       | None => inl (APIError (lit "connection refused"))
       end;
     embedding_reply n := inl (APIError (lit "connection refused")) |}.

(** A remote that is down. *)
Definition unreachable : Remote :=
  {| completion_reply n := inl (APIError (lit "connection refused"));
     embedding_reply n := inl (APIError (lit "connection refused")) |}.

(** A remote that embeds every text as the same vector. *)
Definition embedder (v : list float) : Remote :=
  {| completion_reply n := inl (APIError (lit "connection refused"));
     embedding_reply n := inr v |}.

Definition files : FileSystem :=
  fun path =>
    if eqb path (lit "prompts/system_prompt_eng.txt")
    then Some (lit "You check facts.") else None.

Definition tokens : Tokens :=
  {| AUTH_TOKEN := lit "key"; FOLDER_ID := lit "folder" |}.

Definition service : YandexCloudLLM.t :=
  YandexCloudLLM.__init__ (lit "key") (lit "folder") None
    (Some (lit "yandexgpt-lite")) None (Some (PFloat 0.1)) None None.

Definition checker : FactConsistencyChecker.t :=
  FactConsistencyChecker.__init__ service None (Some (lit "en")).

Definition item (statement fact explanation : pystr) : json :=
  JDict [(lit "statement", JStr statement); (lit "fact", JStr fact);
         (lit "explanation", JStr explanation)].

(** A response with every field the verifier reads. *)
Definition response (hc hs : bool) (inc sup : list json) : json :=
  JDict [(lit "has_conflicts", JBool hc);
         (lit "has_supporting_facts", JBool hs);
         (lit "inconsistencies", JList inc);
         (lit "supporting_facts", JList sup);
         (lit "confidence", JInt 1);
         (lit "explanation", JStr (lit "checked"))].

(** JSON text written with an apostrophe where the document has the
    double quote. *)
Definition quoted (s : string) : pystr :=
  map (fun c => if (c =? 39)%N then 34%N else c) (lit s).

(** A response that lacks [has_supporting_facts], and its text. *)
Definition no_support_flag : json :=
  JDict [(lit "has_conflicts", JBool true);
         (lit "inconsistencies", JList []);
         (lit "supporting_facts", JList []);
         (lit "confidence", JInt 1);
         (lit "explanation", JStr (lit "checked"))].

Definition no_support_flag_text : pystr :=
  quoted "{'has_conflicts': true, 'inconsistencies': [], 'supporting_facts': [], 'confidence': 1, 'explanation': 'checked'}".

(** A response that is JSON but has none of the fields. *)
Definition off_schema_text : pystr := quoted "{'verdict': 'consistent'}".

(** An index whose retriever finds five nodes, and a reranker that keeps
    the first [top_n]. *)
Definition node (name : pystr) : Retrieval.NodeWithScore :=
  {| Retrieval.node_id := name; Retrieval.get_text := name;
     Retrieval.score := None |}.

Definition five_nodes : Retrieval.LlamaIndex unit :=
  {| Retrieval.retrieve _ _ _ :=
       retM [node (lit "n1"); node (lit "n2"); node (lit "n3");
             node (lit "n4"); node (lit "n5")];
     Retrieval.postprocess_nodes settings nodes _ :=
       retM (firstn (Z.to_nat (Retrieval.top_n settings)) nodes) |}.

(** The verifier of the examples, run from the initial world against a
    remote that answers from [replies]. *)
Definition claim_text : pystr := lit "The treaty was signed in 1991".
Definition known_facts : list pystr :=
  [lit "The treaty was signed in 1992."; lit "Negotiations began in 1989."].

Definition run_check (replies : list pystr)
  : result FactConsistencyChecker.FactCheckResult * world :=
  @FactConsistencyChecker.check_facts (scripted replies) decoder files
    checker claim_text known_facts World.initial.

(** The replies of the model in the two scenarios. *)
Definition reply_of (replies : list pystr) (i : nat) : pystr :=
  nth i replies [].

Definition three_bad_then_valid : list pystr :=
  [lit "Sure! Here is the JSON you asked for."; quoted "{'has_conflicts': "; lit "```json
{oops}
```"; lit "```json
" ++ quoted "{'has_conflicts': false, 'has_supporting_facts': false, 'inconsistencies': [], 'supporting_facts': [], 'confidence': 1, 'explanation': 'checked'}" ++ lit "
```"].

(** The same three rejected replies, then a fenced reply that reports one
    conflict and one supporting item whose fact is empty. *)
Definition findings_text : pystr :=
  quoted "{'has_conflicts': true, 'has_supporting_facts': true, 'inconsistencies': [{'statement': 'signed in 1991', 'fact': 'The treaty was signed in 1992.', 'explanation': 'the years differ'}], 'supporting_facts': [{'statement': 'negotiated', 'fact': '', 'explanation': 'no source'}], 'confidence': 1, 'explanation': 'one conflict'}".

Definition three_bad_then_findings : list pystr :=
  firstn 3 three_bad_then_valid
  ++ [lit "```json
" ++ findings_text ++ lit "
```"].

Definition five_bad : list pystr :=
  [lit "Sure! Here is the JSON you asked for."; quoted "{'has_conflicts': ";
   lit "[1, 2"; quoted "{'verdict': 'consistent'}"; quoted "{'verdict': 'consistent'}"].

(** The error the attempt on reply [i] ends with. *)
Definition error_of (replies : list pystr) (i : nat) : exn :=
  match @FactConsistencyChecker.parse_attempt decoder (reply_of replies i) with
  | inl e => e
  | inr _ => ValueError []
  end.

Definition valid_text : pystr :=
  quoted "{'has_conflicts': false, 'has_supporting_facts': false, 'inconsistencies': [], 'supporting_facts': [], 'confidence': 1, 'explanation': 'checked'}".

End Examples.

(** ** Notions the properties are stated with *)

Module Props.
Import FactConsistencyChecker.

(** A response wrapped in code fences. *)
Definition wrap_json (s : pystr) : pystr := fence_json ++ s ++ fence.
Definition wrap_plain (s : pystr) : pystr := fence ++ s ++ fence.

(** [s], once trimmed, carries no fence of its own. *)
Definition unfenced (s : pystr) : bool :=
  negb (startswith fence (strip s)) && negb (endswith fence (strip s)).

(** What [_validate_response] leaves of a dictionary [d] whose two lists
    keep the items [kept_i] and [kept_s]. *)
Definition normalized (d : list (pystr * json)) (kept_i kept_s : list json)
  : list (pystr * json) :=
  let d := dict_set (lit "inconsistencies") (JList kept_i) d in
  let d := if truthy (JList kept_i) then d
           else dict_set (lit "has_conflicts") (JBool false) d in
  let d := dict_set (lit "supporting_facts") (JList kept_s) d in
  if truthy (JList kept_s) then d
  else dict_set (lit "has_supporting_facts") (JBool false) d.

(** The response passed validation ("structurally valid"). *)
Definition structurally_valid (response : json) : Prop :=
  exists validated, _validate_response response = inr validated.

(** Every item of the list under [key] has a fact that is not empty. *)
Definition fact_nonempty (x : json) : bool :=
  match get_method x (lit "fact") with
  | inr f => truthy f
  | inl _ => false
  end.

Definition facts_nonempty (key : pystr) (response : json) : bool :=
  match getitem response key with
  | inr (JList items) => forallb fact_nonempty items
  | _ => false
  end.

(** The verdict a response yields: validated, then turned into a
    [FactCheckResult]. *)
Definition verdict_of (response : json) (relevant_facts : list pystr)
  : result FactCheckResult :=
  validated <- _validate_response response ;;
  _parse_llm_response validated relevant_facts.

(** The request [check_facts] opens with, and the request that asks for a
    correction of [llm_response] after the error [e]. *)
Definition initial_request (self : FactConsistencyChecker.t)
  (system_prompt : pystr) (temperature max_tokens : number)
  (text : pystr) (relevant_facts : list pystr) : Request :=
  ChatCompletion false
    (YandexCloudLLM.create_kwargs (llm_service self)
       [(lit "system", system_prompt);
        (lit "user", _create_prompt text relevant_facts)]
       (Some temperature) (Some max_tokens)).

Definition correction_request (self : FactConsistencyChecker.t)
  (llm_response : pystr) (e : exn) : Request :=
  ChatCompletion false
    (YandexCloudLLM.create_kwargs (llm_service self)
       [(lit "system", correction_system_prompt);
        (lit "user", correction_prompt llm_response (str_of_exn e))]
       (Some (PFloat 0.1)) (Some (PInt 1500))).

(** An override that Python treats as false: the number zero. *)
Definition is_zero (x : option number) : bool :=
  match x with
  | Some n => negb (number_truthy n)
  | None => false
  end.

(** A function applied to a response and then to what it returned. *)
Definition twice (f : json -> result json) (response : json) : result json :=
  once <- f response ;; f once.

(** The invariant of the specification, both directions. *)
Definition flags_match_lists (v : FactCheckResult) : Prop :=
  (has_conflicts v = JBool true <-> truthy (inconsistencies v) = true) /\
  (has_supporting_facts v = JBool true <-> truthy (supporting_facts v) = true).

End Props.

(** ** chunk_getter.py: [Data] *)

Module ChunkGetter.

(** [s.split(sep)] for a separator of one character. *)
Fixpoint split (sep : N) (s : pystr) : list pystr :=
  match s with
  | [] => [[]]
  | c :: r =>
      if (c =? sep)%N then [] :: split sep r
      else
        match split sep r with
        | piece :: pieces => (c :: piece) :: pieces
        | [] => [[c]]
        end
  end.

(** [bool(s.strip())] *)
Definition nonblank (s : pystr) : bool := truthy (JStr (strip s)).

Record Data : Type := {
  input_promt : pystr;
  data_path : pystr;
  format : pystr;
  chunker : pystr;
  chunk_size : Z;
  chunk_overlap : Z
}.

(** [Data(input_promt, data_path, format, chunker, chunk_size,
    chunk_overlap)]; [None] is an argument left out. *)
Definition __init__ (input_promt data_path : pystr)
  (format chunker : option pystr) (chunk_size chunk_overlap : option Z)
  : Data :=
  {| input_promt := input_promt;
     data_path := data_path;
     format := default (lit "text") format;
     chunker := default (lit "basic") chunker;
     chunk_size := default 500%Z chunk_size;
     chunk_overlap := default 75%Z chunk_overlap |}.

(** One message of the SDK: role and text. *)
Definition sdk_message : Type := pystr * pystr.

(** What the class takes from llama_index and from the Yandex SDK:
    reading a directory, [str(doc)], [Document(text=...)], the two node
    parsers, and the text of the completion the SDK returns for [messages]
    on its run number [n] (counting from 0). *)
Class Ingestion (Document Node : Type) : Type := {
  load_data : pystr -> result (list Document);
  document_str : Document -> pystr;
  document_of_text : pystr -> Document;
  simple_node_parser : Z -> Z -> list Document -> result (list Node);
  sentence_splitter : list Document -> result (list Node);
  completions_run : nat -> list sdk_message -> result pystr
}.

(** How a call ends when it does not return: an exception, or the failed
    [assert]. *)
Inductive failure : Type :=
| Raised (e : exn)
| AssertionError (msg : pystr).

(** The runs of the SDK made so far, each with its messages. *)
Definition runs : Type := list (list sdk_message).

Definition rewrite_instruction : pystr :=
  lit "Rewrite the text so that each sentence contains exactly one fact. Leave the sequence of events unchanged".

Definition rewrite_messages {Document Node} `{Ingestion Document Node}
  (doc : Document) : list sdk_message :=
  [(lit "user", rewrite_instruction); (lit "user", document_str doc)].

(** The loop of [llm_chunks]: what [new_docs] holds when it ends. *)
Fixpoint rewritten_sentences {Document Node} `{Ingestion Document Node}
  (docs : list Document) (made : runs) : (failure + list pystr) * runs :=
  match docs with
  | [] => (inr [], made)
  | doc :: rest =>
      let messages := rewrite_messages doc in
      match completions_run (length made) messages with
      | inl e => (inl (Raised e), made ++ [messages])
      | inr new_doc =>
          if Nat.eqb (length new_doc) 0 then
            (inl (AssertionError (lit "no result")), made ++ [messages])
          else
            let sents := split 46 new_doc in
            let kept := List.filter nonblank sents in
            match rewritten_sentences rest (made ++ [messages]) with
            | (inr more, made') => (inr (kept ++ more), made')
            | (inl f, made') => (inl f, made')
            end
      end
  end.

Definition lift_result {A} (r : result A) : failure + A :=
  match r with
  | inl e => inl (Raised e)
  | inr a => inr a
  end.

(** [Data.basic_chunks] *)
Definition basic_chunks {Document Node} `{Ingestion Document Node}
  (self : Data) (docs : list Document) : failure + list Node :=
  lift_result (simple_node_parser (chunk_size self) (chunk_overlap self) docs).

(** [Data.llm_chunks] *)
Definition llm_chunks {Document Node} `{Ingestion Document Node}
  (self : Data) (docs : list Document) (made : runs)
  : (failure + list Node) * runs :=
  match rewritten_sentences docs made with
  | (inl f, made') => (inl f, made')
  | (inr new_docs, made') =>
      (lift_result (sentence_splitter (map document_of_text new_docs)), made')
  end.

(** [Data.node_getter] *)
Definition node_getter {Document Node} `{Ingestion Document Node}
  (self : Data) (made : runs) : (failure + list Node) * runs :=
  match (if eqb (format self) (lit "text") then load_data (data_path self)
         else ret []) with
  | inl e => (inl (Raised e), made)
  | inr docs =>
      match (if eqb (chunker self) (lit "basic") then basic_chunks self docs
             else inr []) with
      | inl f => (inl f, made)
      | inr nodes =>
          if eqb (chunker self) (lit "LLM") then llm_chunks self docs made
          else (inr nodes, made)
      end
  end.

End ChunkGetter.

(** ** main.py: from the index to the verdict *)

Module Main.

(** The part of [main] between the index and [print(result)]: retrieve
    with the reranker, take the text of each node, build the checker for
    the chosen language and check. *)
Definition check_prompt {Index} `{Retrieval.LlamaIndex Index} `{Remote}
  `{JsonDecoder} `{FileSystem} `{Tokens} (graph_index : Index)
  (input_promt language : pystr)
  : M FactConsistencyChecker.FactCheckResult :=
  retrieved_nodes <~
    Retrieval.get_retrieved_nodes graph_index input_promt 30 5 true ;;
  let facts := map Retrieval.get_text retrieved_nodes in
  let llm_service :=
    YandexCloudLLM.__init__ AUTH_TOKEN FOLDER_ID None
      (Some (lit "yandexgpt-lite")) None (Some (PFloat 0.1)) None None in
  let language_checker :=
    FactConsistencyChecker.__init__ llm_service None (Some language) in
  FactConsistencyChecker.check_facts language_checker input_promt facts.

End Main.

(** ** More worlds and notions for the properties *)

Module Scenes.

(** A remote that answers completions from a script of replies and
    failures, and embeddings likewise. *)
Definition staged (completions : list (result pystr))
  (embeddings : list (result (list float))) : Remote :=
  {| completion_reply n :=
       nth n completions (inl (APIError (lit "connection refused")));
     embedding_reply n :=
       nth n embeddings (inl (APIError (lit "connection refused"))) |}.

Definition timeout_error : exn := APIError (lit "Request timed out.").


(** A document that is not an object or an array or a string. *)
Definition scalar (doc : json) : bool :=
  match doc with
  | JNone | JBool _ | JInt _ | JFloat _ => true
  | _ => false
  end.

(** The keys of a dictionary, in order. *)
Definition keys (doc : json) : list pystr :=
  match doc with
  | JDict d => map fst d
  | _ => []
  end.

(** The four keys normalization writes. *)
Definition normalized_key (k : pystr) : bool :=
  eqb k (lit "inconsistencies") || eqb k (lit "has_conflicts")
  || eqb k (lit "supporting_facts") || eqb k (lit "has_supporting_facts").

(** The requests a run added to the world. *)
Definition requests_since (before after : world) : list Request :=
  skipn (length (sent before)) (sent after).

Definition is_chat (r : Request) : bool :=
  match r with
  | ChatCompletion _ _ => true
  | EmbeddingRequest _ _ => false
  end.

(** The texts a list of cache operations asks for. *)
Definition text_of (op : GraphRag.cache_op) : pystr :=
  match op with
  | GraphRag.QueryEmbedding t | GraphRag.AsyncQueryEmbedding t
  | GraphRag.TextEmbedding t => t
  end.

(** Documents and nodes that are plain texts, a reader that finds two
    documents, parsers that make one node of each document, and an SDK
    that answers from a script. *)
Definition texts (replies : list pystr) : ChunkGetter.Ingestion pystr pystr :=
  {| ChunkGetter.load_data _ :=
       inr [lit "The treaty was signed in 1992 after talks that began in 1989.";
            lit "It entered into force in 1993."];
     ChunkGetter.document_str doc := doc;
     ChunkGetter.document_of_text text := text;
     ChunkGetter.simple_node_parser _ _ docs := inr docs;
     ChunkGetter.sentence_splitter docs := inr docs;
     ChunkGetter.completions_run n _ :=
       match nth_error replies n with
       | Some r => inr r
       | None => inl (APIError (lit "connection refused"))
       end |}.

End Scenes.

(** * Properties *)

Import FactConsistencyChecker Props.

(** ** Strings *)

Section StringFacts.

Lemma lstrip_nonspace c s : isspace c = false -> lstrip (c :: s) = c :: s.
Proof. intros Hc. simpl. now rewrite Hc. Qed.

Lemma lstrip_snoc s c :
  isspace c = false -> lstrip (s ++ [c]) = lstrip s ++ [c].
Proof.
  intros Hc. induction s as [|a s IH]; simpl.
  - now rewrite Hc.
  - destruct (isspace a); [exact IH | reflexivity].
Qed.

Lemma lstrip_head s :
  lstrip s = [] \/ exists c t, lstrip s = c :: t /\ isspace c = false.
Proof.
  induction s as [|a s IH]; simpl; [now left|].
  destruct (isspace a) eqn:Ha; [exact IH|].
  right. now exists a, s.
Qed.

Lemma lstrip_idem s : lstrip (lstrip s) = lstrip s.
Proof.
  destruct (lstrip_head s) as [-> | (c & t & -> & Hc)]; [reflexivity|].
  now apply lstrip_nonspace.
Qed.

Lemma rstrip_snoc s c : isspace c = false -> rstrip (s ++ [c]) = s ++ [c].
Proof.
  intros Hc. unfold rstrip. rewrite rev_app_distr. simpl.
  rewrite Hc. simpl. now rewrite rev_involutive.
Qed.

Lemma rstrip_cons c s : isspace c = false -> rstrip (c :: s) = c :: rstrip s.
Proof.
  intros Hc. unfold rstrip. simpl.
  rewrite lstrip_snoc by exact Hc.
  now rewrite rev_app_distr.
Qed.

Lemma rstrip_idem s : rstrip (rstrip s) = rstrip s.
Proof.
  unfold rstrip. now rewrite rev_involutive, lstrip_idem.
Qed.

Lemma strip_idem s : strip (strip s) = strip s.
Proof.
  unfold strip.
  destruct (lstrip_head s) as [-> | (c & t & -> & Hc)]; [reflexivity|].
  rewrite (rstrip_cons c t Hc), (lstrip_nonspace c _ Hc).
  now rewrite <- (rstrip_cons c t Hc), rstrip_idem.
Qed.

Lemma startswith_app p s : startswith p (p ++ s) = true.
Proof.
  induction p as [|a p IH]; simpl; [reflexivity|].
  now rewrite N.eqb_refl.
Qed.

Lemma startswith_prefix p q s :
  startswith (p ++ q) s = true -> startswith p s = true.
Proof.
  revert s. induction p as [|a p IH]; intros s; simpl; [reflexivity|].
  destruct s as [|b s]; [discriminate|].
  destruct (a =? b)%N; simpl; [apply IH | discriminate].
Qed.

Lemma endswith_app p s : endswith p (s ++ p) = true.
Proof.
  unfold endswith. rewrite rev_app_distr. apply startswith_app.
Qed.

Lemma slice_drop_last_app s p : slice_drop_last (length p) (s ++ p) = s.
Proof.
  unfold slice_drop_last. rewrite length_app.
  replace (length s + length p - length p)%nat with (length s + 0)%nat by lia.
  rewrite firstn_app_2. simpl. apply app_nil_r.
Qed.

End StringFacts.

(** ** The cleaning step *)

Section Cleaning.

Lemma fence_json_chars : fence_json = [96; 96; 96; 106; 115; 111; 110]%N.
Proof. reflexivity. Qed.

Lemma fence_chars : fence = [96; 96; 96]%N.
Proof. reflexivity. Qed.

(** A fenced response has nothing to trim: it begins and ends with a
    backtick. *)
Lemma strip_fenced t : strip (fence ++ t ++ fence) = fence ++ t ++ fence.
Proof.
  assert (E : fence ++ t ++ fence = (fence ++ t ++ [96; 96]%N) ++ [96%N]).
  { rewrite fence_chars, <- !app_assoc. reflexivity. }
  unfold strip.
  replace (lstrip (fence ++ t ++ fence)) with (fence ++ t ++ fence)
    by (rewrite fence_chars; reflexivity).
  rewrite E. now apply rstrip_snoc.
Qed.

Lemma wrap_json_plain s : wrap_json s = wrap_plain (lit "json" ++ s).
Proof. reflexivity. Qed.

Lemma startswith_json_app_fence s :
  startswith (lit "json") (s ++ fence) = startswith (lit "json") s.
Proof.
  change (lit "json") with [106; 115; 111; 110]%N. rewrite fence_chars.
  destruct s as [|a [|b [|c [|d s]]]]; simpl;
    repeat match goal with
           | |- context [(?x =? ?y)%N] =>
               is_var y; destruct (x =? y)%N; simpl
           end; reflexivity.
Qed.

(** Cleaning a response fenced with [```json] returns it trimmed. *)
Lemma clean_wrap_json s : _clean_json_response (wrap_json s) = strip s.
Proof.
  unfold _clean_json_response. cbv zeta.
  rewrite wrap_json_plain. unfold wrap_plain. rewrite strip_fenced.
  replace (startswith fence_json (fence ++ (lit "json" ++ s) ++ fence))
    with true by (symmetry; apply (startswith_app fence_json (s ++ fence))).
  replace (slice_from 7 (fence ++ (lit "json" ++ s) ++ fence))
    with (s ++ fence) by reflexivity.
  rewrite endswith_app.
  change 3%nat with (length fence).
  now rewrite slice_drop_last_app.
Qed.

(** Cleaning a response fenced with bare backticks returns it trimmed,
    unless the response itself begins with the word json. *)
Lemma clean_wrap_plain s :
  startswith (lit "json") s = false ->
  _clean_json_response (wrap_plain s) = strip s.
Proof.
  intros Hj. unfold _clean_json_response. cbv zeta.
  unfold wrap_plain. rewrite strip_fenced.
  replace (startswith fence_json (fence ++ s ++ fence))
    with (startswith (lit "json") (s ++ fence)) by reflexivity.
  rewrite startswith_json_app_fence, Hj.
  rewrite (startswith_app fence (s ++ fence)).
  replace (slice_from 3 (fence ++ s ++ fence))
    with (s ++ fence) by reflexivity.
  rewrite endswith_app.
  change 3%nat with (length fence).
  now rewrite slice_drop_last_app.
Qed.

(** Cleaning a response that has no fence only trims it. *)
Lemma clean_unfenced s :
  unfenced s = true -> _clean_json_response s = strip s.
Proof.
  unfold unfenced. intros H.
  apply andb_prop in H as [Hs He].
  apply negb_true_iff in Hs. apply negb_true_iff in He.
  unfold _clean_json_response.
  destruct (startswith fence_json (strip s)) eqn:Hfj.
  - change fence_json with (fence ++ lit "json") in Hfj.
    apply startswith_prefix in Hfj. congruence.
  - rewrite Hs, He. apply strip_idem.
Qed.

(** C4, as amended: for a response that carries no fence of its own,
    cleaning the response wrapped in [```json ... ```] gives the same
    characters as cleaning the bare response, and so does cleaning it
    wrapped in [``` ... ```] when the response does not begin with the
    word json. *)
Theorem clean_fenced_same_as_bare (s : pystr) :
  unfenced s = true ->
  _clean_json_response (wrap_json s) = _clean_json_response s /\
  (startswith (lit "json") s = false ->
   _clean_json_response (wrap_plain s) = _clean_json_response s).
Proof.
  intros Hu. rewrite (clean_unfenced s Hu). split.
  - apply clean_wrap_json.
  - apply clean_wrap_plain.
Qed.

Lemma clean_fenced_same_as_bare_witness :
  let s := lit "
{}
" in
  unfenced s = true /\
  _clean_json_response (wrap_json s) = _clean_json_response s /\
  (startswith (lit "json") s = false ->
   _clean_json_response (wrap_plain s) = _clean_json_response s).
Proof.
  split; [reflexivity|].
  apply (clean_fenced_same_as_bare (lit "
{}
")). reflexivity.
Defined.

(** C4 as stated fails: cleaning removes one layer of fences, and a
    bare-backtick fence swallows a leading json. *)
Lemma clean_fenced_counterexample :
  _clean_json_response (wrap_json (lit "```json
{}
```"))
  <> _clean_json_response (lit "```json
{}
```")
  /\ _clean_json_response (wrap_plain (lit "json {}"))
     <> _clean_json_response (lit "json {}").
Proof. split; vm_compute; discriminate. Qed.

End Cleaning.

(** ** Dictionaries *)

(** Two different literal keys. *)
Ltac keys_ne := let H := fresh in intros H; vm_compute in H; discriminate H.

(** One step of a computation that is known to return. *)
Ltac step H :=
  match type of H with
  | bind ?m _ = inr _ =>
      let E := fresh "E" in
      destruct m eqn:E; [discriminate H | cbn [bind] in H]
  end.

Section DictFacts.

Lemma eqb_eq a b : eqb a b = true <-> a = b.
Proof. unfold eqb. apply bool_decide_eq_true. Qed.

Lemma eqb_refl a : eqb a a = true.
Proof. now apply eqb_eq. Qed.

Lemma eqb_neq a b : a <> b -> eqb a b = false.
Proof. unfold eqb. apply bool_decide_eq_false_2. Qed.

Lemma dict_get_set_eq k v d : dict_get k (dict_set k v d) = Some v.
Proof.
  induction d as [|[k' v'] d IH]; cbn [dict_get dict_set].
  - now rewrite eqb_refl.
  - destruct (eqb k' k) eqn:E; cbn [dict_get]; now rewrite E.
Qed.

Lemma dict_get_set_ne k k' v d :
  k <> k' -> dict_get k' (dict_set k v d) = dict_get k' d.
Proof.
  intros Hne. induction d as [|[k0 v0] d IH]; cbn [dict_get dict_set].
  - now rewrite eqb_neq.
  - destruct (eqb k0 k) eqn:E; cbn [dict_get].
    + apply eqb_eq in E. subst k0. now rewrite eqb_neq.
    + now rewrite IH.
Qed.

Lemma dict_set_id k v d : dict_get k d = Some v -> dict_set k v d = d.
Proof.
  induction d as [|[k0 v0] d IH]; cbn [dict_get dict_set]; [discriminate|].
  destruct (eqb k0 k) eqn:E.
  - now intros [= ->].
  - intros H. now rewrite IH.
Qed.

End DictFacts.

(** ** Validation and normalization *)

Section Validation.

Local Opaque lit.

Lemma require_inr ok msg u : require ok msg = inr u -> ok = true.
Proof. destruct ok; [reflexivity | discriminate]. Qed.

Lemma getitem_inr r k v :
  getitem r k = inr v -> exists d, r = JDict d /\ dict_get k d = Some v.
Proof.
  destruct r; try discriminate. simpl.
  destruct (dict_get k entries) eqn:E; [|discriminate].
  intros [= ->]. eauto.
Qed.

Lemma validate_inv r r' :
  _validate_response r = inr r' ->
  exists d hc hs incs sups conf expl ki ks,
    r = JDict d /\
    dict_get (lit "has_conflicts") d = Some (JBool hc) /\
    dict_get (lit "has_supporting_facts") d = Some (JBool hs) /\
    dict_get (lit "inconsistencies") d = Some (JList incs) /\
    dict_get (lit "supporting_facts") d = Some (JList sups) /\
    dict_get (lit "confidence") d = Some conf /\ isinstance_number conf = true /\
    dict_get (lit "explanation") d = Some expl /\ isinstance_str expl = true /\
    check_items (lit "Некорректная структура элемента inconsistencies") incs = inr tt /\
    check_items (lit "Некорректная структура элемента supporting_facts") sups = inr tt /\
    with_fact incs = inr ki /\ with_fact sups = inr ks /\
    r' = JDict (normalized d ki ks).
Proof.
  unfold _validate_response. intros H.
  step H. step H. apply require_inr in E0. subst b.
  step H. apply getitem_inr in E0 as (d & -> & Hhc).
  step H. apply require_inr in E0. destruct j; try discriminate E0.
  repeat (step H;
          match goal with
          | E : require _ _ = inr _ |- _ => apply require_inr in E
          | E : getitem (JDict d) _ = inr _ |- _ =>
              apply getitem_inr in E as (? & [= <-] & ?)
          | _ => idtac
          end).
  destruct j; try discriminate E1.
  destruct j0; try discriminate E2.
  destruct j1; try discriminate E3.
  injection E6 as <-. injection E8 as <-.
  destruct u6, u7.
  injection E11 as <-.
  cbn [getitem] in E12. rewrite dict_get_set_eq in E12. injection E12 as <-.
  set (d1 := dict_set (lit "inconsistencies") (JList l1) d) in *.
  set (d2 := if truthy (JList l1) then d1
             else dict_set (lit "has_conflicts") (JBool false) d1).
  assert (E6 : j6 = JDict d2).
  { subst d2. destruct (truthy (JList l1)); now injection E13. }
  clear E13. subst j6.
  assert (G : dict_get (lit "supporting_facts") d2 = Some (JList items0)).
  { subst d2 d1. destruct (truthy (JList l1));
      rewrite ?dict_get_set_ne by keys_ne; exact H3. }
  cbn [getitem] in E14. rewrite G in E14. injection E14 as <-.
  injection E15 as <-. injection E17 as <-.
  cbn [getitem] in E18. rewrite dict_get_set_eq in E18. injection E18 as <-.
  exists d, b, b0, items, items0, j2, j3, l1, l3.
  repeat (split; [assumption || reflexivity|]).
  injection H as <-.
  unfold normalized. cbv zeta. fold d1. fold d2.
  destruct (truthy (JList l3)); now injection E19.
Qed.

Lemma getitem_dict k d v :
  dict_get k d = Some v -> getitem (JDict d) k = inr v.
Proof. intros H. cbn [getitem]. now rewrite H. Qed.

Lemma py_in_dict k d v : dict_get k d = Some v -> py_in k (JDict d) = inr true.
Proof.
  intros H. cbn [py_in]. rewrite H. unfold ret.
  rewrite bool_decide_eq_true_2; eauto.
Qed.

Lemma validate_intro d hc hs incs sups conf expl ki ks :
  dict_get (lit "has_conflicts") d = Some (JBool hc) ->
  dict_get (lit "has_supporting_facts") d = Some (JBool hs) ->
  dict_get (lit "inconsistencies") d = Some (JList incs) ->
  dict_get (lit "supporting_facts") d = Some (JList sups) ->
  dict_get (lit "confidence") d = Some conf -> isinstance_number conf = true ->
  dict_get (lit "explanation") d = Some expl -> isinstance_str expl = true ->
  check_items (lit "Некорректная структура элемента inconsistencies") incs
  = inr tt ->
  check_items (lit "Некорректная структура элемента supporting_facts") sups
  = inr tt ->
  with_fact incs = inr ki -> with_fact sups = inr ks ->
  _validate_response (JDict d) = inr (JDict (normalized d ki ks)).
Proof.
  intros Hhc Hhs Hi Hs Hc Tc He Te Ci Cs Wi Ws.
  unfold _validate_response.
  assert (Hall : all_in required_fields (JDict d) = inr true).
  { unfold required_fields. cbn [all_in].
    rewrite (py_in_dict _ _ _ Hhc), (py_in_dict _ _ _ Hi),
      (py_in_dict _ _ _ Hs), (py_in_dict _ _ _ Hc), (py_in_dict _ _ _ He).
    reflexivity. }
  rewrite Hall. cbn [bind require].
  rewrite (getitem_dict _ _ _ Hhc), (getitem_dict _ _ _ Hhs),
    (getitem_dict _ _ _ Hi), (getitem_dict _ _ _ Hs),
    (getitem_dict _ _ _ Hc), (getitem_dict _ _ _ He).
  cbn [bind require isinstance_bool isinstance_list py_iter ret].
  rewrite Tc, Te. cbn [bind require]. rewrite Ci, Cs, Wi.
  cbn [bind setitem ret].
  set (d1 := dict_set (lit "inconsistencies") (JList ki) d).
  rewrite (getitem_dict (lit "inconsistencies") d1 (JList ki))
    by apply dict_get_set_eq.
  cbn [bind].
  unfold normalized. cbv zeta. fold d1.
  destruct (truthy (JList ki)); cbn [bind ret setitem].
  - rewrite (getitem_dict (lit "supporting_facts") d1 (JList sups))
      by (subst d1; rewrite dict_get_set_ne by keys_ne; exact Hs).
    cbn [bind py_iter ret]. rewrite Ws. cbn [bind setitem ret].
    rewrite (getitem_dict (lit "supporting_facts") _ (JList ks))
      by apply dict_get_set_eq.
    cbn [bind]. now destruct (truthy (JList ks)).
  - rewrite (getitem_dict (lit "supporting_facts") _ (JList sups))
      by (subst d1; rewrite !dict_get_set_ne by keys_ne; exact Hs).
    cbn [bind py_iter ret]. rewrite Ws. cbn [bind setitem ret].
    rewrite (getitem_dict (lit "supporting_facts") _ (JList ks))
      by apply dict_get_set_eq.
    cbn [bind]. now destruct (truthy (JList ks)).
Qed.

End Validation.

Section Normalization.

Local Opaque lit.

Lemma normalized_get_inconsistencies d ki ks :
  dict_get (lit "inconsistencies") (normalized d ki ks) = Some (JList ki).
Proof.
  unfold normalized. cbv zeta.
  destruct (truthy (JList ki)), (truthy (JList ks));
    rewrite ?dict_get_set_ne by keys_ne; apply dict_get_set_eq.
Qed.

Lemma normalized_get_supporting_facts d ki ks :
  dict_get (lit "supporting_facts") (normalized d ki ks) = Some (JList ks).
Proof.
  unfold normalized. cbv zeta.
  destruct (truthy (JList ki)), (truthy (JList ks));
    rewrite ?dict_get_set_ne by keys_ne; apply dict_get_set_eq.
Qed.

Lemma normalized_get_has_conflicts d ki ks hc :
  dict_get (lit "has_conflicts") d = Some (JBool hc) ->
  dict_get (lit "has_conflicts") (normalized d ki ks)
  = Some (JBool (truthy (JList ki) && hc)).
Proof.
  intros H. unfold normalized. cbv zeta.
  destruct (truthy (JList ki)), (truthy (JList ks)); cbn [andb];
    rewrite ?dict_get_set_ne by keys_ne;
    first [exact H | apply dict_get_set_eq].
Qed.

Lemma normalized_get_has_supporting_facts d ki ks hs :
  dict_get (lit "has_supporting_facts") d = Some (JBool hs) ->
  dict_get (lit "has_supporting_facts") (normalized d ki ks)
  = Some (JBool (truthy (JList ks) && hs)).
Proof.
  intros H. unfold normalized. cbv zeta.
  destruct (truthy (JList ki)), (truthy (JList ks)); cbn [andb];
    rewrite ?dict_get_set_ne by keys_ne;
    first [exact H | apply dict_get_set_eq].
Qed.

Lemma normalized_get_confidence d ki ks :
  dict_get (lit "confidence") (normalized d ki ks)
  = dict_get (lit "confidence") d.
Proof.
  unfold normalized. cbv zeta.
  destruct (truthy (JList ki)), (truthy (JList ks));
    now rewrite ?dict_get_set_ne by keys_ne.
Qed.

Lemma normalized_get_explanation d ki ks :
  dict_get (lit "explanation") (normalized d ki ks)
  = dict_get (lit "explanation") d.
Proof.
  unfold normalized. cbv zeta.
  destruct (truthy (JList ki)), (truthy (JList ks));
    now rewrite ?dict_get_set_ne by keys_ne.
Qed.

(** Normalizing a dictionary that already holds the kept items and the
    matching flags changes nothing. *)
Lemma normalized_fixed d ki ks hc hs :
  dict_get (lit "inconsistencies") d = Some (JList ki) ->
  dict_get (lit "supporting_facts") d = Some (JList ks) ->
  dict_get (lit "has_conflicts") d = Some (JBool (truthy (JList ki) && hc)) ->
  dict_get (lit "has_supporting_facts") d
  = Some (JBool (truthy (JList ks) && hs)) ->
  normalized d ki ks = d.
Proof.
  intros Hi Hs Hc Hf. unfold normalized. cbv zeta.
  rewrite (dict_set_id _ _ _ Hi).
  destruct (truthy (JList ki)); cbn [andb] in Hc;
    rewrite ?(dict_set_id _ _ _ Hc), (dict_set_id _ _ _ Hs);
    destruct (truthy (JList ks)); cbn [andb] in Hf;
    now rewrite ?(dict_set_id _ _ _ Hf).
Qed.

(** The items kept by the filter are items of the list, kept whole. *)
Lemma with_fact_kept items kept :
  with_fact items = inr kept ->
  with_fact kept = inr kept /\
  forallb fact_nonempty kept = true /\
  (forall msg, check_items msg items = inr tt -> check_items msg kept = inr tt).
Proof.
  revert kept. induction items as [|x items IH]; intros kept H.
  - injection H as <-. now repeat split.
  - cbn [with_fact] in H. step H. step H. injection H as <-.
    destruct (IH l eq_refl) as (I1 & I2 & I3).
    destruct (truthy j) eqn:Tj.
    + repeat split.
      * cbn [with_fact]. rewrite E, I1. cbn [bind]. now rewrite Tj.
      * cbn [forallb]. unfold fact_nonempty at 1. now rewrite E, Tj, I2.
      * intros msg C. cbn [check_items] in *. step C. step C.
        cbn [bind]. rewrite ?E2. cbn [bind]. now apply I3.
    + repeat split; try assumption.
      intros msg C. cbn [check_items] in C. step C. step C. now apply I3.
Qed.

(** When every item has a fact, the filter keeps the list as it is. *)
Lemma with_fact_all items kept :
  with_fact items = inr kept -> forallb fact_nonempty items = true ->
  kept = items.
Proof.
  revert kept. induction items as [|x items IH]; intros kept H F.
  - now injection H as <-.
  - cbn [with_fact] in H. step H. step H. injection H as <-.
    cbn [forallb] in F. apply andb_prop in F as [Fx F].
    unfold fact_nonempty in Fx. rewrite E in Fx. rewrite Fx.
    f_equal. now apply IH.
Qed.

(** The items kept are the items whose fact is not empty, in their order. *)
Lemma with_fact_filter items kept :
  with_fact items = inr kept -> kept = List.filter fact_nonempty items.
Proof.
  revert kept. induction items as [|x items IH]; intros kept H.
  - now injection H as <-.
  - cbn [with_fact] in H. step H. step H. injection H as <-.
    cbn [List.filter]. unfold fact_nonempty at 1. rewrite E.
    rewrite (IH l eq_refl). now destruct (truthy j).
Qed.

(** Validation is idempotent on every response it accepts. *)
Lemma validate_twice r r1 :
  _validate_response r = inr r1 -> _validate_response r1 = inr r1.
Proof.
  intros H.
  apply validate_inv in H
    as (d & hc & hs & incs & sups & conf & expl & ki & ks & -> & Hhc & Hhs
        & Hi & Hs & Hc & Tc & He & Te & Ci & Cs & Wi & Ws & ->).
  destruct (with_fact_kept _ _ Wi) as (Wi' & _ & Ci').
  destruct (with_fact_kept _ _ Ws) as (Ws' & _ & Cs').
  rewrite (validate_intro (normalized d ki ks)
             (truthy (JList ki) && hc) (truthy (JList ks) && hs)
             ki ks conf expl ki ks).
  - f_equal. f_equal.
    apply (normalized_fixed _ ki ks hc hs);
      auto using normalized_get_inconsistencies,
        normalized_get_supporting_facts, normalized_get_has_conflicts,
        normalized_get_has_supporting_facts.
  - now apply normalized_get_has_conflicts.
  - now apply normalized_get_has_supporting_facts.
  - apply normalized_get_inconsistencies.
  - apply normalized_get_supporting_facts.
  - now rewrite normalized_get_confidence.
  - exact Tc.
  - now rewrite normalized_get_explanation.
  - exact Te.
  - now apply Ci'.
  - now apply Cs'.
  - exact Wi'.
  - exact Ws'.
Qed.

(** What a validated response yields as a verdict. *)
Lemma verdict_of_inv r facts v :
  verdict_of r facts = inr v ->
  exists d hc hs incs sups conf expl ki ks,
    r = JDict d /\
    dict_get (lit "has_conflicts") d = Some (JBool hc) /\
    dict_get (lit "has_supporting_facts") d = Some (JBool hs) /\
    dict_get (lit "inconsistencies") d = Some (JList incs) /\
    dict_get (lit "supporting_facts") d = Some (JList sups) /\
    dict_get (lit "confidence") d = Some conf /\
    dict_get (lit "explanation") d = Some expl /\
    with_fact incs = inr ki /\ with_fact sups = inr ks /\
    v = {| has_conflicts := JBool (truthy (JList ki) && hc);
           has_supporting_facts := JBool (truthy (JList ks) && hs);
           inconsistencies := JList ki;
           supporting_facts := JList ks;
           confidence := conf;
           relevant_facts := facts;
           explanation := expl |}.
Proof.
  unfold verdict_of. intros H. step H.
  apply validate_inv in E
    as (d & hc & hs & incs & sups & conf & expl & ki & ks & -> & Hhc & Hhs
        & Hi & Hs & Hc & Tc & He & Te & Ci & Cs & Wi & Ws & ->).
  exists d, hc, hs, incs, sups, conf, expl, ki, ks.
  repeat (split; [assumption || reflexivity|]).
  unfold _parse_llm_response in H.
  rewrite (getitem_dict _ _ _ (normalized_get_has_conflicts _ ki ks _ Hhc)),
    (getitem_dict _ _ _ (normalized_get_has_supporting_facts _ ki ks _ Hhs)),
    (getitem_dict _ _ _ (normalized_get_inconsistencies d ki ks)),
    (getitem_dict _ _ _ (normalized_get_supporting_facts d ki ks)) in H.
  cbn [bind] in H.
  rewrite (getitem_dict (lit "confidence") (normalized d ki ks) conf),
    (getitem_dict (lit "explanation") (normalized d ki ks) expl) in H
    by (now rewrite ?normalized_get_confidence, ?normalized_get_explanation).
  cbn [bind ret] in H. now injection H as <-.
Qed.

(** A validated response always yields a verdict. *)
Lemma verdict_of_valid r facts :
  structurally_valid r -> exists v, verdict_of r facts = inr v.
Proof.
  intros [r1 H]. unfold verdict_of. rewrite H. cbn [bind].
  apply validate_inv in H
    as (d & hc & hs & incs & sups & conf & expl & ki & ks & -> & Hhc & Hhs
        & Hi & Hs & Hc & Tc & He & Te & Ci & Cs & Wi & Ws & ->).
  unfold _parse_llm_response.
  rewrite (getitem_dict _ _ _ (normalized_get_has_conflicts _ ki ks _ Hhc)),
    (getitem_dict _ _ _ (normalized_get_has_supporting_facts _ ki ks _ Hhs)),
    (getitem_dict _ _ _ (normalized_get_inconsistencies d ki ks)),
    (getitem_dict _ _ _ (normalized_get_supporting_facts d ki ks)).
  cbn [bind].
  rewrite (getitem_dict (lit "confidence") (normalized d ki ks) conf),
    (getitem_dict (lit "explanation") (normalized d ki ks) expl)
    by (now rewrite ?normalized_get_confidence, ?normalized_get_explanation).
  cbn [bind ret]. eauto.
Qed.

End Normalization.

(** ** The verdict and its flags *)

Section Verdict.

Local Opaque lit.

(** C1: the code at a response that lacks [has_supporting_facts]. The list
    of required fields does not name that field, so the check for missing
    fields passes and the lookup two lines below raises [KeyError], which
    is not a [ValueError]: the retry loop does not catch it, no correction
    is requested, and [check_facts] ends on the first attempt. *)
Theorem missing_flag_raises_KeyError :
  _validate_response Examples.no_support_flag
  = inl (KeyError (lit "has_supporting_facts"))
  /\ is_ValueError (KeyError (lit "has_supporting_facts")) = false
  /\ fst (Examples.run_check
            [Examples.no_support_flag_text; Examples.valid_text])
     = inl (KeyError (lit "has_supporting_facts"))
  /\ length (sent (snd (Examples.run_check
                          [Examples.no_support_flag_text;
                           Examples.valid_text]))) = 1%nat.
Proof. repeat split; vm_compute; reflexivity. Qed.

(** A list item that is a number, and one that is a list of the three
    field names, leave validation as [TypeError] and [AttributeError]. *)
Example malformed_item_raises_TypeError :
  _validate_response (Examples.response true false [JInt 1] [])
  = inl TypeError.
Proof. vm_compute. reflexivity. Qed.

Example malformed_item_raises_AttributeError :
  _validate_response
    (Examples.response true false
       [JList [JStr (lit "statement"); JStr (lit "fact");
               JStr (lit "explanation")]] [])
  = inl AttributeError.
Proof. vm_compute. reflexivity. Qed.

(** When they are of the expected shape, the same defects do raise
    [ValueError]. *)
Example missing_field_raises_ValueError :
  _validate_response (JDict [(lit "has_conflicts", JBool true)])
  = inl (ValueError (lit "В ответе отсутствуют обязательные поля")).
Proof. vm_compute. reflexivity. Qed.

Example malformed_item_raises_ValueError :
  _validate_response
    (Examples.response true false [JDict [(lit "fact", JStr (lit "f"))]] [])
  = inl (ValueError (lit "Некорректная структура элемента inconsistencies")).
Proof. vm_compute. reflexivity. Qed.

(** C5, as amended: a structurally valid response yields a verdict in
    which a flag that is true has a non-empty filtered list, that is, an
    empty filtered list forces its flag to false; every item kept has a
    fact that is not empty. *)
Theorem true_flag_has_items (r : json) (facts : list pystr) :
  structurally_valid r ->
  exists v,
    verdict_of r facts = inr v /\
    (has_conflicts v = JBool true -> truthy (inconsistencies v) = true) /\
    (has_supporting_facts v = JBool true ->
     truthy (supporting_facts v) = true) /\
    (truthy (inconsistencies v) = false -> has_conflicts v = JBool false) /\
    (truthy (supporting_facts v) = false ->
     has_supporting_facts v = JBool false) /\
    (exists ki ks,
        inconsistencies v = JList ki /\ supporting_facts v = JList ks /\
        forallb fact_nonempty ki = true /\ forallb fact_nonempty ks = true).
Proof.
  intros Hv. destruct (verdict_of_valid r facts Hv) as [v Ev].
  exists v. split; [exact Ev|].
  apply verdict_of_inv in Ev
    as (d & hc & hs & incs & sups & conf & expl & ki & ks & -> & _ & _ & _
        & _ & _ & _ & Wi & Ws & ->).
  cbn [has_conflicts has_supporting_facts inconsistencies supporting_facts].
  destruct (with_fact_kept _ _ Wi) as (_ & Fi & _).
  destruct (with_fact_kept _ _ Ws) as (_ & Fs & _).
  repeat split.
  - intros [= H]. now apply andb_prop in H.
  - intros [= H]. now apply andb_prop in H.
  - now intros ->.
  - now intros ->.
  - now exists ki, ks.
Qed.

Lemma true_flag_has_items_witness :
  let r := Examples.response true true
             [Examples.item (lit "signed in 1991") [] (lit "no source")] [] in
  structurally_valid r /\
  exists v,
    verdict_of r [] = inr v /\
    (has_conflicts v = JBool true -> truthy (inconsistencies v) = true) /\
    (has_supporting_facts v = JBool true ->
     truthy (supporting_facts v) = true) /\
    (truthy (inconsistencies v) = false -> has_conflicts v = JBool false) /\
    (truthy (supporting_facts v) = false ->
     has_supporting_facts v = JBool false) /\
    (exists ki ks,
        inconsistencies v = JList ki /\ supporting_facts v = JList ks /\
        forallb fact_nonempty ki = true /\ forallb fact_nonempty ks = true).
Proof.
  assert (Hv : structurally_valid
                 (Examples.response true true
                    [Examples.item (lit "signed in 1991") []
                       (lit "no source")] [])).
  { eexists. vm_compute. reflexivity. }
  split; [exact Hv|].
  exact (true_flag_has_items _ [] Hv).
Defined.

(** C5 as stated fails: a response whose flag is false and whose list has
    an item with a fact passes validation unchanged, so the verdict has
    [has_conflicts = False] with a non-empty list. *)
Lemma flags_match_lists_counterexample :
  exists v,
    verdict_of
      (Examples.response false false
         [Examples.item (lit "signed in 1991") (lit "signed in 1992")
            (lit "the years differ")] [])
      [] = inr v
    /\ has_conflicts v = JBool false
    /\ truthy (inconsistencies v) = true
    /\ ~ flags_match_lists v.
Proof.
  eexists. split; [vm_compute; reflexivity|].
  split; [reflexivity|]. split; [reflexivity|].
  intros [[_ H] _]. discriminate (H eq_refl).
Qed.

(** With no empty fact, validation leaves both lists as they are. *)
Lemma validate_keeps_lists r r1 :
  _validate_response r = inr r1 ->
  facts_nonempty (lit "inconsistencies") r = true ->
  facts_nonempty (lit "supporting_facts") r = true ->
  getitem r1 (lit "inconsistencies") = getitem r (lit "inconsistencies") /\
  getitem r1 (lit "supporting_facts") = getitem r (lit "supporting_facts").
Proof.
  intros H Fi Fs.
  apply validate_inv in H
    as (d & hc & hs & incs & sups & conf & expl & ki & ks & -> & Hhc & Hhs
        & Hi & Hs & Hc & Tc & He & Te & Ci & Cs & Wi & Ws & ->).
  unfold facts_nonempty in Fi, Fs.
  rewrite (getitem_dict _ _ _ Hi) in Fi. rewrite (getitem_dict _ _ _ Hs) in Fs.
  rewrite (with_fact_all _ _ Wi Fi), (with_fact_all _ _ Ws Fs).
  rewrite (getitem_dict _ _ _ Hi), (getitem_dict _ _ _ Hs).
  split; apply getitem_dict.
  - apply normalized_get_inconsistencies.
  - apply normalized_get_supporting_facts.
Qed.

(** C6: for a structurally valid response whose items all have a fact that
    is not empty, validating twice gives the dictionary that validating
    once gives. *)
Theorem validate_idempotent (r : json) :
  structurally_valid r ->
  facts_nonempty (lit "inconsistencies") r = true ->
  facts_nonempty (lit "supporting_facts") r = true ->
  twice _validate_response r = _validate_response r /\
  exists r1, _validate_response r = inr r1 /\ _validate_response r1 = inr r1.
Proof.
  intros [r1 H] _ _. unfold twice. rewrite H. cbn [bind].
  pose proof (validate_twice r r1 H) as H2. eauto.
Qed.

Lemma validate_idempotent_witness :
  let r := Examples.response true true
             [Examples.item (lit "signed in 1991") (lit "signed in 1992")
                (lit "the years differ")]
             [Examples.item (lit "negotiated") (lit "began in 1989")
                (lit "same event")] in
  structurally_valid r /\
  facts_nonempty (lit "inconsistencies") r = true /\
  facts_nonempty (lit "supporting_facts") r = true /\
  twice _validate_response r = _validate_response r /\
  exists r1, _validate_response r = inr r1 /\ _validate_response r1 = inr r1.
Proof.
  assert (Hv : structurally_valid
                 (Examples.response true true
                    [Examples.item (lit "signed in 1991")
                       (lit "signed in 1992") (lit "the years differ")]
                    [Examples.item (lit "negotiated") (lit "began in 1989")
                       (lit "same event")])).
  { eexists. vm_compute. reflexivity. }
  split; [exact Hv|].
  split; [reflexivity|]. split; [reflexivity|].
  exact (validate_idempotent _ Hv eq_refl eq_refl).
Defined.

End Verdict.

(** ** The world *)

Section WorldFacts.

Lemma length_sent_sending r w :
  length (sent (sending r w)) = S (length (sent w)).
Proof. simpl. rewrite length_app. simpl. lia. Qed.

Lemma sent_sleeping s w : sent (sleeping s w) = sent w.
Proof. reflexivity. Qed.

Lemma sent_printing l w : sent (printing l w) = sent w.
Proof. reflexivity. Qed.

End WorldFacts.

(** The number of requests sent so far, through the changes made. *)
Ltac sent_length :=
  repeat first [rewrite length_sent_sending | rewrite sent_sleeping
               | rewrite sent_printing].

(** ** The gateway: retries and parameter overrides *)

Section Gateway.

Context `{Remote}.

Lemma chat_completions_create_eq async rq w :
  chat_completions_create async rq w
  = (completion_reply (length (sent w)), sending (ChatCompletion async rq) w).
Proof.
  unfold chat_completions_create, bindM, send, lift.
  now destruct (completion_reply (length (sent w))).
Qed.

Lemma embeddings_create_eq input model w :
  embeddings_create input model w
  = (embedding_reply (length (sent w)),
     sending (EmbeddingRequest input model) w).
Proof.
  unfold embeddings_create, bindM, send, lift.
  now destruct (embedding_reply (length (sent w))).
Qed.

Lemma attempts_ok {A} wait (f : M A) more n w a w' :
  f w = (inr a, w') -> attempts wait f more n w = (inr a, w').
Proof. intros E. destruct more; simpl; now rewrite E. Qed.

Lemma attempts_last {A} wait (f : M A) n w e w' :
  f w = (inl e, w') -> attempts wait f 0 n w = (inl (RetryError e), w').
Proof. intros E. simpl. now rewrite E. Qed.

Lemma attempts_again {A} wait (f : M A) more n w e w' :
  f w = (inl e, w') ->
  attempts wait f (S more) n w
  = attempts wait f more (S n) (sleeping (wait n) w').
Proof. intros E. simpl. now rewrite E. Qed.

Lemma print_and_reraise_ok {A} (body : M A) w a w' :
  body w = (inr a, w') -> YandexCloudLLM.print_and_reraise body w = (inr a, w').
Proof. intros E. unfold YandexCloudLLM.print_and_reraise. now rewrite E. Qed.

Lemma print_and_reraise_fail {A} (body : M A) w e w' :
  body w = (inl e, w') ->
  YandexCloudLLM.print_and_reraise body w
  = (inl e, printing (lit "Ошибка при запросе к LLM API: " ++ str_of_exn e) w').
Proof. intros E. unfold YandexCloudLLM.print_and_reraise. now rewrite E. Qed.

(** The pause tenacity takes is 4 seconds after the first and the second
    failed attempt, and stays between 4 and 10 seconds after any. *)
Lemma wait_exponential_bounds k :
  (4 <= wait_exponential 1 4 10 k <= 10)%Z.
Proof. unfold wait_exponential. lia. Qed.

Lemma wait_exponential_first : wait_exponential 1 4 10 1 = 4%Z.
Proof. reflexivity. Qed.

Lemma wait_exponential_second : wait_exponential 1 4 10 2 = 4%Z.
Proof. reflexivity. Qed.

(** A successful call of [analyze_consistency]: one request, the reply
    returned. *)
Lemma analyze_consistency_ok self prompt sp t mt w reply :
  completion_reply (length (sent w)) = inr reply ->
  YandexCloudLLM.analyze_consistency self prompt sp t mt w
  = (inr reply,
     sending (ChatCompletion false
                (YandexCloudLLM.create_kwargs self
                   [(lit "system", sp); (lit "user", prompt)] t mt)) w).
Proof.
  intros E. unfold YandexCloudLLM.analyze_consistency, retry.
  apply attempts_ok. unfold YandexCloudLLM.analyze_consistency_body.
  apply print_and_reraise_ok. now rewrite chat_completions_create_eq, E.
Qed.

(** C8: when the remote fails every time, [request_gpt],
    [request_gpt_async] and [request_emb] each send the request three times,
    pausing 4 seconds after the first and after the second failure (the
    pause of [wait_exponential(multiplier=1, min=4, max=10)], which never
    leaves the range 4 to 10 seconds), and then fail with tenacity's
    [RetryError] around the last failure; [analyze_consistency] sends the
    request once, does not pause, and fails the same way. *)
Theorem gateway_retry_policy (self : YandexCloudLLM.t)
  (prompt text system : pystr) (system_prompt : option pystr)
  (temperature max_tokens : option number) (w : world) (e1 e2 e3 v1 v2 v3 : exn) :
  let n := length (sent w) in
  let chat async :=
    ChatCompletion async
      (YandexCloudLLM.create_kwargs self
         (YandexCloudLLM.build_messages prompt system_prompt)
         temperature max_tokens) in
  let emb := EmbeddingRequest text (YandexCloudLLM.model self) in
  let said e := printing (lit "Ошибка при запросе к LLM API: " ++ str_of_exn e) in
  completion_reply n = inl e1 ->
  completion_reply (S n) = inl e2 ->
  completion_reply (S (S n)) = inl e3 ->
  embedding_reply n = inl v1 ->
  embedding_reply (S n) = inl v2 ->
  embedding_reply (S (S n)) = inl v3 ->
  YandexCloudLLM.request_gpt self prompt system_prompt temperature max_tokens w
  = (inl (RetryError e3),
     sending (chat false)
       (sleeping 4 (sending (chat false) (sleeping 4 (sending (chat false) w)))))
  /\ YandexCloudLLM.request_gpt_async self prompt system_prompt temperature
       max_tokens w
     = (inl (RetryError e3),
        said e3 (sending (chat true)
          (sleeping 4 (said e2 (sending (chat true)
             (sleeping 4 (said e1 (sending (chat true) w))))))))
  /\ YandexCloudLLM.request_emb self text w
     = (inl (RetryError v3),
        sending emb (sleeping 4 (sending emb (sleeping 4 (sending emb w)))))
  /\ YandexCloudLLM.analyze_consistency self prompt system temperature
       max_tokens w
     = (inl (RetryError e1),
        said e1
          (sending (ChatCompletion false
                      (YandexCloudLLM.create_kwargs self
                         [(lit "system", system); (lit "user", prompt)]
                         temperature max_tokens)) w))
  /\ (forall k, 4 <= wait_exponential 1 4 10 k <= 10)%Z.
Proof.
  intros n chat emb said C1 C2 C3 V1 V2 V3. subst n.
  repeat split; try apply wait_exponential_bounds.
  - unfold YandexCloudLLM.request_gpt, retry. cbn [Nat.sub].
    rewrite (attempts_again _ _ _ _ w e1 (sending (chat false) w))
      by (unfold YandexCloudLLM.request_gpt_body;
          now rewrite chat_completions_create_eq, C1).
    rewrite wait_exponential_first.
    rewrite (attempts_again _ _ _ _ _ e2
               (sending (chat false) (sleeping 4 (sending (chat false) w))))
      by (unfold YandexCloudLLM.request_gpt_body;
          rewrite chat_completions_create_eq; sent_length; now rewrite C2).
    rewrite wait_exponential_second.
    apply attempts_last.
    unfold YandexCloudLLM.request_gpt_body.
    rewrite chat_completions_create_eq. sent_length. now rewrite C3.
  - unfold YandexCloudLLM.request_gpt_async, retry. cbn [Nat.sub].
    rewrite (attempts_again _ _ _ _ w e1 (said e1 (sending (chat true) w)))
      by (unfold YandexCloudLLM.request_gpt_async_body;
          apply print_and_reraise_fail;
          now rewrite chat_completions_create_eq, C1).
    rewrite wait_exponential_first.
    rewrite (attempts_again _ _ _ _ _ e2
               (said e2 (sending (chat true)
                  (sleeping 4 (said e1 (sending (chat true) w))))))
      by (unfold YandexCloudLLM.request_gpt_async_body;
          apply print_and_reraise_fail;
          rewrite chat_completions_create_eq; unfold said; sent_length; now rewrite C2).
    rewrite wait_exponential_second.
    apply attempts_last.
    unfold YandexCloudLLM.request_gpt_async_body.
    apply print_and_reraise_fail.
    rewrite chat_completions_create_eq. unfold said. sent_length.
    now rewrite C3.
  - unfold YandexCloudLLM.request_emb, retry. cbn [Nat.sub].
    rewrite (attempts_again _ _ _ _ w v1 (sending emb w))
      by (unfold YandexCloudLLM.request_emb_body;
          now rewrite embeddings_create_eq, V1).
    rewrite wait_exponential_first.
    rewrite (attempts_again _ _ _ _ _ v2
               (sending emb (sleeping 4 (sending emb w))))
      by (unfold YandexCloudLLM.request_emb_body;
          rewrite embeddings_create_eq; sent_length; now rewrite V2).
    rewrite wait_exponential_second.
    apply attempts_last.
    unfold YandexCloudLLM.request_emb_body.
    rewrite embeddings_create_eq. sent_length. now rewrite V3.
  - unfold YandexCloudLLM.analyze_consistency, retry. cbn [Nat.sub].
    apply attempts_last. unfold YandexCloudLLM.analyze_consistency_body.
    apply print_and_reraise_fail.
    now rewrite chat_completions_create_eq, C1.
Qed.

(** Retrying a body that sends one request sends that request again each
    time, at least once and at most as many times as attempts are allowed. *)
Lemma attempts_sent {A} wait (f : M A) r more n w :
  (forall w, sent (snd (f w)) = sent w ++ [r]) ->
  exists k, (1 <= k <= S more)%nat /\
            sent (snd (attempts wait f more n w)) = sent w ++ repeat r k.
Proof.
  intros Hf. revert n w. induction more as [|more IH]; intros n w.
  - exists 1%nat. split; [lia|]. simpl.
    specialize (Hf w). destruct (f w) as [[e|a] w']; exact Hf.
  - simpl. specialize (Hf w). destruct (f w) as [[e|a] w']; simpl in Hf.
    + destruct (IH (S n) (sleeping (wait n) w')) as (k & Hk & E).
      exists (S k). split; [lia|].
      unfold bindM, sleep. rewrite E, sent_sleeping, Hf.
      now rewrite <- app_assoc.
    + exists 1%nat. split; [lia|]. exact Hf.
Qed.

Lemma print_and_reraise_sent {A} (body : M A) w :
  sent (snd (YandexCloudLLM.print_and_reraise body w)) = sent (snd (body w)).
Proof.
  unfold YandexCloudLLM.print_and_reraise.
  now destruct (body w) as [[e|a] w'].
Qed.

Lemma analyze_consistency_sent self prompt system t mt w :
  sent (snd (YandexCloudLLM.analyze_consistency self prompt system t mt w))
  = sent w ++ [ChatCompletion false
                 (YandexCloudLLM.create_kwargs self
                    [(lit "system", system); (lit "user", prompt)] t mt)].
Proof.
  unfold YandexCloudLLM.analyze_consistency, retry. cbn [Nat.sub].
  destruct (attempts_sent (wait_exponential 1 4 10)
              (YandexCloudLLM.analyze_consistency_body self prompt system t mt)
              (ChatCompletion false
                 (YandexCloudLLM.create_kwargs self
                    [(lit "system", system); (lit "user", prompt)] t mt))
              0 1 w) as (k & Hk & E).
  - intros w0. unfold YandexCloudLLM.analyze_consistency_body.
    now rewrite print_and_reraise_sent, chat_completions_create_eq.
  - replace k with 1%nat in E by lia. exact E.
Qed.

Lemma request_gpt_sent self prompt system_prompt t mt w :
  exists k, (1 <= k <= 3)%nat /\
    sent (snd (YandexCloudLLM.request_gpt self prompt system_prompt t mt w))
    = sent w ++ repeat (ChatCompletion false
                          (YandexCloudLLM.create_kwargs self
                             (YandexCloudLLM.build_messages prompt system_prompt)
                             t mt)) k.
Proof.
  unfold YandexCloudLLM.request_gpt, retry. cbn [Nat.sub].
  apply attempts_sent. intros w0. unfold YandexCloudLLM.request_gpt_body.
  now rewrite chat_completions_create_eq.
Qed.

Lemma request_gpt_async_sent self prompt system_prompt t mt w :
  exists k, (1 <= k <= 3)%nat /\
    sent (snd (YandexCloudLLM.request_gpt_async self prompt system_prompt
                 t mt w))
    = sent w ++ repeat (ChatCompletion true
                          (YandexCloudLLM.create_kwargs self
                             (YandexCloudLLM.build_messages prompt system_prompt)
                             t mt)) k.
Proof.
  unfold YandexCloudLLM.request_gpt_async, retry. cbn [Nat.sub].
  apply attempts_sent. intros w0.
  unfold YandexCloudLLM.request_gpt_async_body.
  now rewrite print_and_reraise_sent, chat_completions_create_eq.
Qed.

Lemma or_default_zero x d : is_zero x = true -> or_default x d = d.
Proof.
  destruct x as [n|]; [|discriminate]. simpl.
  now destruct (number_truthy n).
Qed.

(** The constructor's defaults, and what counts as zero. *)
Lemma instance_defaults api_key folder_id :
  let self := YandexCloudLLM.__init__ api_key folder_id None None None
                None None None in
  YandexCloudLLM.temperature self = PFloat 0.1
  /\ YandexCloudLLM.max_tokens self = PInt 1000
  /\ is_zero (Some (PInt 0)) = true
  /\ is_zero (Some (PFloat 0)) = true
  /\ is_zero (Some (PFloat (-0))) = true
  /\ is_zero None = false.
Proof. repeat split. Qed.

(** C10: in [analyze_consistency], [request_gpt] and [request_gpt_async],
    an override of zero for [temperature] or for [max_tokens] does not
    reach the model: every request the call sends carries the instance's
    own [temperature] (0.1 unless set otherwise), respectively its own
    [max_tokens] (1000 unless set otherwise), because the override is
    chosen with [or]. *)
Theorem zero_override_replaced_by_default (self : YandexCloudLLM.t)
  (prompt system : pystr) (system_prompt : option pystr)
  (zero other : option number) (w : world) :
  is_zero zero = true ->
  let own_temperature messages :=
    {| rq_model := YandexCloudLLM.model self;
       rq_messages := messages;
       rq_temperature := YandexCloudLLM.temperature self;
       rq_max_tokens := or_default other (YandexCloudLLM.max_tokens self);
       rq_timeout := YandexCloudLLM.timeout self |} in
  let own_max_tokens messages :=
    {| rq_model := YandexCloudLLM.model self;
       rq_messages := messages;
       rq_temperature := or_default other (YandexCloudLLM.temperature self);
       rq_max_tokens := YandexCloudLLM.max_tokens self;
       rq_timeout := YandexCloudLLM.timeout self |} in
  let two := [(lit "system", system); (lit "user", prompt)] in
  let built := YandexCloudLLM.build_messages prompt system_prompt in
  sent (snd (YandexCloudLLM.analyze_consistency self prompt system zero other w))
  = sent w ++ [ChatCompletion false (own_temperature two)]
  /\ sent (snd (YandexCloudLLM.analyze_consistency self prompt system
                  other zero w))
     = sent w ++ [ChatCompletion false (own_max_tokens two)]
  /\ (exists k, (1 <= k <= 3)%nat /\
        sent (snd (YandexCloudLLM.request_gpt self prompt system_prompt
                     zero other w))
        = sent w ++ repeat (ChatCompletion false (own_temperature built)) k)
  /\ (exists k, (1 <= k <= 3)%nat /\
        sent (snd (YandexCloudLLM.request_gpt self prompt system_prompt
                     other zero w))
        = sent w ++ repeat (ChatCompletion false (own_max_tokens built)) k)
  /\ (exists k, (1 <= k <= 3)%nat /\
        sent (snd (YandexCloudLLM.request_gpt_async self prompt system_prompt
                     zero other w))
        = sent w ++ repeat (ChatCompletion true (own_temperature built)) k)
  /\ (exists k, (1 <= k <= 3)%nat /\
        sent (snd (YandexCloudLLM.request_gpt_async self prompt system_prompt
                     other zero w))
        = sent w ++ repeat (ChatCompletion true (own_max_tokens built)) k).
Proof.
  intros Hz own_temperature own_max_tokens two built.
  assert (Et : forall m,
             YandexCloudLLM.create_kwargs self m zero other = own_temperature m).
  { intros m. unfold YandexCloudLLM.create_kwargs, own_temperature.
    now rewrite (or_default_zero zero _ Hz). }
  assert (Em : forall m,
             YandexCloudLLM.create_kwargs self m other zero = own_max_tokens m).
  { intros m. unfold YandexCloudLLM.create_kwargs, own_max_tokens.
    now rewrite (or_default_zero zero _ Hz). }
  rewrite <- !Et, <- !Em.
  repeat split;
    auto using analyze_consistency_sent, request_gpt_sent,
      request_gpt_async_sent.
Qed.

End Gateway.

Lemma gateway_retry_policy_witness :
  let H := Examples.unreachable in
  let down := APIError (lit "connection refused") in
  let self := Examples.service in
  let w := World.initial in
  let chat async :=
    ChatCompletion async
      (YandexCloudLLM.create_kwargs self
         (YandexCloudLLM.build_messages Examples.claim_text None) None None) in
  let emb := EmbeddingRequest Examples.claim_text (YandexCloudLLM.model self) in
  let said e := printing (lit "Ошибка при запросе к LLM API: " ++ str_of_exn e) in
  (completion_reply 0 = inl down /\ completion_reply 1 = inl down
   /\ completion_reply 2 = inl down /\ embedding_reply 0 = inl down
   /\ embedding_reply 1 = inl down /\ embedding_reply 2 = inl down)
  /\ YandexCloudLLM.request_gpt self Examples.claim_text None None None w
     = (inl (RetryError down),
        sending (chat false)
          (sleeping 4 (sending (chat false)
             (sleeping 4 (sending (chat false) w)))))
  /\ YandexCloudLLM.request_gpt_async self Examples.claim_text None None None w
     = (inl (RetryError down),
        said down (sending (chat true)
          (sleeping 4 (said down (sending (chat true)
             (sleeping 4 (said down (sending (chat true) w))))))))
  /\ YandexCloudLLM.request_emb self Examples.claim_text w
     = (inl (RetryError down),
        sending emb (sleeping 4 (sending emb (sleeping 4 (sending emb w)))))
  /\ YandexCloudLLM.analyze_consistency self Examples.claim_text
       (lit "You check facts.") None None w
     = (inl (RetryError down),
        said down
          (sending (ChatCompletion false
                      (YandexCloudLLM.create_kwargs self
                         [(lit "system", lit "You check facts.");
                          (lit "user", Examples.claim_text)]
                         None None)) w))
  /\ (forall k, 4 <= wait_exponential 1 4 10 k <= 10)%Z.
Proof.
  split; [repeat split|].
  exact (@gateway_retry_policy Examples.unreachable Examples.service
           Examples.claim_text Examples.claim_text (lit "You check facts.")
           None None None World.initial _ _ _ _ _ _
           eq_refl eq_refl eq_refl eq_refl eq_refl eq_refl).
Defined.

Lemma zero_override_replaced_by_default_witness :
  let H := Examples.scripted [Examples.valid_text] in
  let self := Examples.service in
  is_zero (Some (PInt 0)) = true
  /\ sent (snd (YandexCloudLLM.analyze_consistency self Examples.claim_text
                  (lit "You check facts.") (Some (PInt 0)) (Some (PInt 200))
                  World.initial))
     = [ChatCompletion false
          {| rq_model := YandexCloudLLM.model self;
             rq_messages := [(lit "system", lit "You check facts.");
                             (lit "user", Examples.claim_text)];
             rq_temperature := PFloat 0.1;
             rq_max_tokens := PInt 200;
             rq_timeout := PInt 30 |}].
Proof.
  split; [reflexivity|].
  exact (proj1 (@zero_override_replaced_by_default
                  (Examples.scripted [Examples.valid_text]) Examples.service
                  Examples.claim_text (lit "You check facts.") None
                  (Some (PInt 0)) (Some (PInt 200)) World.initial eq_refl)).
Defined.

(** ** The embedding cache *)

Section Cache.

Context `{Remote} `{Tokens}.

Lemma cache_sleeping s w : _embeddings_cache (sleeping s w) = _embeddings_cache w.
Proof. reflexivity. Qed.

(** Retrying leaves the cache as the body leaves it. *)
Lemma attempts_cache {A} wait (f : M A) more n w :
  (forall w, _embeddings_cache (snd (f w)) = _embeddings_cache w) ->
  _embeddings_cache (snd (attempts wait f more n w)) = _embeddings_cache w.
Proof.
  intros Hf. revert n w. induction more as [|more IH]; intros n w.
  - simpl. specialize (Hf w). now destruct (f w) as [[e|a] w'].
  - simpl. specialize (Hf w). destruct (f w) as [[e|a] w']; simpl in Hf.
    + unfold bindM, sleep. now rewrite IH, cache_sleeping.
    + exact Hf.
Qed.

Lemma request_emb_cache self text w :
  _embeddings_cache (snd (YandexCloudLLM.request_emb self text w))
  = _embeddings_cache w.
Proof.
  unfold YandexCloudLLM.request_emb, retry. apply attempts_cache.
  intros w0. unfold YandexCloudLLM.request_emb_body.
  now rewrite embeddings_create_eq.
Qed.

(** A hit: the stored vector is returned and the world is untouched, so
    nothing was sent. *)
Lemma query_embedding_hit text v w :
  _embeddings_cache w !! text = Some v ->
  GraphRag._get_query_embedding text w = (inr v, w).
Proof.
  intros Hit. unfold GraphRag._get_query_embedding, bindM, cache_lookup.
  now rewrite Hit.
Qed.

Lemma text_embedding_hit text v w :
  _embeddings_cache w !! text = Some v ->
  GraphRag._get_text_embedding text w = (inr v, w).
Proof.
  intros Hit. unfold GraphRag._get_text_embedding, bindM, cache_lookup.
  now rewrite Hit.
Qed.

(** A miss: the cache afterwards is the cache before, with at most the
    requested text added. *)
Lemma query_embedding_miss text w :
  _embeddings_cache w !! text = None ->
  _embeddings_cache (snd (GraphRag._get_query_embedding text w))
  = match fst (GraphRag._get_query_embedding text w) with
    | inr v => <[text := v]> (_embeddings_cache w)
    | inl _ => _embeddings_cache w
    end.
Proof.
  intros Miss. unfold GraphRag._get_query_embedding, bindM, cache_lookup.
  rewrite Miss.
  pose proof (request_emb_cache GraphRag.emb_model text w) as Hc.
  destruct (YandexCloudLLM.request_emb GraphRag.emb_model text w)
    as [[e|v] w']; simpl in *; now rewrite Hc.
Qed.

Lemma text_embedding_miss text w :
  _embeddings_cache w !! text = None ->
  _embeddings_cache (snd (GraphRag._get_text_embedding text w))
  = match fst (GraphRag._get_text_embedding text w) with
    | inr v => <[text := v]> (_embeddings_cache w)
    | inl _ => _embeddings_cache w
    end.
Proof.
  intros Miss. unfold GraphRag._get_text_embedding, bindM, cache_lookup.
  rewrite Miss.
  pose proof (request_emb_cache GraphRag.emb_model text w) as Hc.
  destruct (YandexCloudLLM.request_emb GraphRag.emb_model text w)
    as [[e|v] w']; simpl in *; now rewrite Hc.
Qed.

(** One operation keeps every entry the cache has. *)
Lemma run_op_keeps op key v w :
  _embeddings_cache w !! key = Some v ->
  _embeddings_cache (snd (GraphRag.run_op op w)) !! key = Some v.
Proof.
  intros Hk.
  assert (Q : forall text,
             _embeddings_cache (snd (GraphRag._get_query_embedding text w))
             !! key = Some v).
  { intros text. destruct (_embeddings_cache w !! text) as [u|] eqn:E.
    - now rewrite (query_embedding_hit text u w E).
    - rewrite (query_embedding_miss text w E).
      destruct (fst (GraphRag._get_query_embedding text w)); [exact Hk|].
      rewrite lookup_insert_ne; [exact Hk|]. intros ->. congruence. }
  destruct op as [text|text|text]; simpl.
  - apply Q.
  - apply Q.
  - destruct (_embeddings_cache w !! text) as [u|] eqn:E.
    + now rewrite (text_embedding_hit text u w E).
    + rewrite (text_embedding_miss text w E).
      destruct (fst (GraphRag._get_text_embedding text w)); [exact Hk|].
      rewrite lookup_insert_ne; [exact Hk|]. intros ->. congruence.
Qed.

(** C9: once a text is in the cache, a query or text embedding request
    for exactly that text returns the stored vector and leaves the world
    as it was (no request is sent), and after any sequence of embedding
    requests, for any texts and however the remote answers, the text still
    maps to the same vector. *)
Theorem cache_write_once (text : pystr) (v : list float) (w : world)
  (ops : list GraphRag.cache_op) :
  _embeddings_cache w !! text = Some v ->
  GraphRag._get_query_embedding text w = (inr v, w)
  /\ GraphRag._aget_query_embedding text w = (inr v, w)
  /\ GraphRag._get_text_embedding text w = (inr v, w)
  /\ _embeddings_cache (GraphRag.run_ops ops w) !! text = Some v.
Proof.
  intros Hit. repeat split.
  - now apply query_embedding_hit.
  - now apply query_embedding_hit.
  - now apply text_embedding_hit.
  - revert w Hit. induction ops as [|op ops IH]; intros w Hit; simpl.
    + exact Hit.
    + apply IH. now apply run_op_keeps.
Qed.

End Cache.

Lemma cache_write_once_witness :
  let H := Examples.embedder [2%float] in
  let H0 := Examples.tokens in
  let w := storing (lit "treaty") [1%float] World.initial in
  let ops := [GraphRag.TextEmbedding (lit "signed");
              GraphRag.QueryEmbedding (lit "treaty");
              GraphRag.AsyncQueryEmbedding (lit "1991")] in
  _embeddings_cache w !! lit "treaty" = Some [1%float]
  /\ GraphRag._get_query_embedding (lit "treaty") w = (inr [1%float], w)
  /\ GraphRag._aget_query_embedding (lit "treaty") w = (inr [1%float], w)
  /\ GraphRag._get_text_embedding (lit "treaty") w = (inr [1%float], w)
  /\ _embeddings_cache (GraphRag.run_ops ops w) !! lit "treaty"
     = Some [1%float].
Proof.
  assert (Hit : _embeddings_cache (storing (lit "treaty") [1%float] World.initial)
                !! lit "treaty" = Some [1%float]).
  { vm_compute. reflexivity. }
  split; [exact Hit|].
  exact (@cache_write_once (Examples.embedder [2%float]) Examples.tokens
           (lit "treaty") [1%float]
           (storing (lit "treaty") [1%float] World.initial)
           [GraphRag.TextEmbedding (lit "signed");
            GraphRag.QueryEmbedding (lit "treaty");
            GraphRag.AsyncQueryEmbedding (lit "1991")] Hit).
Defined.

(** ** Retrieval *)

Section RetrievalFacts.

Context {Index : Type} `{Retrieval.LlamaIndex Index}.

Lemma bindM_retM {A} (m : M A) w : bindM m retM w = m w.
Proof. unfold bindM, retM. now destruct (m w) as [[e|a] w']. Qed.

(** C7, as amended: with the reranker disabled, [get_retrieved_nodes]
    returns what the retriever returned, every node, in the retriever's
    order; [reranker_top_n] plays no part. *)
Theorem reranker_disabled_returns_all (index : Index) (query_str : pystr)
  (vector_top_k reranker_top_n : Z) (w : world) :
  Retrieval.get_retrieved_nodes index query_str vector_top_k reranker_top_n
    false w
  = Retrieval.retrieve index
      {| Retrieval.include_text := true; Retrieval.max_keywords := 8;
         Retrieval.similarity_top_k := vector_top_k;
         Retrieval.path_depth := 5 |} query_str w.
Proof. unfold Retrieval.get_retrieved_nodes. apply bindM_retM. Qed.

End RetrievalFacts.

(** C7 as stated fails: five nodes retrieved, [reranker_top_n = 3], the
    reranker disabled, and five nodes come back. *)
Lemma reranker_disabled_counterexample :
  exists nodes w',
    @Retrieval.get_retrieved_nodes unit Examples.five_nodes tt
      Examples.claim_text 10 3 false World.initial = (inr nodes, w')
    /\ length nodes = 5%nat
    /\ ~ (length nodes <= 3)%nat.
Proof.
  eexists. eexists. split; [reflexivity|]. split; [reflexivity|].
  simpl. lia.
Qed.

(** ** The correction loop of [check_facts] *)

Section CheckFacts.

Context `{Remote} `{JsonDecoder} `{FileSystem}.

Lemma contains_startswith p s : startswith p s = true -> contains p s = true.
Proof. intros E. destruct s; simpl in *; now rewrite E. Qed.

Lemma contains_app p a b : contains p (a ++ p ++ b) = true.
Proof.
  induction a as [|x a IH].
  - cbn [app]. apply contains_startswith, startswith_app.
  - simpl. rewrite IH. apply orb_true_r.
Qed.


Lemma exhausted_message_5 error :
  exhausted_message 5 error
  = lit "Ошибка парсинга JSON ответа после 5 попыток: " ++ error.
Proof. reflexivity. Qed.


Lemma parse_attempt_inv llm_response parsed :
  parse_attempt llm_response = inr parsed ->
  exists doc, json_loads (_clean_json_response llm_response) = inr doc
              /\ _validate_response doc = inr parsed.
Proof.
  unfold parse_attempt.
  destruct (json_loads (_clean_json_response llm_response)) as [m|doc];
    [discriminate|].
  cbn [bind ret]. eauto.
Qed.

(** The three ways one iteration of the loop goes. *)
Lemma attempt_loop_break self max attempt rest llm_response w parsed :
  parse_attempt llm_response = inr parsed ->
  attempt_loop self max (attempt :: rest) llm_response w = (inr parsed, w).
Proof. intros E. cbn [attempt_loop]. now rewrite E. Qed.

Lemma attempt_loop_correct self max attempt rest llm_response w e next :
  parse_attempt llm_response = inl e ->
  is_ValueError e = true ->
  (attempt <? max - 1) = true ->
  completion_reply (length (sent w)) = inr next ->
  attempt_loop self max (attempt :: rest) llm_response w
  = attempt_loop self max rest next
      (sending (correction_request self llm_response e)
         (printing llm_response w)).
Proof.
  intros E V L R. cbn [attempt_loop]. rewrite E, V, L.
  unfold bindM at 1. cbn [print].
  unfold bindM at 1.
  rewrite (analyze_consistency_ok _ _ _ _ _ _ next)
    by (now rewrite sent_printing).
  reflexivity.
Qed.

Lemma attempt_loop_exhausted self max attempt rest llm_response w e :
  parse_attempt llm_response = inl e ->
  is_ValueError e = true ->
  (attempt <? max - 1) = false ->
  attempt_loop self max (attempt :: rest) llm_response w
  = (inl (ValueError (exhausted_message max (str_of_exn e))),
     printing llm_response w).
Proof. intros E V L. cbn [attempt_loop]. now rewrite E, V, L. Qed.

Lemma attempt_loop_escape self max attempt rest llm_response w e :
  parse_attempt llm_response = inl e ->
  is_ValueError e = false ->
  attempt_loop self max (attempt :: rest) llm_response w = (inl e, w).
Proof. intros E V. cbn [attempt_loop]. now rewrite E, V. Qed.

(** [check_facts] up to the loop. *)
Lemma check_facts_start self text facts w sp t mt r0 :
  _get_system_prompt self = inr sp ->
  config_item self 0 = inr t ->
  config_item self 1 = inr mt ->
  completion_reply (length (sent w)) = inr r0 ->
  check_facts self text facts w
  = bindM (attempt_loop self 5 (seq 0 5) r0)
      (fun parsed => lift (_parse_llm_response parsed facts))
      (sending (initial_request self sp t mt text facts) w).
Proof.
  intros Hsp Ht Hmt R. unfold check_facts. rewrite Hsp, Ht, Hmt.
  unfold bindM at 1, lift at 1. unfold bindM at 1, lift at 1.
  unfold bindM at 1, lift at 1. unfold bindM at 1.
  now rewrite (analyze_consistency_ok _ _ _ _ _ _ r0 R).
Qed.

(** C2, as amended: when the system prompt and the configuration are
    there and each of the five responses fails to decode or to validate with
    a [ValueError] (a [JSONDecodeError] is one), [check_facts] sends the
    opening request and four correction requests, one before each retry,
    prints each of the five rejected responses, never pauses, and raises
    [ValueError] whose text is the fixed sentence followed by the text of
    the last error. The rejected response is printed; it is no part of the
    error raised. *)
Theorem five_failed_attempts (self : FactConsistencyChecker.t)
  (text : pystr) (facts : list pystr) (w : world)
  (sp : pystr) (t mt : number) (r : nat -> pystr) (e : nat -> exn) :
  _get_system_prompt self = inr sp ->
  config_item self 0 = inr t ->
  config_item self 1 = inr mt ->
  (forall i, (i < 5)%nat ->
     completion_reply (length (sent w) + i) = inr (r i)
     /\ parse_attempt (r i) = inl (e i)
     /\ is_ValueError (e i) = true) ->
  exists w',
    check_facts self text facts w
    = (inl (ValueError
              (lit "Ошибка парсинга JSON ответа после 5 попыток: "
               ++ str_of_exn (e 4%nat))), w')
    /\ sent w'
       = sent w ++ initial_request self sp t mt text facts
                   :: map (fun i => correction_request self (r i) (e i))
                        [0; 1; 2; 3]%nat
    /\ stdout w' = stdout w ++ map r [0; 1; 2; 3; 4]%nat
    /\ slept w' = slept w
    /\ _embeddings_cache w' = _embeddings_cache w.
Proof.
  intros Hsp Ht Hmt F.
  destruct (F 0%nat ltac:(lia)) as (R0 & P0 & V0).
  destruct (F 1%nat ltac:(lia)) as (R1 & P1 & V1).
  destruct (F 2%nat ltac:(lia)) as (R2 & P2 & V2).
  destruct (F 3%nat ltac:(lia)) as (R3 & P3 & V3).
  destruct (F 4%nat ltac:(lia)) as (R4 & P4 & V4).
  rewrite Nat.add_0_r in R0.
  replace (length (sent w) + 1)%nat with (S (length (sent w))) in R1 by lia.
  replace (length (sent w) + 2)%nat with (S (S (length (sent w)))) in R2 by lia.
  replace (length (sent w) + 3)%nat
    with (S (S (S (length (sent w))))) in R3 by lia.
  replace (length (sent w) + 4)%nat
    with (S (S (S (S (length (sent w)))))) in R4 by lia.
  eexists. split.
  - rewrite (check_facts_start self text facts w sp t mt (r 0%nat) Hsp Ht Hmt R0).
    unfold bindM at 1. cbn [seq].
    rewrite (attempt_loop_correct self 5 0 _ _ _ _ (r 1%nat) P0 V0 eq_refl)
      by (sent_length; exact R1).
    rewrite (attempt_loop_correct self 5 1 _ _ _ _ (r 2%nat) P1 V1 eq_refl)
      by (sent_length; exact R2).
    rewrite (attempt_loop_correct self 5 2 _ _ _ _ (r 3%nat) P2 V2 eq_refl)
      by (sent_length; exact R3).
    rewrite (attempt_loop_correct self 5 3 _ _ _ _ (r 4%nat) P3 V3 eq_refl)
      by (sent_length; exact R4).
    rewrite (attempt_loop_exhausted self 5 4 _ _ _ _ P4 V4 eq_refl).
    rewrite exhausted_message_5. reflexivity.
  - cbn [sent stdout slept _embeddings_cache sending printing map].
    repeat split; now rewrite <- ?app_assoc.
Qed.


End CheckFacts.

Lemma five_failed_attempts_witness :
  (forall i, (i < 5)%nat ->
     @completion_reply (Examples.scripted Examples.five_bad)
       (length (sent World.initial) + i)
     = inr (Examples.reply_of Examples.five_bad i)
     /\ @parse_attempt Examples.decoder (Examples.reply_of Examples.five_bad i)
        = inl (Examples.error_of Examples.five_bad i)
     /\ is_ValueError (Examples.error_of Examples.five_bad i) = true)
  /\ exists w',
    @check_facts (Examples.scripted Examples.five_bad) Examples.decoder
      Examples.files Examples.checker Examples.claim_text Examples.known_facts
      World.initial
    = (inl (ValueError
              (lit "Ошибка парсинга JSON ответа после 5 попыток: "
               ++ str_of_exn (Examples.error_of Examples.five_bad 4%nat))), w')
    /\ sent w'
       = sent World.initial
         ++ initial_request Examples.checker (lit "You check facts.")
              (PFloat 0.1) (PInt 1000) Examples.claim_text Examples.known_facts
            :: map (fun i =>
                      correction_request Examples.checker
                        (Examples.reply_of Examples.five_bad i)
                        (Examples.error_of Examples.five_bad i))
                 [0; 1; 2; 3]%nat
    /\ stdout w'
       = stdout World.initial
         ++ map (Examples.reply_of Examples.five_bad) [0; 1; 2; 3; 4]%nat
    /\ slept w' = slept World.initial
    /\ _embeddings_cache w' = _embeddings_cache World.initial.
Proof.
  assert (Hsp : @_get_system_prompt Examples.files Examples.checker
                = inr (lit "You check facts.")) by (vm_compute; reflexivity).
  assert (Ht : config_item Examples.checker 0 = inr (PFloat 0.1))
    by (vm_compute; reflexivity).
  assert (Hmt : config_item Examples.checker 1 = inr (PInt 1000))
    by (vm_compute; reflexivity).
  assert (F : forall i, (i < 5)%nat ->
     @completion_reply (Examples.scripted Examples.five_bad)
       (length (sent World.initial) + i)
     = inr (Examples.reply_of Examples.five_bad i)
     /\ @parse_attempt Examples.decoder (Examples.reply_of Examples.five_bad i)
        = inl (Examples.error_of Examples.five_bad i)
     /\ is_ValueError (Examples.error_of Examples.five_bad i) = true).
  { intros i Hi.
    destruct i as [|[|[|[|[|i]]]]]; [| | | | |lia];
      (split; [|split]); vm_compute; reflexivity. }
  split; [exact F|].
  exact (@five_failed_attempts (Examples.scripted Examples.five_bad)
           Examples.decoder Examples.files Examples.checker
           Examples.claim_text Examples.known_facts World.initial
           (lit "You check facts.") (PFloat 0.1) (PInt 1000)
           (Examples.reply_of Examples.five_bad)
           (Examples.error_of Examples.five_bad) Hsp Ht Hmt F).
Defined.


(** The verdict of that run, field by field: the conflict is kept, the
    supporting item with the empty fact is dropped and its flag switched
    off, and the facts are those of the call. *)
Example fourth_response_verdict :
  fst (Examples.run_check Examples.three_bad_then_findings)
  = inr {| has_conflicts := JBool true;
           has_supporting_facts := JBool false;
           inconsistencies :=
             JList [Examples.item (lit "signed in 1991")
                      (lit "The treaty was signed in 1992.")
                      (lit "the years differ")];
           supporting_facts := JList [];
           confidence := JInt 1;
           relevant_facts := Examples.known_facts;
           explanation := JStr (lit "one conflict") |}.
Proof. vm_compute. reflexivity. Qed.

(** The texts of the decoding errors of the three rejected replies. *)
Example three_decoding_errors :
  map (fun i => str_of_exn (Examples.error_of Examples.three_bad_then_valid i))
    [0; 1; 2]%nat
  = [lit "Expecting value: line 1 column 1 (char 0)";
     lit "Expecting value: line 1 column 18 (char 17)";
     lit "Expecting property name enclosed in double quotes: line 1 column 2 (char 1)"].
Proof. vm_compute. reflexivity. Qed.

(** C2 as stated fails: after five rejected responses the error raised
    holds the text of the last validation error and nowhere the last
    response, which went to standard output instead. *)
Lemma exhausted_error_counterexample :
  exists msg w',
    Examples.run_check Examples.five_bad = (inl (ValueError msg), w')
    /\ last (stdout w') = Some Examples.off_schema_text
    /\ contains Examples.off_schema_text msg = false
    /\ contains (lit "В ответе отсутствуют обязательные поля") msg = true.
Proof.
  eexists. eexists. split; [vm_compute; reflexivity|].
  split; [|split]; vm_compute; reflexivity.
Qed.

(** ** More on the cleaning step *)

Section CleaningMore.

Lemma lstrip_app u v :
  lstrip (u ++ v) = match lstrip u with
                    | [] => lstrip v
                    | l => l ++ v
                    end.
Proof.
  induction u as [|a u IH]; simpl; [now destruct (lstrip v)|].
  destruct (isspace a); [exact IH | reflexivity].
Qed.

Lemma lstrip_is_suffix s : exists a, s = a ++ lstrip s.
Proof.
  induction s as [|c s [a IH]]; simpl; [now exists []|].
  destruct (isspace c).
  - exists (c :: a). simpl. now f_equal.
  - now exists [].
Qed.

Lemma rstrip_is_prefix s : exists b, s = rstrip s ++ b.
Proof.
  unfold rstrip. destruct (lstrip_is_suffix (rev s)) as [a E].
  exists (rev a). rewrite <- rev_app_distr, <- E. now rewrite rev_involutive.
Qed.

Lemma strip_is_part s : exists a b, s = a ++ strip s ++ b.
Proof.
  unfold strip. destruct (lstrip_is_suffix s) as [a Ea].
  destruct (rstrip_is_prefix (lstrip s)) as [b Eb].
  exists a, b. now rewrite <- Eb.
Qed.

Lemma part_trans (s t u : pystr) :
  (exists a b, s = a ++ t ++ b) -> (exists a b, t = a ++ u ++ b) ->
  exists a b, s = a ++ u ++ b.
Proof.
  intros (a & b & ->) (a' & b' & ->).
  exists (a ++ a'), (b' ++ b). now rewrite <- !app_assoc.
Qed.

Lemma slice_from_is_part n s : exists a b, s = a ++ slice_from n s ++ b.
Proof.
  exists (firstn n s), []. unfold slice_from.
  now rewrite app_nil_r, firstn_skipn.
Qed.

Lemma slice_drop_last_is_part n s :
  exists a b, s = a ++ slice_drop_last n s ++ b.
Proof.
  exists [], (skipn (length s - n) s). unfold slice_drop_last.
  now rewrite firstn_skipn.
Qed.

Lemma startswith_extend p l b :
  startswith p l = true -> startswith p (l ++ b) = true.
Proof.
  revert l. induction p as [|a p IH]; intros l; simpl; [reflexivity|].
  destruct l as [|c l]; [discriminate|]. simpl.
  destruct (a =? c)%N; simpl; [apply IH | discriminate].
Qed.

Lemma part_refl (s : pystr) : exists a b, s = a ++ s ++ b.
Proof. exists [], []. now rewrite app_nil_r. Qed.

(** X1: cleaning only cuts at the two ends: the cleaned text is a
    contiguous run of the response, and it has no whitespace left around
    it. *)
Theorem clean_is_trimmed_part (s : pystr) :
  (exists a b, s = a ++ _clean_json_response s ++ b)
  /\ strip (_clean_json_response s) = _clean_json_response s.
Proof.
  unfold _clean_json_response. cbv zeta. split; [|apply strip_idem].
  eapply part_trans; [apply strip_is_part|].
  eapply part_trans; [|apply strip_is_part].
  eapply part_trans; [|destruct (endswith fence _);
                         [apply slice_drop_last_is_part | apply part_refl]].
  destruct (startswith fence_json (strip s));
    [apply slice_from_is_part|].
  destruct (startswith fence (strip s));
    [apply slice_from_is_part | apply part_refl].
Qed.

Lemma rstrip_cons_any a t :
  rstrip (a :: t) = match rstrip t with
                    | [] => if isspace a then [] else [a]
                    | l => a :: l
                    end.
Proof.
  unfold rstrip. simpl. rewrite lstrip_app.
  destruct (lstrip (rev t)) as [|c l] eqn:E; simpl.
  - now destruct (isspace a).
  - rewrite rev_app_distr. simpl.
    destruct (rev l ++ [c]) eqn:E2; [|reflexivity].
    now destruct (rev l).
Qed.

Lemma lstrip_rstrip t : lstrip (rstrip t) = rstrip (lstrip t).
Proof.
  induction t as [|a t IH]; [reflexivity|].
  simpl. destruct (isspace a) eqn:Ha.
  - rewrite <- IH, rstrip_cons_any.
    destruct (rstrip t); simpl; now rewrite Ha.
  - rewrite (rstrip_cons a t Ha). simpl. now rewrite Ha.
Qed.

Lemma strip_rstrip t : strip (rstrip t) = strip t.
Proof. unfold strip. now rewrite lstrip_rstrip, rstrip_idem. Qed.

(** Trimming the right end of a text that begins with a fence leaves the
    fence in place. *)
Lemma rstrip_after_fence p t :
  (p = fence_json \/ p = fence) -> rstrip (p ++ t) = p ++ rstrip t.
Proof.
  intros Hp. unfold rstrip. rewrite rev_app_distr, lstrip_app.
  destruct (lstrip (rev t)) as [|c l] eqn:E.
  - destruct Hp as [-> | ->]; reflexivity.
  - now rewrite rev_app_distr, rev_involutive.
Qed.

(** X2: a fence that is opened and never closed is still removed: when
    the text after the opening fence does not end with a fence, cleaning
    returns that text trimmed (after a bare fence, provided the text does
    not begin with the word json). *)
Theorem clean_unclosed_fence (t : pystr) :
  endswith fence (rstrip t) = false ->
  _clean_json_response (fence_json ++ t) = strip t
  /\ (startswith (lit "json") t = false ->
      _clean_json_response (fence ++ t) = strip t).
Proof.
  intros He. split.
  - unfold _clean_json_response. cbv zeta.
    assert (Es : strip (fence_json ++ t) = fence_json ++ rstrip t).
    { unfold strip.
      replace (lstrip (fence_json ++ t)) with (fence_json ++ t)
        by (rewrite fence_json_chars; reflexivity).
      apply rstrip_after_fence. now left. }
    rewrite Es, startswith_app.
    replace (slice_from 7 (fence_json ++ rstrip t)) with (rstrip t)
      by reflexivity.
    rewrite He. apply strip_rstrip.
  - intros Hj. unfold _clean_json_response. cbv zeta.
    assert (Es : strip (fence ++ t) = fence ++ rstrip t).
    { unfold strip.
      replace (lstrip (fence ++ t)) with (fence ++ t)
        by (rewrite fence_chars; reflexivity).
      apply rstrip_after_fence. now right. }
    rewrite Es.
    assert (Hj' : startswith fence_json (fence ++ rstrip t) = false).
    { replace (startswith fence_json (fence ++ rstrip t))
        with (startswith (lit "json") (rstrip t)) by reflexivity.
      destruct (startswith (lit "json") (rstrip t)) eqn:E; [|reflexivity].
      destruct (rstrip_is_prefix t) as [b Eb].
      rewrite Eb in Hj. rewrite (startswith_extend _ _ b E) in Hj.
      discriminate Hj. }
    rewrite Hj', startswith_app.
    replace (slice_from 3 (fence ++ rstrip t)) with (rstrip t) by reflexivity.
    rewrite He. apply strip_rstrip.
Qed.

Lemma clean_unclosed_fence_witness :
  let t := lit "
{}  " in
  endswith fence (rstrip t) = false
  /\ _clean_json_response (fence_json ++ t) = strip t
  /\ (startswith (lit "json") t = false ->
      _clean_json_response (fence ++ t) = strip t).
Proof.
  split; [reflexivity|].
  apply (clean_unclosed_fence (lit "
{}  ")). reflexivity.
Defined.

End CleaningMore.

(** ** More on validation *)

Section ValidationMore.

Local Opaque lit.

Lemma dict_set_keys k v x d :
  dict_get k d = Some x -> map fst (dict_set k v d) = map fst d.
Proof.
  induction d as [|[k0 v0] d IH]; cbn [dict_get dict_set]; [discriminate|].
  destruct (eqb k0 k) eqn:E; [reflexivity|].
  intros Hx. cbn [map fst]. now rewrite IH.
Qed.

Lemma normalized_keys d ki ks hc hs incs sups :
  dict_get (lit "has_conflicts") d = Some hc ->
  dict_get (lit "has_supporting_facts") d = Some hs ->
  dict_get (lit "inconsistencies") d = Some incs ->
  dict_get (lit "supporting_facts") d = Some sups ->
  map fst (normalized d ki ks) = map fst d.
Proof.
  intros Hc Hs Hi Hp. unfold normalized. cbv zeta.
  set (d1 := dict_set (lit "inconsistencies") (JList ki) d).
  assert (K1 : map fst d1 = map fst d) by (eapply dict_set_keys; eauto).
  assert (C1 : dict_get (lit "has_conflicts") d1 = Some hc)
    by (subst d1; now rewrite dict_get_set_ne by keys_ne).
  assert (P1 : dict_get (lit "supporting_facts") d1 = Some sups)
    by (subst d1; now rewrite dict_get_set_ne by keys_ne).
  assert (S1 : dict_get (lit "has_supporting_facts") d1 = Some hs)
    by (subst d1; now rewrite dict_get_set_ne by keys_ne).
  set (d2 := if truthy (JList ki) then d1
             else dict_set (lit "has_conflicts") (JBool false) d1).
  assert (K2 : map fst d2 = map fst d).
  { subst d2. destruct (truthy (JList ki)); [exact K1|].
    rewrite <- K1. eapply dict_set_keys; eauto. }
  assert (P2 : dict_get (lit "supporting_facts") d2 = Some sups).
  { subst d2. destruct (truthy (JList ki)); [exact P1|].
    now rewrite dict_get_set_ne by keys_ne. }
  assert (S2 : dict_get (lit "has_supporting_facts") d2 = Some hs).
  { subst d2. destruct (truthy (JList ki)); [exact S1|].
    now rewrite dict_get_set_ne by keys_ne. }
  destruct (truthy (JList ks)).
  - rewrite <- K2. eapply dict_set_keys; eauto.
  - rewrite <- K2.
    rewrite (dict_set_keys _ _ hs)
      by (now rewrite dict_get_set_ne by keys_ne).
    eapply dict_set_keys; eauto.
Qed.

Lemma normalized_key_false k :
  Scenes.normalized_key k = false ->
  lit "inconsistencies" <> k /\ lit "has_conflicts" <> k
  /\ lit "supporting_facts" <> k /\ lit "has_supporting_facts" <> k.
Proof.
  unfold Scenes.normalized_key. intros H.
  repeat (apply orb_false_iff in H as [H ?]).
  repeat split; intros <-;
    match goal with
    | E : eqb ?a ?a = false |- _ => now rewrite eqb_refl in E
    end.
Qed.

Lemma normalized_other d ki ks k :
  Scenes.normalized_key k = false ->
  dict_get k (normalized d ki ks) = dict_get k d.
Proof.
  intros H. apply normalized_key_false in H as (N1 & N2 & N3 & N4).
  unfold normalized. cbv zeta.
  destruct (truthy (JList ki)), (truthy (JList ks));
    now rewrite ?dict_get_set_ne by assumption.
Qed.

(** X3: validation neither adds nor removes a key, nor moves one: the
    validated dictionary has the keys of the response, in the same order,
    and every key other than the two lists and the two flags keeps its
    value (unknown extra fields pass through). *)
Theorem validate_keeps_keys (r r1 : json) :
  _validate_response r = inr r1 ->
  Scenes.keys r1 = Scenes.keys r
  /\ forall k, Scenes.normalized_key k = false -> getitem r1 k = getitem r k.
Proof.
  intros H.
  apply validate_inv in H
    as (d & hc & hs & incs & sups & conf & expl & ki & ks & -> & Hhc & Hhs
        & Hi & Hs & Hc & Tc & He & Te & Ci & Cs & Wi & Ws & ->).
  split.
  - cbn [Scenes.keys]. eapply normalized_keys; eauto.
  - intros k Hk. cbn [getitem]. now rewrite normalized_other.
Qed.

Lemma validate_keeps_keys_witness :
  let r := JDict [(lit "model", JStr (lit "yandexgpt-lite"));
                  (lit "has_conflicts", JBool true);
                  (lit "has_supporting_facts", JBool false);
                  (lit "inconsistencies", JList []);
                  (lit "supporting_facts", JList []);
                  (lit "confidence", JInt 1);
                  (lit "explanation", JStr (lit "checked"))] in
  let r1 := JDict [(lit "model", JStr (lit "yandexgpt-lite"));
                   (lit "has_conflicts", JBool false);
                   (lit "has_supporting_facts", JBool false);
                   (lit "inconsistencies", JList []);
                   (lit "supporting_facts", JList []);
                   (lit "confidence", JInt 1);
                   (lit "explanation", JStr (lit "checked"))] in
  _validate_response r = inr r1
  /\ Scenes.keys r1 = Scenes.keys r
  /\ forall k, Scenes.normalized_key k = false -> getitem r1 k = getitem r k.
Proof.
  intros r r1.
  assert (H : _validate_response r = inr r1) by (vm_compute; reflexivity).
  split; [exact H|]. exact (validate_keeps_keys r r1 H).
Defined.

(** X4: normalization is a filter: each validated list holds exactly the
    items of the response's list whose fact is not empty, in their
    original order. *)
Theorem validate_filters_lists (r r1 : json) :
  _validate_response r = inr r1 ->
  exists incs sups,
    getitem r (lit "inconsistencies") = inr (JList incs)
    /\ getitem r (lit "supporting_facts") = inr (JList sups)
    /\ getitem r1 (lit "inconsistencies")
       = inr (JList (List.filter fact_nonempty incs))
    /\ getitem r1 (lit "supporting_facts")
       = inr (JList (List.filter fact_nonempty sups)).
Proof.
  intros H.
  apply validate_inv in H
    as (d & hc & hs & incs & sups & conf & expl & ki & ks & -> & Hhc & Hhs
        & Hi & Hs & Hc & Tc & He & Te & Ci & Cs & Wi & Ws & ->).
  exists incs, sups.
  rewrite <- (with_fact_filter _ _ Wi), <- (with_fact_filter _ _ Ws).
  split; [now apply getitem_dict|]. split; [now apply getitem_dict|].
  split; apply getitem_dict.
  - apply normalized_get_inconsistencies.
  - apply normalized_get_supporting_facts.
Qed.

Lemma validate_filters_lists_witness :
  let kept := Examples.item (lit "signed in 1991") (lit "signed in 1992")
                (lit "the years differ") in
  let dropped := Examples.item (lit "ratified") [] (lit "no source") in
  let r := Examples.response true true [dropped; kept; dropped] [dropped] in
  let r1 := Examples.response true false [kept] [] in
  _validate_response r = inr r1
  /\ exists incs sups,
    getitem r (lit "inconsistencies") = inr (JList incs)
    /\ getitem r (lit "supporting_facts") = inr (JList sups)
    /\ getitem r1 (lit "inconsistencies")
       = inr (JList (List.filter fact_nonempty incs))
    /\ getitem r1 (lit "supporting_facts")
       = inr (JList (List.filter fact_nonempty sups)).
Proof.
  intros kept dropped r r1.
  assert (H : _validate_response r = inr r1) by (vm_compute; reflexivity).
  split; [exact H|]. exact (validate_filters_lists r r1 H).
Defined.

(** X5: validation does not look at the value of [confidence] beyond its
    type: in a response it accepts, any other [int], [float] or [bool]
    (negative, above 1, NaN) in its place is accepted too and comes out
    unchanged. *)
Theorem validate_any_confidence (d : list (pystr * json)) (conf : json) :
  structurally_valid (JDict d) ->
  isinstance_number conf = true ->
  exists r1,
    _validate_response (JDict (dict_set (lit "confidence") conf d)) = inr r1
    /\ getitem r1 (lit "confidence") = inr conf.
Proof.
  intros [r0 H] Tc'.
  apply validate_inv in H
    as (d0 & hc & hs & incs & sups & conf0 & expl & ki & ks & [= <-] & Hhc
        & Hhs & Hi & Hs & Hc & Tc & He & Te & Ci & Cs & Wi & Ws & ->).
  eexists. split.
  - apply (validate_intro _ hc hs incs sups conf expl ki ks);
      rewrite ?dict_get_set_ne by keys_ne; try assumption.
    apply dict_get_set_eq.
  - apply getitem_dict. rewrite normalized_get_confidence.
    apply dict_get_set_eq.
Qed.

Lemma validate_any_confidence_witness :
  let d := [(lit "has_conflicts", JBool false);
            (lit "has_supporting_facts", JBool false);
            (lit "inconsistencies", JList []);
            (lit "supporting_facts", JList []);
            (lit "confidence", JInt 1);
            (lit "explanation", JStr (lit "checked"))] in
  structurally_valid (JDict d)
  /\ isinstance_number (JInt (-3)) = true
  /\ exists r1,
    _validate_response (JDict (dict_set (lit "confidence") (JInt (-3)) d))
    = inr r1
    /\ getitem r1 (lit "confidence") = inr (JInt (-3)).
Proof.
  intros d.
  assert (Hv : structurally_valid (JDict d))
    by (eexists; vm_compute; reflexivity).
  split; [exact Hv|]. split; [reflexivity|].
  exact (validate_any_confidence d (JInt (-3)) Hv eq_refl).
Defined.

End ValidationMore.

(** ** More on [check_facts] *)

Section CheckFactsMore.

Context `{Remote} `{JsonDecoder} `{FileSystem}.

(** [analyze_consistency] in full: one request; the reply, or the failure
    printed and wrapped. *)
Lemma analyze_consistency_eq self prompt system t mt w :
  YandexCloudLLM.analyze_consistency self prompt system t mt w
  = let rq := ChatCompletion false
                (YandexCloudLLM.create_kwargs self
                   [(lit "system", system); (lit "user", prompt)] t mt) in
    match completion_reply (length (sent w)) with
    | inr reply => (inr reply, sending rq w)
    | inl e =>
        (inl (RetryError e),
         printing (lit "Ошибка при запросе к LLM API: " ++ str_of_exn e)
           (sending rq w))
    end.
Proof.
  cbv zeta. destruct (completion_reply (length (sent w))) as [e|reply] eqn:E.
  - unfold YandexCloudLLM.analyze_consistency, retry. cbn [Nat.sub].
    apply attempts_last. unfold YandexCloudLLM.analyze_consistency_body.
    apply print_and_reraise_fail.
    now rewrite chat_completions_create_eq, E.
  - now apply analyze_consistency_ok.
Qed.

(** One iteration of the loop, case by case. *)
Lemma attempt_loop_step self max attempt rest llm_response w :
  attempt_loop self max (attempt :: rest) llm_response w
  = match parse_attempt llm_response with
    | inr parsed => (inr parsed, w)
    | inl e =>
        if is_ValueError e then
          if attempt <? max - 1 then
            let w1 := sending (correction_request self llm_response e)
                        (printing llm_response w) in
            match completion_reply (length (sent w)) with
            | inr next => attempt_loop self max rest next w1
            | inl x =>
                (inl (RetryError x),
                 printing (lit "Ошибка при запросе к LLM API: "
                           ++ str_of_exn x) w1)
            end
          else
            (inl (ValueError (exhausted_message max (str_of_exn e))),
             printing llm_response w)
        else (inl e, w)
    end.
Proof.
  destruct (parse_attempt llm_response) as [e|parsed] eqn:P;
    [|now apply attempt_loop_break].
  destruct (is_ValueError e) eqn:V; [|now apply attempt_loop_escape].
  destruct (attempt <? max - 1) eqn:L; [|now apply attempt_loop_exhausted].
  cbv zeta.
  destruct (completion_reply (length (sent w))) as [x|next] eqn:R;
    [|now apply attempt_loop_correct].
  cbn [attempt_loop]. rewrite P, V, L.
  unfold bindM, print. rewrite analyze_consistency_eq. cbv zeta.
  rewrite sent_printing, R. reflexivity.
Qed.

(** One run of the loop from attempt [a] with [n] attempts left: it sends
    at most [n - 1] requests, all of them completions, never pauses, leaves
    the cache alone, and what it returns was parsed from a reply of the
    remote. *)
Lemma attempt_loop_frame self max lo n :
  forall a llm_response w,
    (a + n = max)%nat ->
    (lo <= length (sent w))%nat ->
    (exists l,
        sent (snd (attempt_loop self max (seq a n) llm_response w))
        = sent w ++ l
        /\ (length l <= n - 1)%nat /\ forallb Scenes.is_chat l = true)
    /\ slept (snd (attempt_loop self max (seq a n) llm_response w)) = slept w
    /\ _embeddings_cache (snd (attempt_loop self max (seq a n) llm_response w))
       = _embeddings_cache w
    /\ forall parsed,
        fst (attempt_loop self max (seq a n) llm_response w) = inr parsed ->
        (exists i, (lo <= i < length (sent w))%nat
                   /\ completion_reply i = inr llm_response) ->
        exists i r,
          (lo <= i < length
                 (sent (snd (attempt_loop self max (seq a n) llm_response w))))%nat
          /\ completion_reply i = inr r
          /\ parse_attempt r = inr parsed.
Proof.
  assert (Nil : forall w : world,
             exists l : list Request,
               sent w = sent w ++ l /\ (length l <= 0)%nat
               /\ forallb Scenes.is_chat l = true).
  { intros w. exists []. rewrite app_nil_r. split; [reflexivity|].
    split; [simpl; lia | reflexivity]. }
  assert (Weak : forall (w : world) k,
             exists l : list Request,
               sent w = sent w ++ l /\ (length l <= k)%nat
               /\ forallb Scenes.is_chat l = true).
  { intros w k. destruct (Nil w) as (l & E & L & C).
    exists l. split; [exact E|]. split; [lia | exact C]. }
  induction n as [|n IH]; intros a llm_response w Hmax Hlo.
  - cbn [seq attempt_loop raiseM fst snd].
    split; [apply Nil|]. split; [reflexivity|]. split; [reflexivity|].
    intros parsed [=].
  - cbn [seq]. rewrite attempt_loop_step.
    destruct (parse_attempt llm_response) as [e|parsed0] eqn:P.
    + destruct (is_ValueError e) eqn:V.
      * destruct (a <? max - 1) eqn:L.
        -- cbv zeta.
           set (w1 := sending (correction_request self llm_response e)
                        (printing llm_response w)).
           destruct (completion_reply (length (sent w))) as [x|next] eqn:R.
           ++ cbn [fst snd]. split; [|split; [reflexivity|split; [reflexivity|]]].
              ** exists [correction_request self llm_response e].
                 split; [reflexivity|]. split; [|reflexivity].
                 apply Nat.ltb_lt in L. simpl. lia.
              ** intros parsed [=].
           ++ assert (Hlo1 : (lo <= length (sent w1))%nat)
                by (subst w1; rewrite length_sent_sending, sent_printing; lia).
              destruct (IH (S a) next w1 ltac:(lia) Hlo1)
                as ((l & El & Ll & Cl) & Sl & Cc & Pp).
              split; [|split; [|split]].
              ** exists (correction_request self llm_response e :: l).
                 rewrite El. subst w1. cbn [sent sending printing].
                 rewrite <- app_assoc. split; [reflexivity|].
                 split; [|exact Cl].
                 apply Nat.ltb_lt in L. simpl. lia.
              ** now rewrite Sl.
              ** now rewrite Cc.
              ** intros parsed Hp _. apply Pp; [exact Hp|].
                 exists (length (sent w)). subst w1.
                 rewrite length_sent_sending, sent_printing.
                 split; [lia | exact R].
        -- cbn [fst snd].
           split; [apply (Weak (printing llm_response w))|].
           split; [reflexivity|]. split; [reflexivity|].
           intros parsed [=].
      * cbn [fst snd]. split; [apply Weak|].
        split; [reflexivity|]. split; [reflexivity|].
        intros parsed [=].
    + cbn [fst snd]. split; [apply Weak|].
      split; [reflexivity|]. split; [reflexivity|].
      intros parsed [= <-] (i & Hi & Ri). now exists i, llm_response.
Qed.

(** [check_facts] in full, up to the loop. *)
Lemma check_facts_eq self text facts w :
  check_facts self text facts w
  = match _get_system_prompt self with
    | inl e => (inl e, w)
    | inr sp =>
        match config_item self 0 with
        | inl e => (inl e, w)
        | inr t =>
            match config_item self 1 with
            | inl e => (inl e, w)
            | inr mt =>
                let w0 := sending (initial_request self sp t mt text facts) w in
                match completion_reply (length (sent w)) with
                | inl e =>
                    (inl (RetryError e),
                     printing (lit "Ошибка при запросе к LLM API: "
                               ++ str_of_exn e) w0)
                | inr r0 =>
                    bindM (attempt_loop self 5 (seq 0 5) r0)
                      (fun parsed => lift (_parse_llm_response parsed facts))
                      w0
                end
            end
        end
    end.
Proof.
  destruct (_get_system_prompt self) as [e|sp] eqn:Hsp.
  { unfold check_facts. now rewrite Hsp. }
  destruct (config_item self 0) as [e|t] eqn:Ht.
  { unfold check_facts. now rewrite Hsp, Ht. }
  destruct (config_item self 1) as [e|mt] eqn:Hmt.
  { unfold check_facts. now rewrite Hsp, Ht, Hmt. }
  cbv zeta.
  destruct (completion_reply (length (sent w))) as [e|r0] eqn:R.
  - unfold check_facts. rewrite Hsp, Ht, Hmt.
    unfold bindM, lift. rewrite analyze_consistency_eq. cbv zeta.
    now rewrite R.
  - now apply check_facts_start.
Qed.

(** X6: a reply that decodes to a JSON number, boolean or null ends
    [check_facts] at once: validation raises [TypeError], which the loop
    does not catch, so one request was sent, nothing was printed and no
    correction was asked for. *)
Theorem scalar_reply_raises_TypeError (self : FactConsistencyChecker.t)
  (text : pystr) (facts : list pystr) (w : world) (sp : pystr)
  (t mt : number) (r0 : pystr) (doc : json) :
  _get_system_prompt self = inr sp ->
  config_item self 0 = inr t ->
  config_item self 1 = inr mt ->
  completion_reply (length (sent w)) = inr r0 ->
  json_loads (_clean_json_response r0) = inr doc ->
  Scenes.scalar doc = true ->
  check_facts self text facts w
  = (inl TypeError, sending (initial_request self sp t mt text facts) w).
Proof.
  intros Hsp Ht Hmt R J Sc.
  rewrite check_facts_eq, Hsp, Ht, Hmt. cbv zeta. rewrite R.
  unfold bindM. cbn [seq]. rewrite attempt_loop_step.
  assert (P : parse_attempt r0 = inl TypeError).
  { unfold parse_attempt. rewrite J. cbn [bind ret].
    destruct doc; try discriminate Sc; reflexivity. }
  now rewrite P.
Qed.

(** X7: when the first reply decodes and validates, [check_facts] returns
    its verdict after a single request, with nothing printed; the verdict
    lists the facts that were passed in. *)
Theorem first_attempt_succeeds (self : FactConsistencyChecker.t)
  (text : pystr) (facts : list pystr) (w : world) (sp : pystr)
  (t mt : number) (r0 : pystr) (parsed : json) :
  _get_system_prompt self = inr sp ->
  config_item self 0 = inr t ->
  config_item self 1 = inr mt ->
  completion_reply (length (sent w)) = inr r0 ->
  parse_attempt r0 = inr parsed ->
  exists verdict,
    check_facts self text facts w
    = (inr verdict, sending (initial_request self sp t mt text facts) w)
    /\ _parse_llm_response parsed facts = inr verdict
    /\ relevant_facts verdict = facts.
Proof.
  intros Hsp Ht Hmt R P.
  destruct (parse_attempt_inv _ _ P) as (doc & _ & Vd).
  destruct (verdict_of_valid doc facts (ex_intro _ parsed Vd)) as [verdict Ev].
  pose proof (verdict_of_inv _ _ _ Ev)
    as (d & hc & hs & incs & sups & conf & expl & ki & ks & _ & _ & _ & _
        & _ & _ & _ & _ & _ & Eq).
  unfold verdict_of in Ev. rewrite Vd in Ev. cbn [bind] in Ev.
  exists verdict. split; [|split; [exact Ev | now rewrite Eq]].
  rewrite check_facts_eq, Hsp, Ht, Hmt. cbv zeta. rewrite R.
  unfold bindM. cbn [seq]. rewrite attempt_loop_step, P.
  unfold lift. now rewrite Ev.
Qed.

(** X8: when the opening call fails, [check_facts] does not retry it: it
    raises tenacity's [RetryError] around the failure after one request. *)
Theorem opening_failure_propagates (self : FactConsistencyChecker.t)
  (text : pystr) (facts : list pystr) (w : world) (sp : pystr)
  (t mt : number) (e : exn) :
  _get_system_prompt self = inr sp ->
  config_item self 0 = inr t ->
  config_item self 1 = inr mt ->
  completion_reply (length (sent w)) = inl e ->
  check_facts self text facts w
  = (inl (RetryError e),
     printing (lit "Ошибка при запросе к LLM API: " ++ str_of_exn e)
       (sending (initial_request self sp t mt text facts) w)).
Proof.
  intros Hsp Ht Hmt R.
  rewrite check_facts_eq, Hsp, Ht, Hmt. cbv zeta. now rewrite R.
Qed.

(** X9: a correction call that fails ends [check_facts]: the failure
    raised inside the handler is not caught by it, so the remaining
    attempts are not made. *)
Theorem correction_failure_propagates (self : FactConsistencyChecker.t)
  (text : pystr) (facts : list pystr) (w : world) (sp : pystr)
  (t mt : number) (r0 : pystr) (e0 x : exn) :
  _get_system_prompt self = inr sp ->
  config_item self 0 = inr t ->
  config_item self 1 = inr mt ->
  completion_reply (length (sent w)) = inr r0 ->
  parse_attempt r0 = inl e0 ->
  is_ValueError e0 = true ->
  completion_reply (S (length (sent w))) = inl x ->
  check_facts self text facts w
  = (inl (RetryError x),
     printing (lit "Ошибка при запросе к LLM API: " ++ str_of_exn x)
       (sending (correction_request self r0 e0)
          (printing r0
             (sending (initial_request self sp t mt text facts) w)))).
Proof.
  intros Hsp Ht Hmt R P V X.
  rewrite check_facts_eq, Hsp, Ht, Hmt. cbv zeta. rewrite R.
  unfold bindM. cbn [seq]. rewrite attempt_loop_step, P, V.
  cbn [Nat.ltb Nat.leb Nat.sub]. cbv zeta.
  now rewrite length_sent_sending, X.
Qed.

(** X10: whatever the remote, the decoder and the files do, one call of
    [check_facts] sends at most five requests, all of them completions,
    never pauses and never touches the embedding cache. *)
Theorem check_facts_sends_at_most_five (self : FactConsistencyChecker.t)
  (text : pystr) (facts : list pystr) (w : world) :
  let w' := snd (check_facts self text facts w) in
  (exists l, sent w' = sent w ++ l
             /\ (length l <= 5)%nat
             /\ forallb Scenes.is_chat l = true)
  /\ slept w' = slept w
  /\ _embeddings_cache w' = _embeddings_cache w.
Proof.
  cbv zeta. rewrite check_facts_eq.
  assert (Nil : exists l : list Request,
             sent w = sent w ++ l /\ (length l <= 5)%nat
             /\ forallb Scenes.is_chat l = true).
  { exists []. rewrite app_nil_r. split; [reflexivity|].
    split; [simpl; lia | reflexivity]. }
  destruct (_get_system_prompt self) as [e|sp]; [now repeat split|].
  destruct (config_item self 0) as [e|t]; [now repeat split|].
  destruct (config_item self 1) as [e|mt]; [now repeat split|].
  cbv zeta.
  set (w0 := sending (initial_request self sp t mt text facts) w).
  destruct (completion_reply (length (sent w))) as [e|r0].
  - cbn [snd]. split; [|split; reflexivity].
    exists [initial_request self sp t mt text facts].
    split; [reflexivity|]. split; [simpl; lia | reflexivity].
  - assert (Hlo : (0 <= length (sent w0))%nat) by lia.
    destruct (attempt_loop_frame self 5 0 5 0 r0 w0 eq_refl Hlo)
      as ((l & El & Ll & Cl) & Sl & Cc & _).
    unfold bindM, lift.
    destruct (attempt_loop self 5 (seq 0 5) r0 w0) as [[e|parsed] w1];
      cbn [snd] in *;
      (split; [|split; [now rewrite Sl | now rewrite Cc]]);
      exists (initial_request self sp t mt text facts :: l);
      rewrite El; subst w0; cbn [sent sending];
      rewrite <- app_assoc; (split; [reflexivity|]);
      (split; [simpl; lia | exact Cl]).
Qed.

(** Where a returned verdict comes from. *)
Lemma check_facts_returns_inv (self : FactConsistencyChecker.t)
  (text : pystr) (facts : list pystr) (w w' : world)
  (verdict : FactCheckResult) :
  check_facts self text facts w = (inr verdict, w') ->
  exists i r doc,
    (length (sent w) <= i < length (sent w'))%nat
    /\ completion_reply i = inr r
    /\ json_loads (_clean_json_response r) = inr doc
    /\ verdict_of doc facts = inr verdict
    /\ relevant_facts verdict = facts.
Proof.
  rewrite check_facts_eq.
  destruct (_get_system_prompt self) as [e|sp]; [discriminate|].
  destruct (config_item self 0) as [e|t]; [discriminate|].
  destruct (config_item self 1) as [e|mt]; [discriminate|].
  cbv zeta.
  set (w0 := sending (initial_request self sp t mt text facts) w).
  destruct (completion_reply (length (sent w))) as [e|r0] eqn:R;
    [discriminate|].
  assert (Hlo : (length (sent w) <= length (sent w0))%nat)
    by (subst w0; rewrite length_sent_sending; lia).
  destruct (attempt_loop_frame self 5 (length (sent w)) 5 0 r0 w0 eq_refl Hlo)
    as ((l & El & _ & _) & _ & _ & Pp).
  unfold bindM, lift.
  destruct (attempt_loop self 5 (seq 0 5) r0 w0) as [[e|parsed] w1] eqn:A;
    [discriminate|].
  cbn [fst snd] in *. intros [= Ev <-].
  destruct (Pp parsed eq_refl) as (i & r & Hi & Ri & P).
  { exists (length (sent w)). subst w0. rewrite length_sent_sending.
    split; [lia | exact R]. }
  destruct (parse_attempt_inv _ _ P) as (doc & J & Vd).
  assert (Hv : verdict_of doc facts = inr verdict).
  { unfold verdict_of. rewrite Vd. exact Ev. }
  pose proof (verdict_of_inv _ _ _ Hv)
    as (d & hc & hs & incs & sups & conf & expl & ki & ks & _ & _ & _ & _
        & _ & _ & _ & _ & _ & Eq).
  exists i, r, doc.
  split; [exact Hi|].
  split; [exact Ri|split; [exact J|split; [exact Hv|now rewrite Eq]]].
Qed.

(** X11: every verdict [check_facts] returns was built from a reply the
    remote gave during the call, which decoded and passed validation; its
    [relevant_facts] are the facts passed in. *)
Theorem verdict_comes_from_a_valid_reply (self : FactConsistencyChecker.t)
  (text : pystr) (facts : list pystr) (w w' : world)
  (verdict : FactCheckResult) :
  check_facts self text facts w = (inr verdict, w') ->
  exists i r doc,
    (length (sent w) <= i < length (sent w'))%nat
    /\ completion_reply i = inr r
    /\ json_loads (_clean_json_response r) = inr doc
    /\ verdict_of doc facts = inr verdict
    /\ relevant_facts verdict = facts.
Proof. apply check_facts_returns_inv. Qed.

End CheckFactsMore.

Lemma scalar_reply_raises_TypeError_witness :
  let remote := Scenes.staged [inr (lit "42")] [] in
  @completion_reply remote (length (sent World.initial)) = inr (lit "42")
  /\ @json_loads Examples.decoder (_clean_json_response (lit "42"))
     = inr (JInt 42)
  /\ @check_facts remote Examples.decoder Examples.files Examples.checker
       Examples.claim_text Examples.known_facts World.initial
     = (inl TypeError,
        sending (initial_request Examples.checker (lit "You check facts.")
                   (PFloat 0.1) (PInt 1000) Examples.claim_text
                   Examples.known_facts) World.initial).
Proof.
  intros remote.
  assert (Hsp : @_get_system_prompt Examples.files Examples.checker
                = inr (lit "You check facts.")) by (vm_compute; reflexivity).
  assert (R : @completion_reply remote (length (sent World.initial))
              = inr (lit "42")) by (vm_compute; reflexivity).
  assert (J : @json_loads Examples.decoder (_clean_json_response (lit "42"))
              = inr (JInt 42)) by (vm_compute; reflexivity).
  split; [exact R|]. split; [exact J|].
  exact (@scalar_reply_raises_TypeError remote Examples.decoder Examples.files
           Examples.checker Examples.claim_text Examples.known_facts
           World.initial (lit "You check facts.") (PFloat 0.1) (PInt 1000)
           (lit "42") (JInt 42) Hsp eq_refl eq_refl R J eq_refl).
Defined.

Lemma first_attempt_succeeds_witness :
  let remote := Scenes.staged [inr Examples.valid_text] [] in
  @completion_reply remote (length (sent World.initial))
  = inr Examples.valid_text
  /\ @parse_attempt Examples.decoder Examples.valid_text
     = inr (Examples.response false false [] [])
  /\ exists verdict,
    @check_facts remote Examples.decoder Examples.files Examples.checker
      Examples.claim_text Examples.known_facts World.initial
    = (inr verdict,
       sending (initial_request Examples.checker (lit "You check facts.")
                  (PFloat 0.1) (PInt 1000) Examples.claim_text
                  Examples.known_facts) World.initial)
    /\ _parse_llm_response (Examples.response false false [] [])
         Examples.known_facts = inr verdict
    /\ relevant_facts verdict = Examples.known_facts.
Proof.
  intros remote.
  assert (Hsp : @_get_system_prompt Examples.files Examples.checker
                = inr (lit "You check facts.")) by (vm_compute; reflexivity).
  assert (R : @completion_reply remote (length (sent World.initial))
              = inr Examples.valid_text) by (vm_compute; reflexivity).
  assert (P : @parse_attempt Examples.decoder Examples.valid_text
              = inr (Examples.response false false [] []))
    by (vm_compute; reflexivity).
  split; [exact R|]. split; [exact P|].
  exact (@first_attempt_succeeds remote Examples.decoder Examples.files
           Examples.checker Examples.claim_text Examples.known_facts
           World.initial (lit "You check facts.") (PFloat 0.1) (PInt 1000)
           Examples.valid_text (Examples.response false false [] [])
           Hsp eq_refl eq_refl R P).
Defined.

Lemma opening_failure_propagates_witness :
  let remote := Scenes.staged [inl Scenes.timeout_error] [] in
  @completion_reply remote (length (sent World.initial))
  = inl Scenes.timeout_error
  /\ @check_facts remote Examples.decoder Examples.files Examples.checker
       Examples.claim_text Examples.known_facts World.initial
     = (inl (RetryError Scenes.timeout_error),
        printing (lit "Ошибка при запросе к LLM API: "
                  ++ str_of_exn Scenes.timeout_error)
          (sending (initial_request Examples.checker (lit "You check facts.")
                      (PFloat 0.1) (PInt 1000) Examples.claim_text
                      Examples.known_facts) World.initial)).
Proof.
  intros remote.
  assert (Hsp : @_get_system_prompt Examples.files Examples.checker
                = inr (lit "You check facts.")) by (vm_compute; reflexivity).
  assert (R : @completion_reply remote (length (sent World.initial))
              = inl Scenes.timeout_error) by (vm_compute; reflexivity).
  split; [exact R|].
  exact (@opening_failure_propagates remote Examples.decoder Examples.files
           Examples.checker Examples.claim_text Examples.known_facts
           World.initial (lit "You check facts.") (PFloat 0.1) (PInt 1000)
           Scenes.timeout_error Hsp eq_refl eq_refl R).
Defined.

Lemma correction_failure_propagates_witness :
  let remote := Scenes.staged [inr (lit "[1, 2"); inl Scenes.timeout_error] [] in
  let e0 := JSONDecodeError
              (lit "Expecting ',' delimiter: line 1 column 6 (char 5)") in
  @completion_reply remote (length (sent World.initial)) = inr (lit "[1, 2")
  /\ @parse_attempt Examples.decoder (lit "[1, 2") = inl e0
  /\ is_ValueError e0 = true
  /\ @completion_reply remote (S (length (sent World.initial)))
     = inl Scenes.timeout_error
  /\ @check_facts remote Examples.decoder Examples.files Examples.checker
       Examples.claim_text Examples.known_facts World.initial
     = (inl (RetryError Scenes.timeout_error),
        printing (lit "Ошибка при запросе к LLM API: "
                  ++ str_of_exn Scenes.timeout_error)
          (sending (correction_request Examples.checker (lit "[1, 2") e0)
             (printing (lit "[1, 2")
                (sending (initial_request Examples.checker
                            (lit "You check facts.") (PFloat 0.1) (PInt 1000)
                            Examples.claim_text Examples.known_facts)
                   World.initial)))).
Proof.
  intros remote e0.
  assert (Hsp : @_get_system_prompt Examples.files Examples.checker
                = inr (lit "You check facts.")) by (vm_compute; reflexivity).
  assert (R : @completion_reply remote (length (sent World.initial))
              = inr (lit "[1, 2")) by (vm_compute; reflexivity).
  assert (P : @parse_attempt Examples.decoder (lit "[1, 2") = inl e0)
    by (vm_compute; reflexivity).
  assert (X : @completion_reply remote (S (length (sent World.initial)))
              = inl Scenes.timeout_error) by (vm_compute; reflexivity).
  split; [exact R|]. split; [exact P|]. split; [reflexivity|].
  split; [exact X|].
  exact (@correction_failure_propagates remote Examples.decoder Examples.files
           Examples.checker Examples.claim_text Examples.known_facts
           World.initial (lit "You check facts.") (PFloat 0.1) (PInt 1000)
           (lit "[1, 2") e0 Scenes.timeout_error
           Hsp eq_refl eq_refl R P eq_refl X).
Defined.

Lemma verdict_comes_from_a_valid_reply_witness :
  let remote := Examples.scripted Examples.three_bad_then_valid in
  exists verdict w',
    @check_facts remote Examples.decoder Examples.files Examples.checker
      Examples.claim_text Examples.known_facts World.initial
    = (inr verdict, w')
    /\ exists i r doc,
        (length (sent World.initial) <= i < length (sent w'))%nat
        /\ @completion_reply remote i = inr r
        /\ @json_loads Examples.decoder (_clean_json_response r) = inr doc
        /\ verdict_of doc Examples.known_facts = inr verdict
        /\ relevant_facts verdict = Examples.known_facts.
Proof.
  intros remote.
  eexists. eexists. split; [vm_compute; reflexivity|].
  refine (@verdict_comes_from_a_valid_reply remote Examples.decoder
            Examples.files Examples.checker Examples.claim_text
            Examples.known_facts World.initial _ _ _).
  vm_compute. reflexivity.
Defined.

(** ** Prompts and configuration *)

Section Prompts.

Context `{Remote} `{JsonDecoder} `{FileSystem}.

(** The name of the prompt file for a language: anything but [en] selects
    the Russian prompt. *)
Lemma prompt_filename_cases language :
  lit "system_prompt_"
  ++ (if eqb language (lit "en") then lit "eng" else lit "ru") ++ lit ".txt"
  = if eqb language (lit "en") then lit "system_prompt_eng.txt"
    else lit "system_prompt_ru.txt".
Proof. now destruct (eqb language (lit "en")). Qed.

(** X12: when neither [prompts/] nor the project root holds the prompt
    file of the checker's language ([system_prompt_eng.txt] for [en],
    [system_prompt_ru.txt] for every other language), [check_facts] raises
    [FileNotFoundError] for the file in the root and sends nothing. *)
Theorem missing_prompt_file_sends_nothing (self : FactConsistencyChecker.t)
  (text : pystr) (facts : list pystr) (w : world) :
  let name := if eqb (language self) (lit "en")
              then lit "system_prompt_eng.txt"
              else lit "system_prompt_ru.txt" in
  read_text (lit "prompts/" ++ name) = None ->
  read_text name = None ->
  check_facts self text facts w = (inl (FileNotFoundError name), w).
Proof.
  intros name Hp Hr. rewrite check_facts_eq.
  unfold _get_system_prompt. cbv zeta. rewrite prompt_filename_cases.
  fold name. now rewrite Hp, Hr.
Qed.


Lemma contains_middle p a b : contains p (a ++ p ++ b) = true.
Proof. apply contains_app. Qed.

Lemma contains_extend_left p a s : contains p s = true -> contains p (a ++ s) = true.
Proof.
  intros E. induction a as [|x a IH]; [exact E|].
  simpl. rewrite IH. apply orb_true_r.
Qed.

Lemma contains_extend_right p s b :
  contains p s = true -> contains p (s ++ b) = true.
Proof.
  induction s as [|x s IH]; simpl.
  - rewrite orb_false_r. intros E. destruct p; [|discriminate].
    now destruct b.
  - intros E. apply orb_prop in E as [E|E].
    + change (x :: s ++ b) with ((x :: s) ++ b).
      now rewrite (startswith_extend p (x :: s) b E).
    + rewrite (IH E). apply orb_true_r.
Qed.

Lemma join_contains sep parts p :
  In p parts -> contains p (join sep parts) = true.
Proof.
  induction parts as [|q parts IH]; [intros []|].
  intros [-> | Hin].
  - destruct parts as [|q' parts'].
    + simpl join. rewrite <- (app_nil_r p) at 2.
      change (p ++ []) with ([] ++ p ++ []). apply contains_app.
    + change (join sep (p :: q' :: parts'))
        with (p ++ sep ++ join sep (q' :: parts')).
      change (p ++ sep ++ join sep (q' :: parts'))
        with ([] ++ p ++ sep ++ join sep (q' :: parts')).
      apply contains_app.
  - destruct parts as [|q' parts']; [destruct Hin|].
    change (join sep (q :: q' :: parts'))
      with (q ++ sep ++ join sep (q' :: parts')).
    apply contains_extend_left, contains_extend_left. now apply IH.
Qed.

(** X14: the prompt carries the text to check and every fact, each fact on
    a bullet of its own, character for character; with no facts the prompt
    ends right after [Known facts: ]. *)
Theorem prompt_holds_text_and_facts (text : pystr) (facts : list pystr) :
  contains text (_create_prompt text facts) = true
  /\ (forall fact, In fact facts ->
        contains (lit "- " ++ fact) (_create_prompt text facts) = true)
  /\ _create_prompt text []
     = lit "Input text to check: " ++ text ++ lit "
        Known facts: ".
Proof.
  unfold _create_prompt. cbv zeta. split; [apply contains_app|].
  split.
  - intros fact Hin.
    apply contains_extend_left, contains_extend_left, contains_extend_left.
    apply join_contains. now apply (in_map (fun f => lit "- " ++ f)).
  - simpl join. now rewrite app_nil_r.
Qed.

End Prompts.

Lemma missing_prompt_file_sends_nothing_witness :
  let german := FactConsistencyChecker.__init__ Examples.service None
                  (Some (lit "de")) in
  @read_text Examples.files (lit "prompts/" ++ lit "system_prompt_ru.txt")
  = None
  /\ @read_text Examples.files (lit "system_prompt_ru.txt") = None
  /\ @check_facts (Examples.scripted [Examples.valid_text]) Examples.decoder
       Examples.files german Examples.claim_text Examples.known_facts
       World.initial
     = (inl (FileNotFoundError (lit "system_prompt_ru.txt")), World.initial).
Proof.
  intros german.
  split; [reflexivity|]. split; [reflexivity|].
  exact (@missing_prompt_file_sends_nothing
           (Examples.scripted [Examples.valid_text]) Examples.decoder
           Examples.files german Examples.claim_text Examples.known_facts
           World.initial eq_refl eq_refl).
Defined.


(** ** More on the gateway *)

Section GatewayMore.

Context `{Remote}.

(** Whatever tenacity lets out of a retried call is a [RetryError]. *)
Lemma attempts_raise_RetryError {A} wait (f : M A) more n w x :
  fst (attempts wait f more n w) = inl x -> exists e, x = RetryError e.
Proof.
  revert n w. induction more as [|more IH]; intros n w; simpl.
  - destruct (f w) as [[e|a] w']; simpl; [|discriminate].
    intros [= <-]. now exists e.
  - destruct (f w) as [[e|a] w']; simpl; [|discriminate].
    unfold bindM, sleep. apply IH.
Qed.

(** X15: a failure of the first attempt is recovered: [request_gpt] and
    [request_emb] pause 4 seconds, send the same request again and return
    the second reply. *)
Theorem second_attempt_recovers (self : YandexCloudLLM.t)
  (prompt text : pystr) (system_prompt : option pystr)
  (temperature max_tokens : option number) (w : world)
  (e v : exn) (reply : pystr) (vector : list float) :
  let rq := ChatCompletion false
              (YandexCloudLLM.create_kwargs self
                 (YandexCloudLLM.build_messages prompt system_prompt)
                 temperature max_tokens) in
  let emb := EmbeddingRequest text (YandexCloudLLM.model self) in
  completion_reply (length (sent w)) = inl e ->
  completion_reply (S (length (sent w))) = inr reply ->
  embedding_reply (length (sent w)) = inl v ->
  embedding_reply (S (length (sent w))) = inr vector ->
  YandexCloudLLM.request_gpt self prompt system_prompt temperature max_tokens w
  = (inr reply, sending rq (sleeping 4 (sending rq w)))
  /\ YandexCloudLLM.request_emb self text w
     = (inr vector, sending emb (sleeping 4 (sending emb w))).
Proof.
  intros rq emb C1 C2 V1 V2. split.
  - unfold YandexCloudLLM.request_gpt, retry. cbn [Nat.sub].
    rewrite (attempts_again _ _ _ _ w e (sending rq w))
      by (unfold YandexCloudLLM.request_gpt_body;
          now rewrite chat_completions_create_eq, C1).
    rewrite wait_exponential_first.
    apply attempts_ok. unfold YandexCloudLLM.request_gpt_body.
    rewrite chat_completions_create_eq. sent_length. now rewrite C2.
  - unfold YandexCloudLLM.request_emb, retry. cbn [Nat.sub].
    rewrite (attempts_again _ _ _ _ w v (sending emb w))
      by (unfold YandexCloudLLM.request_emb_body;
          now rewrite embeddings_create_eq, V1).
    rewrite wait_exponential_first.
    apply attempts_ok. unfold YandexCloudLLM.request_emb_body.
    rewrite embeddings_create_eq. sent_length. now rewrite V2.
Qed.

(** X16: the four calls of the gateway never let the remote's own
    exception out: what a caller can catch is tenacity's [RetryError],
    which is not a [ValueError]. *)
Theorem gateway_raises_only_RetryError (self : YandexCloudLLM.t)
  (prompt system text : pystr) (system_prompt : option pystr)
  (temperature max_tokens : option number) (w : world) (x : exn) :
  fst (YandexCloudLLM.analyze_consistency self prompt system temperature
         max_tokens w) = inl x
  \/ fst (YandexCloudLLM.request_gpt self prompt system_prompt temperature
            max_tokens w) = inl x
  \/ fst (YandexCloudLLM.request_gpt_async self prompt system_prompt
            temperature max_tokens w) = inl x
  \/ fst (YandexCloudLLM.request_emb self text w) = inl x ->
  (exists e, x = RetryError e) /\ is_ValueError x = false.
Proof.
  intros Hx.
  assert (E : exists e, x = RetryError e).
  { destruct Hx as [Hx|[Hx|[Hx|Hx]]];
      eapply attempts_raise_RetryError; exact Hx. }
  split; [exact E|]. destruct E as [e ->]. reflexivity.
Qed.

End GatewayMore.

Lemma second_attempt_recovers_witness :
  let remote := Scenes.staged [inl Scenes.timeout_error; inr Examples.valid_text]
                  [inl Scenes.timeout_error; inr [1%float; 2%float]] in
  let self := Examples.service in
  let rq := ChatCompletion false
              (YandexCloudLLM.create_kwargs self
                 (YandexCloudLLM.build_messages Examples.claim_text None)
                 None None) in
  let emb := EmbeddingRequest Examples.claim_text (YandexCloudLLM.model self) in
  (@completion_reply remote (length (sent World.initial))
   = inl Scenes.timeout_error
   /\ @completion_reply remote (S (length (sent World.initial)))
      = inr Examples.valid_text
   /\ @embedding_reply remote (length (sent World.initial))
      = inl Scenes.timeout_error
   /\ @embedding_reply remote (S (length (sent World.initial)))
      = inr [1%float; 2%float])
  /\ @YandexCloudLLM.request_gpt remote self Examples.claim_text None None None
       World.initial
     = (inr Examples.valid_text,
        sending rq (sleeping 4 (sending rq World.initial)))
  /\ @YandexCloudLLM.request_emb remote self Examples.claim_text World.initial
     = (inr [1%float; 2%float],
        sending emb (sleeping 4 (sending emb World.initial))).
Proof.
  intros remote self rq emb.
  split; [split; [reflexivity|split; [reflexivity|split; reflexivity]]|].
  exact (@second_attempt_recovers remote self Examples.claim_text
           Examples.claim_text None None None World.initial
           Scenes.timeout_error Scenes.timeout_error Examples.valid_text
           [1%float; 2%float] eq_refl eq_refl eq_refl eq_refl).
Defined.

Lemma gateway_raises_only_RetryError_witness :
  let down := APIError (lit "connection refused") in
  fst (@YandexCloudLLM.request_emb Examples.unreachable Examples.service
         Examples.claim_text World.initial) = inl (RetryError down)
  /\ (exists e, RetryError down = RetryError e)
  /\ is_ValueError (RetryError down) = false.
Proof.
  intros down.
  assert (E : fst (@YandexCloudLLM.request_emb Examples.unreachable
                     Examples.service Examples.claim_text World.initial)
              = inl (RetryError down)) by (vm_compute; reflexivity).
  split; [exact E|].
  exact (@gateway_raises_only_RetryError Examples.unreachable Examples.service
           Examples.claim_text Examples.claim_text Examples.claim_text None
           None None World.initial (RetryError down)
           (or_intror (or_intror (or_intror E)))).
Defined.

(** ** More on the embedding cache *)

Section CacheMore.

Context `{Remote} `{Tokens}.

Lemma query_is_text_embedding text w :
  GraphRag._get_query_embedding text w = GraphRag._get_text_embedding text w.
Proof. reflexivity. Qed.

Lemma run_op_eq op w :
  GraphRag.run_op op w = GraphRag._get_text_embedding (Scenes.text_of op) w.
Proof. now destruct op. Qed.

(** X17: a vector fetched on a miss is found on the next request for the
    same text, whether it is asked for as a query or as a text: the same
    vector comes back and the world is not touched again. *)
Theorem miss_then_hit (op : GraphRag.cache_op) (w : world) (v : list float) :
  _embeddings_cache w !! Scenes.text_of op = None ->
  fst (GraphRag.run_op op w) = inr v ->
  let w' := snd (GraphRag.run_op op w) in
  GraphRag._get_query_embedding (Scenes.text_of op) w' = (inr v, w')
  /\ GraphRag._aget_query_embedding (Scenes.text_of op) w' = (inr v, w')
  /\ GraphRag._get_text_embedding (Scenes.text_of op) w' = (inr v, w').
Proof.
  intros Miss Ok w'.
  assert (Hit : _embeddings_cache w' !! Scenes.text_of op = Some v).
  { subst w'. rewrite run_op_eq in *.
    rewrite (text_embedding_miss _ _ Miss), Ok. apply lookup_insert_eq. }
  split; [|split].
  - now apply query_embedding_hit.
  - now apply query_embedding_hit.
  - now apply text_embedding_hit.
Qed.

(** X18: a failed fetch is not remembered: when an embedding request
    raises, the cache is what it was, so the next request for the text
    asks the remote again. *)
Theorem failure_is_not_cached (op : GraphRag.cache_op) (w : world) (e : exn) :
  fst (GraphRag.run_op op w) = inl e ->
  _embeddings_cache (snd (GraphRag.run_op op w)) = _embeddings_cache w
  /\ _embeddings_cache (snd (GraphRag.run_op op w)) !! Scenes.text_of op
     = None.
Proof.
  rewrite run_op_eq. intros Hf.
  destruct (_embeddings_cache w !! Scenes.text_of op) as [u|] eqn:E.
  - rewrite (text_embedding_hit _ u w E) in Hf. discriminate Hf.
  - rewrite (text_embedding_miss _ _ E), Hf. now split.
Qed.

(** X19: the cache only ever learns the texts it was asked for: after any
    sequence of embedding requests, every key is a key it had before or
    the text of one of the requests. *)
Theorem cache_keys_are_requested_texts (ops : list GraphRag.cache_op)
  (w : world) (k : pystr) :
  is_Some (_embeddings_cache (GraphRag.run_ops ops w) !! k) ->
  is_Some (_embeddings_cache w !! k) \/ In k (map Scenes.text_of ops).
Proof.
  revert w. induction ops as [|op ops IH]; intros w; simpl; [now left|].
  intros Hk. destruct (IH _ Hk) as [Hs|Hin]; [|now right; right].
  rewrite run_op_eq in Hs.
  destruct (_embeddings_cache w !! Scenes.text_of op) as [u|] eqn:E.
  - rewrite (text_embedding_hit _ u w E) in Hs. now left.
  - rewrite (text_embedding_miss _ _ E) in Hs.
    destruct (fst (GraphRag._get_text_embedding (Scenes.text_of op) w));
      [now left|].
    destruct (decide (Scenes.text_of op = k)) as [<-|Hne].
    + right. now left.
    + left. now rewrite lookup_insert_ne in Hs.
Qed.

Lemma request_emb_sent self text w :
  exists k, (1 <= k <= 3)%nat /\
    sent (snd (YandexCloudLLM.request_emb self text w))
    = sent w ++ repeat (EmbeddingRequest text (YandexCloudLLM.model self)) k.
Proof.
  unfold YandexCloudLLM.request_emb, retry. cbn [Nat.sub].
  apply attempts_sent. intros w0. unfold YandexCloudLLM.request_emb_body.
  now rewrite embeddings_create_eq.
Qed.

(** X20: an embedding request sends nothing on a hit and, on a miss, the
    same embedding request for the text, to the model
    [emb://<folder>/text-search-doc/latest], between one and three times;
    it never asks for a completion. *)
Theorem embedding_request_traffic (op : GraphRag.cache_op) (w : world) :
  exists k,
    sent (snd (GraphRag.run_op op w))
    = sent w ++ repeat (EmbeddingRequest (Scenes.text_of op)
                          (lit "emb://" ++ FOLDER_ID
                           ++ lit "/text-search-doc/latest")) k
    /\ (k <= 3)%nat
    /\ (k = 0%nat <-> is_Some (_embeddings_cache w !! Scenes.text_of op)).
Proof.
  rewrite run_op_eq.
  destruct (_embeddings_cache w !! Scenes.text_of op) as [u|] eqn:E.
  - exists 0%nat. rewrite (text_embedding_hit _ u w E). cbn [snd repeat].
    rewrite app_nil_r. split; [reflexivity|]. split; [lia|]. split; eauto.
  - destruct (request_emb_sent GraphRag.emb_model (Scenes.text_of op) w)
      as (k & Hk & Es).
    exists k. split; [|split; [lia|]].
    + unfold GraphRag._get_text_embedding, bindM, cache_lookup. rewrite E.
      destruct (YandexCloudLLM.request_emb GraphRag.emb_model
                  (Scenes.text_of op) w) as [[e|v] w1]; exact Es.
    + split; [lia|]. intros [? [=]].
Qed.

End CacheMore.

Lemma miss_then_hit_witness :
  let remote := Examples.embedder [2%float] in
  let op := GraphRag.TextEmbedding (lit "treaty") in
  let w' := snd (@GraphRag.run_op remote Examples.tokens op World.initial) in
  _embeddings_cache World.initial !! Scenes.text_of op = None
  /\ fst (@GraphRag.run_op remote Examples.tokens op World.initial)
     = inr [2%float]
  /\ @GraphRag._get_query_embedding remote Examples.tokens
       (Scenes.text_of op) w' = (inr [2%float], w')
  /\ @GraphRag._aget_query_embedding remote Examples.tokens
       (Scenes.text_of op) w' = (inr [2%float], w')
  /\ @GraphRag._get_text_embedding remote Examples.tokens
       (Scenes.text_of op) w' = (inr [2%float], w').
Proof.
  intros remote op w'.
  assert (Miss : _embeddings_cache World.initial !! Scenes.text_of op = None)
    by (vm_compute; reflexivity).
  assert (Ok : fst (@GraphRag.run_op remote Examples.tokens op World.initial)
               = inr [2%float]) by (vm_compute; reflexivity).
  split; [exact Miss|]. split; [exact Ok|].
  exact (@miss_then_hit remote Examples.tokens op World.initial [2%float]
           Miss Ok).
Defined.

Lemma failure_is_not_cached_witness :
  let op := GraphRag.QueryEmbedding (lit "treaty") in
  let down := RetryError (APIError (lit "connection refused")) in
  fst (@GraphRag.run_op Examples.unreachable Examples.tokens op World.initial)
  = inl down
  /\ _embeddings_cache
       (snd (@GraphRag.run_op Examples.unreachable Examples.tokens op
               World.initial))
     = _embeddings_cache World.initial
  /\ _embeddings_cache
       (snd (@GraphRag.run_op Examples.unreachable Examples.tokens op
               World.initial)) !! Scenes.text_of op = None.
Proof.
  intros op down.
  assert (F : fst (@GraphRag.run_op Examples.unreachable Examples.tokens op
                     World.initial) = inl down) by (vm_compute; reflexivity).
  split; [exact F|].
  exact (@failure_is_not_cached Examples.unreachable Examples.tokens op
           World.initial down F).
Defined.

Lemma cache_keys_are_requested_texts_witness :
  let remote := Examples.embedder [2%float] in
  let ops := [GraphRag.TextEmbedding (lit "treaty");
              GraphRag.QueryEmbedding (lit "1991")] in
  is_Some (_embeddings_cache
             (@GraphRag.run_ops remote Examples.tokens ops World.initial)
           !! lit "1991")
  /\ (is_Some (_embeddings_cache World.initial !! lit "1991")
      \/ In (lit "1991") (map Scenes.text_of ops)).
Proof.
  intros remote ops.
  assert (S : is_Some (_embeddings_cache
                         (@GraphRag.run_ops remote Examples.tokens ops
                            World.initial) !! lit "1991")).
  { exists [2%float]. vm_compute. reflexivity. }
  split; [exact S|].
  exact (@cache_keys_are_requested_texts remote Examples.tokens ops
           World.initial (lit "1991") S).
Defined.

(** ** chunk_getter.py *)

Section Chunks.

Context {Document Node : Type} `{ChunkGetter.Ingestion Document Node}.

Lemma split_never_empty sep s : ChunkGetter.split sep s <> [].
Proof.
  destruct s as [|c s]; simpl; [discriminate|].
  destruct (c =? sep)%N; [discriminate|].
  destruct (ChunkGetter.split sep s); discriminate.
Qed.

(** No piece of a split holds the separator. *)
Lemma split_pieces_free sep s :
  Forall (fun piece => ~ In sep piece) (ChunkGetter.split sep s).
Proof.
  induction s as [|c s IH]; simpl.
  - constructor; [intros []|constructor].
  - destruct (c =? sep)%N eqn:E.
    + constructor; [intros []|exact IH].
    + destruct (ChunkGetter.split sep s) as [|piece pieces].
      * constructor; [|constructor].
        intros [->|[]]. now rewrite N.eqb_refl in E.
      * inversion IH as [|? ? Hp Hr]; subst.
        constructor; [|exact Hr].
        intros [->|Hin]; [now rewrite N.eqb_refl in E | now apply Hp].
Qed.

(** Joining the pieces with the separator gives the text back. *)
Lemma join_split sep s : join [sep] (ChunkGetter.split sep s) = s.
Proof.
  induction s as [|c s IH]; [reflexivity|].
  simpl ChunkGetter.split. destruct (c =? sep)%N eqn:E.
  - apply N.eqb_eq in E. subst c.
    destruct (ChunkGetter.split sep s) as [|piece pieces] eqn:Es.
    + now destruct (split_never_empty sep s).
    + change (join [sep] ([] :: piece :: pieces))
        with (sep :: join [sep] (piece :: pieces)).
      now rewrite IH.
  - destruct (ChunkGetter.split sep s) as [|piece pieces] eqn:Es.
    + now destruct (split_never_empty sep s).
    + destruct pieces as [|q pieces]; simpl in *; now rewrite IH.
Qed.

(** X21: when [llm_chunks] gets through its loop, the SDK was run once
    per document, in order, each time with the instruction and the
    document's text as two user messages, and every sentence collected is
    free of periods and not blank. *)
Theorem rewritten_sentences_are_clean (docs : list Document)
  (made made' : ChunkGetter.runs) (sentences : list pystr) :
  ChunkGetter.rewritten_sentences docs made = (inr sentences, made') ->
  made' = made ++ map ChunkGetter.rewrite_messages docs
  /\ Forall (fun sentence =>
               ChunkGetter.nonblank sentence = true /\ ~ In 46%N sentence)
       sentences.
Proof.
  revert made made' sentences.
  induction docs as [|doc docs IH]; intros made made' sentences.
  - simpl. intros [= <- <-]. rewrite app_nil_r. split; constructor.
  - cbn [ChunkGetter.rewritten_sentences]. cbv zeta.
    destruct (ChunkGetter.completions_run (length made)
                (ChunkGetter.rewrite_messages doc)) as [e|new_doc];
      [discriminate|].
    destruct (Nat.eqb (length new_doc) 0); [discriminate|].
    destruct (ChunkGetter.rewritten_sentences docs
                (made ++ [ChunkGetter.rewrite_messages doc]))
      as [[f|more] made1] eqn:R; [discriminate|].
    intros [= <- <-].
    destruct (IH _ _ _ R) as (-> & Hmore).
    split; [cbn [map]; now rewrite <- app_assoc|].
    apply Forall_app. split; [|exact Hmore].
    apply List.Forall_forall. intros sentence Hin.
    apply filter_In in Hin as [Hin Hnb]. split; [exact Hnb|].
    pose proof (split_pieces_free 46 new_doc) as Hfree.
    rewrite List.Forall_forall in Hfree. now apply Hfree.
Qed.

(** X22: an empty completion stops [llm_chunks] on the spot: the [assert]
    fails with [no result], the documents after it are not sent, and the
    sentences gathered so far are lost. *)
Theorem empty_completion_stops_the_loop (before after : list Document)
  (doc : Document) (made made1 : ChunkGetter.runs) (sentences : list pystr) :
  ChunkGetter.rewritten_sentences before made = (inr sentences, made1) ->
  ChunkGetter.completions_run (length made1)
    (ChunkGetter.rewrite_messages doc) = inr [] ->
  ChunkGetter.rewritten_sentences (before ++ doc :: after) made
  = (inl (ChunkGetter.AssertionError (lit "no result")),
     made ++ map ChunkGetter.rewrite_messages (before ++ [doc])).
Proof.
  revert made made1 sentences.
  induction before as [|d before IH]; intros made made1 sentences.
  - simpl. intros [= _ <-] Hrun. now rewrite Hrun.
  - cbn [app ChunkGetter.rewritten_sentences]. cbv zeta.
    destruct (ChunkGetter.completions_run (length made)
                (ChunkGetter.rewrite_messages d)) as [e|new_doc];
      [discriminate|].
    destruct (Nat.eqb (length new_doc) 0); [discriminate|].
    destruct (ChunkGetter.rewritten_sentences before
                (made ++ [ChunkGetter.rewrite_messages d]))
      as [[f|more] made2] eqn:R; [discriminate|].
    intros [= _ <-] Hrun.
    rewrite (IH _ _ _ R Hrun). cbn [map]. now rewrite <- app_assoc.
Qed.

(** X23: [node_getter] with a chunker that is neither [basic] nor [LLM]
    (a misspelt one, say) returns no nodes and runs nothing, provided the
    documents could be read when the format is [text]. *)
Theorem unknown_chunker_gives_no_nodes (self : ChunkGetter.Data)
  (made : ChunkGetter.runs) :
  eqb (ChunkGetter.chunker self) (lit "basic") = false ->
  eqb (ChunkGetter.chunker self) (lit "LLM") = false ->
  (eqb (ChunkGetter.format self) (lit "text") = true ->
   exists docs,
     ChunkGetter.load_data (ChunkGetter.data_path self) = inr docs) ->
  ChunkGetter.node_getter self made = (inr [], made).
Proof.
  intros Hb Hl Hload. unfold ChunkGetter.node_getter. rewrite Hb, Hl.
  destruct (eqb (ChunkGetter.format self) (lit "text")); [|reflexivity].
  destruct (Hload eq_refl) as [docs ->]. reflexivity.
Qed.

End Chunks.

Lemma rewritten_sentences_are_clean_witness :
  let sdk := Scenes.texts [lit "The treaty was signed in 1992. Talks began in 1989. ";
                           lit "It entered into force in 1993..."] in
  let first := lit "The treaty was signed in 1992 after talks that began in 1989." in
  let second := lit "It entered into force in 1993." in
  let sentences := [lit "The treaty was signed in 1992";
                    lit " Talks began in 1989";
                    lit "It entered into force in 1993"] in
  let made' := [[(lit "user", ChunkGetter.rewrite_instruction);
                 (lit "user", first)];
                [(lit "user", ChunkGetter.rewrite_instruction);
                 (lit "user", second)]] in
  @ChunkGetter.rewritten_sentences pystr pystr sdk [first; second] []
  = (inr sentences, made')
  /\ made' = [] ++ map (@ChunkGetter.rewrite_messages _ _ sdk) [first; second]
  /\ Forall (fun sentence =>
               ChunkGetter.nonblank sentence = true /\ ~ In 46%N sentence)
       sentences.
Proof.
  intros sdk first second sentences made'.
  assert (E : @ChunkGetter.rewritten_sentences pystr pystr sdk
                [first; second] [] = (inr sentences, made'))
    by (vm_compute; reflexivity).
  split; [exact E|].
  exact (@rewritten_sentences_are_clean pystr pystr sdk [first; second] []
           made' sentences E).
Defined.

Lemma empty_completion_stops_the_loop_witness :
  let sdk := Scenes.texts [lit "The treaty was signed in 1992."; []] in
  let first := lit "The treaty was signed in 1992 after talks that began in 1989." in
  let second := lit "It entered into force in 1993." in
  @ChunkGetter.rewritten_sentences pystr pystr sdk [first] []
  = (inr [lit "The treaty was signed in 1992"],
     [@ChunkGetter.rewrite_messages _ _ sdk first])
  /\ @ChunkGetter.completions_run _ _ sdk 1
       (@ChunkGetter.rewrite_messages _ _ sdk second) = inr []
  /\ @ChunkGetter.rewritten_sentences pystr pystr sdk
       ([first] ++ second :: [second]) []
     = (inl (ChunkGetter.AssertionError (lit "no result")),
        [] ++ map (@ChunkGetter.rewrite_messages _ _ sdk) ([first] ++ [second])).
Proof.
  intros sdk first second.
  assert (E : @ChunkGetter.rewritten_sentences pystr pystr sdk [first] []
              = (inr [lit "The treaty was signed in 1992"],
                 [@ChunkGetter.rewrite_messages _ _ sdk first]))
    by (vm_compute; reflexivity).
  assert (R : @ChunkGetter.completions_run _ _ sdk
                (length [@ChunkGetter.rewrite_messages _ _ sdk first])
                (@ChunkGetter.rewrite_messages _ _ sdk second) = inr [])
    by (vm_compute; reflexivity).
  split; [exact E|]. split; [exact R|].
  exact (@empty_completion_stops_the_loop pystr pystr sdk [first] [second]
           second [] _ _ E R).
Defined.

Lemma unknown_chunker_gives_no_nodes_witness :
  let sdk := Scenes.texts [] in
  let self := ChunkGetter.__init__ (lit "claim") (lit "/data") None
                (Some (lit "llm")) None None in
  eqb (ChunkGetter.chunker self) (lit "basic") = false
  /\ eqb (ChunkGetter.chunker self) (lit "LLM") = false
  /\ @ChunkGetter.node_getter pystr pystr sdk self [] = (inr [], []).
Proof.
  intros sdk self.
  split; [reflexivity|]. split; [reflexivity|].
  refine (@unknown_chunker_gives_no_nodes pystr pystr sdk self []
            eq_refl eq_refl _).
  intros _. eexists. reflexivity.
Defined.

(** ** main.py: the pipeline *)

Section Pipeline.

Context {Index : Type} `{Retrieval.LlamaIndex Index} `{Remote}
  `{JsonDecoder} `{FileSystem} `{Tokens}.

(** X24: in [main], a verdict lists as [relevant_facts] the texts of the
    nodes the reranker returned (retrieved with [vector_top_k = 30],
    reranked with [top_n = 5]), in the reranker's order. *)
Theorem main_facts_are_reranked_nodes (graph_index : Index)
  (input_promt language : pystr) (w w' : world)
  (verdict : FactCheckResult) :
  Main.check_prompt graph_index input_promt language w = (inr verdict, w') ->
  exists found nodes w1 w2,
    Retrieval.retrieve graph_index
      {| Retrieval.include_text := true; Retrieval.max_keywords := 8;
         Retrieval.similarity_top_k := 30; Retrieval.path_depth := 5 |}
      input_promt w = (inr found, w1)
    /\ Retrieval.postprocess_nodes
         {| Retrieval.choice_batch_size := 5; Retrieval.top_n := 5;
            Retrieval.choice_select_prompt := Retrieval.prompt_str |}
         found input_promt w1 = (inr nodes, w2)
    /\ relevant_facts verdict = map Retrieval.get_text nodes.
Proof.
  unfold Main.check_prompt, Retrieval.get_retrieved_nodes. cbv zeta.
  unfold bindM at 1. unfold bindM at 1.
  destruct (Retrieval.retrieve graph_index _ input_promt w)
    as [[e|found] w1] eqn:Er; [discriminate|].
  unfold bindM at 1.
  destruct (Retrieval.postprocess_nodes _ found input_promt w1)
    as [[e|nodes] w2] eqn:Ep; [discriminate|].
  unfold retM. intros Hc.
  apply check_facts_returns_inv in Hc as (i & r & doc & _ & _ & _ & _ & Hf).
  exists found, nodes, w1, w2.
  split; [reflexivity|]. split; [exact Ep | exact Hf].
Qed.

(** When retrieval or reranking fails in [main], the failure is what
    [main] ends with and the verifier sends nothing. *)
Lemma main_stops_when_retrieval_fails (graph_index : Index)
  (input_promt language : pystr) (w w1 : world) (e : exn) :
  Retrieval.get_retrieved_nodes graph_index input_promt 30 5 true w
  = (inl e, w1) ->
  Main.check_prompt graph_index input_promt language w = (inl e, w1).
Proof.
  intros Hr. unfold Main.check_prompt. cbv zeta. unfold bindM at 1.
  now rewrite Hr.
Qed.

End Pipeline.

Lemma main_facts_are_reranked_nodes_witness :
  let remote := Examples.scripted [Examples.valid_text] in
  exists verdict w',
    @Main.check_prompt unit Examples.five_nodes remote Examples.decoder
      Examples.files Examples.tokens tt Examples.claim_text (lit "en")
      World.initial = (inr verdict, w')
    /\ exists found nodes w1 w2,
      @Retrieval.retrieve unit Examples.five_nodes tt
        {| Retrieval.include_text := true; Retrieval.max_keywords := 8;
           Retrieval.similarity_top_k := 30; Retrieval.path_depth := 5 |}
        Examples.claim_text World.initial = (inr found, w1)
      /\ @Retrieval.postprocess_nodes unit Examples.five_nodes
           {| Retrieval.choice_batch_size := 5; Retrieval.top_n := 5;
              Retrieval.choice_select_prompt := Retrieval.prompt_str |}
           found Examples.claim_text w1 = (inr nodes, w2)
      /\ relevant_facts verdict = map Retrieval.get_text nodes.
Proof.
  intros remote.
  eexists. eexists. split; [vm_compute; reflexivity|].
  refine (@main_facts_are_reranked_nodes unit Examples.five_nodes remote
            Examples.decoder Examples.files Examples.tokens tt
            Examples.claim_text (lit "en") World.initial _ _ _).
  vm_compute. reflexivity.
Defined.
